(** * RefDental dashboard: the three dataset generators, embedded and verified

    The repository holds three Node.js scripts that are run one after the
    other and talk through CSV files in the working directory:

    - [generate-pat-data.js]  (module [Appointments]) writes [Pat_App_Data.csv];
    - the operations generator (module [Operations]) reads that file and
      writes [Dental_Operations_Data.csv] and two side tables;
    - the financial generator (module [Financial]) reads [Pat_App_Data.csv]
      and [Operations_Data.csv] and writes [Financial_Data.csv].

    Conventions of the embedding.

    - JavaScript numbers are idealised: a finite double is a rational
      ([Q]), integers that the code obtains through [Math.round],
      [Math.floor] or [parseInt] are kept in [Z], and a number that may be
      the result of a division by a variable denominator is a [Js.num],
      which adds [Infinity], [-Infinity] and [NaN].  Negative zero is not
      distinguished from zero.
    - [Math.random()] reads the next value of an oracle [rnd : nat -> Q];
      the position in the oracle is part of the state, so draws happen in
      the order of the source.
    - [Date] is a number of milliseconds since the epoch.  The time zone
      of the host is a parameter of the appointment script
      ([JsDate.Zone], a fixed offset from UTC): its range of dates, the
      year and month of a visit, its recall gate and its sort read local
      time, while [toISOString] and the parse of a date without a time
      are in UTC.  The operations and the financial script are modelled
      on a host at UTC, where local getters and [toISOString] agree, and
      so is the pipeline that runs the three scripts in turn.
    - A JavaScript object literal is an association list in key order.
    - The working directory is a finite map from file names to contents. *)

From Stdlib Require Import ZArith QArith Qround String Ascii List Lia Lqa.
From Stdlib Require Import Decimal DecimalString.
From stdpp Require Import base option gmap strings list.

Local Open Scope Z_scope.

(* ================================================================== *)
(** * JavaScript numbers *)
(* ================================================================== *)

Module Js.

Inductive num : Type :=
| Num (q : Q)
| PosInf
| NegInf
| NaN.

Definition Qltb (a b : Q) : bool := negb (Qle_bool b a).
Definition Qleb (a b : Q) : bool := Qle_bool a b.
Definition Qzero (a : Q) : bool := Qeq_bool a 0%Q.

Definition Qmin (a b : Q) : Q := if Qleb a b then a else b.
Definition Qmax (a b : Q) : Q := if Qleb a b then b else a.

Definition ofZ (z : Z) : num := Num (inject_Z z).

(** [Math.floor] and [Math.round] on a finite number.  [Math.round]
    rounds half-way cases up: it is [floor (x + 1/2)]. *)
Definition floor (x : Q) : Z := Qfloor x.
Definition round (x : Q) : Z := Qfloor (x + (1 # 2))%Q.

Definition isFinite (x : num) : bool :=
  match x with Num _ => true | _ => false end.

Definition neg (x : num) : num :=
  match x with
  | Num q => Num (- q)%Q
  | PosInf => NegInf
  | NegInf => PosInf
  | NaN => NaN
  end.

Definition signedInf (positive : bool) : num :=
  if positive then PosInf else NegInf.

Definition add (a b : num) : num :=
  match a, b with
  | NaN, _ | _, NaN => NaN
  | Num x, Num y => Num (x + y)%Q
  | PosInf, NegInf | NegInf, PosInf => NaN
  | PosInf, _ | _, PosInf => PosInf
  | NegInf, _ | _, NegInf => NegInf
  end.

Definition sub (a b : num) : num := add a (neg b).

Definition mul (a b : num) : num :=
  match a, b with
  | NaN, _ | _, NaN => NaN
  | Num x, Num y => Num (x * y)%Q
  | Num x, PosInf | PosInf, Num x =>
      if Qzero x then NaN else signedInf (Qltb 0%Q x)
  | Num x, NegInf | NegInf, Num x =>
      if Qzero x then NaN else signedInf (Qltb x 0%Q)
  | PosInf, PosInf | NegInf, NegInf => PosInf
  | PosInf, NegInf | NegInf, PosInf => NegInf
  end.

(** The [/] operator: a zero denominator gives [NaN] for [0/0] and an
    infinity otherwise. *)
Definition div (a b : num) : num :=
  match a, b with
  | NaN, _ | _, NaN => NaN
  | Num x, Num y =>
      if Qzero y
      then (if Qzero x then NaN else signedInf (Qltb 0%Q x))
      else Num (x / y)%Q
  | Num _, (PosInf | NegInf) => Num 0%Q
  | PosInf, Num y => signedInf (negb (Qltb y 0%Q))
  | NegInf, Num y => signedInf (Qltb y 0%Q)
  | (PosInf | NegInf), (PosInf | NegInf) => NaN
  end.

Definition mathRound (a : num) : num :=
  match a with
  | Num x => ofZ (round x)
  | other => other
  end.

Definition mathMin (a b : num) : num :=
  match a, b with
  | NaN, _ | _, NaN => NaN
  | NegInf, _ | _, NegInf => NegInf
  | PosInf, other | other, PosInf => other
  | Num x, Num y => Num (Qmin x y)
  end.

Definition mathMax (a b : num) : num :=
  match a, b with
  | NaN, _ | _, NaN => NaN
  | PosInf, _ | _, PosInf => PosInf
  | NegInf, other | other, NegInf => other
  | Num x, Num y => Num (Qmax x y)
  end.

(** [a > b]; every comparison with [NaN] is false. *)
Definition gt (a b : num) : bool :=
  match a, b with
  | NaN, _ | _, NaN => false
  | Num x, Num y => Qltb y x
  | PosInf, PosInf => false
  | PosInf, _ => true
  | _, NegInf => match a with NegInf => false | _ => true end
  | _, _ => false
  end.

(** [a >= b]. *)
Definition ge (a b : num) : bool :=
  match a, b with
  | NaN, _ | _, NaN => false
  | Num x, Num y => Qleb y x
  | PosInf, _ | _, NegInf => true
  | _, _ => false
  end.

(** [ToIntegerOrInfinity] on a finite number: towards zero. *)
Definition trunc (x : Q) : Z := Z.quot (Qnum x) (Z.pos (Qden x)).

(** [Math.floor(Math.pow(u, 1.5) * n)] for an integer [n >= 0], computed
    exactly: it is the integer square root of [u^3 * n^2].  A negative
    base has no real power 1.5: the result is [NaN], here [None]. *)
Definition floorPow15 (u : Q) (n : Z) : option Z :=
  if Qltb u 0%Q then None
  else
    let p := Qnum u ^ 3 * n ^ 2 in
    let q := Z.pos (Qden u) ^ 3 in
    Some (Z.sqrt (p * q) / q).

(** [a === b] on numbers: [NaN] equals nothing. *)
Definition eqb (a b : num) : bool :=
  match a, b with
  | Num x, Num y => Qeq_bool x y
  | PosInf, PosInf | NegInf, NegInf => true
  | _, _ => false
  end.

(** Truthiness of a number: [0] and [NaN] are falsy. *)
Definition truthy (a : num) : bool :=
  match a with
  | Num x => negb (Qzero x)
  | NaN => false
  | _ => true
  end.

(** [a || 0] on numbers. *)
Definition orZero (a : num) : num := if truthy a then a else Num 0%Q.

End Js.

(* ================================================================== *)
(** * JavaScript strings *)
(* ================================================================== *)

Module JsString.

Local Open Scope string_scope.

Fixpoint repeat (c : ascii) (n : nat) : string :=
  match n with
  | O => ""
  | S k => String c (repeat c k)
  end.

(** [s.padStart(n, '0')]: never truncates. *)
Definition padStart (n : nat) (c : ascii) (s : string) : string :=
  repeat c (n - String.length s) +:+ s.

(** [String(z)] for an integer: its decimal numeral. *)
Definition ofZ (z : Z) : string := NilZero.string_of_int (Z.to_int z).

Definition isSpace (c : ascii) : bool :=
  match c with
  | " "%char | "009"%char | "010"%char | "011"%char | "012"%char
  | "013"%char => true
  | _ => false
  end.

Fixpoint trimStart (s : string) : string :=
  match s with
  | String c rest => if isSpace c then trimStart rest else s
  | "" => ""
  end.

(** [!s.trim()]: the string holds white space only. *)
Definition blank (s : string) : bool :=
  match trimStart s with "" => true | _ => false end.

(** [s.split(sep)] for a one-character separator: always at least one
    piece. *)
Fixpoint splitAux (sep : ascii) (cur : string) (s : string) : list string :=
  match s with
  | "" => [String.rev cur]
  | String c rest =>
      if Ascii.eqb c sep
      then String.rev cur :: splitAux sep "" rest
      else splitAux sep (String c cur) rest
  end.

Definition split (sep : ascii) (s : string) : list string := splitAux sep "" s.

Fixpoint join (sep : string) (l : list string) : string :=
  match l with
  | [] => ""
  | [x] => x
  | x :: rest => x +:+ sep +:+ join sep rest
  end.

Definition quote : ascii := "034"%char.

Definition dropLastQuote (s : string) : string :=
  match String.rev s with
  | String c rest => if Ascii.eqb c quote then String.rev rest else s
  | "" => s
  end.

(** [s.replace(/^"|"$/g, '')]: one leading and one trailing quote go. *)
Definition stripQuotes (s : string) : string :=
  match s with
  | String c rest =>
      if Ascii.eqb c quote then dropLastQuote rest else dropLastQuote s
  | "" => ""
  end.

Definition digitValue (c : ascii) : option Z :=
  let n := Z.of_nat (nat_of_ascii c) in
  if ((48 <=? n) && (n <=? 57))%Z then Some (n - 48) else None.

Definition hexValue (c : ascii) : option Z :=
  let n := Z.of_nat (nat_of_ascii c) in
  if ((48 <=? n) && (n <=? 57))%Z then Some (n - 48)
  else if ((97 <=? n) && (n <=? 102))%Z then Some (n - 87)
  else if ((65 <=? n) && (n <=? 70))%Z then Some (n - 55)
  else None.

(** Longest prefix of digits in the given radix: its value, how many
    digits were read, and the rest of the string. *)
Fixpoint readDigits (value : ascii -> option Z) (radix acc : Z) (count : nat)
    (s : string) : Z * nat * string :=
  match s with
  | String c rest =>
      match value c with
      | Some d => readDigits value radix (acc * radix + d) (S count) rest
      | None => (acc, count, s)
      end
  | "" => (acc, count, s)
  end.

Definition readSign (s : string) : bool * string :=
  match s with
  | String "-" rest => (true, rest)
  | String "+" rest => (false, rest)
  | _ => (false, s)
  end.

(** [parseInt(s)] with no radix argument; [None] is [NaN]. *)
Definition parseInt (s : string) : option Z :=
  let '(negative, body) := readSign (trimStart s) in
  let '(value, count, _) :=
    match body with
    | String "0" (String ("x" | "X") hex) => readDigits hexValue 16 0 0 hex
    | _ => readDigits digitValue 10 0 0 body
    end in
  match count with
  | O => None
  | _ => Some (if negative then - value else value)
  end.

(** [parseInt(s) || 0]. *)
Definition parseIntOrZero (s : string) : Z := default 0 (parseInt s).

Definition pow10 (n : nat) : Z := 10 ^ Z.of_nat n.

Definition readExponent (s : string) : Z :=
  match s with
  | String ("e" | "E") rest =>
      let '(negative, digits) := readSign rest in
      let '(value, count, _) := readDigits digitValue 10 0 0 digits in
      match count with
      | O => 0
      | _ => if negative then - value else value
      end
  | _ => 0
  end.

Definition scale10 (q : Q) (e : Z) : Q :=
  if (0 <=? e)%Z then (q * inject_Z (10 ^ e))%Q else (q / inject_Z (10 ^ (- e)))%Q.

(** [parseFloat(s)]: the longest prefix that is a decimal literal. *)
Definition parseFloat (s : string) : Js.num :=
  let '(negative, body) := readSign (trimStart s) in
  if String.prefix "Infinity" body then Js.signedInf (negb negative)
  else
    let '(whole, wholeCount, afterWhole) := readDigits digitValue 10 0 0 body in
    let '(frac, fracCount, afterFrac) :=
      match afterWhole with
      | String "." rest => readDigits digitValue 10 0 0 rest
      | _ => (0, O, afterWhole)
      end in
    match wholeCount, fracCount with
    | O, O => Js.NaN
    | _, _ =>
        let mantissa :=
          (inject_Z whole + inject_Z frac / inject_Z (pow10 fracCount))%Q in
        let value := scale10 mantissa (readExponent afterFrac) in
        Js.Num (if negative then (- value)%Q else value)
    end.

(** [x.toFixed(digits)]: the nearest decimal with that many fraction
    digits, ties away from zero. *)
Definition toFixed (digits : nat) (x : Js.num) : string :=
  match x with
  | Js.NaN => "NaN"
  | Js.PosInf => "Infinity"
  | Js.NegInf => "-Infinity"
  | Js.Num q =>
      let negative := Js.Qltb q 0%Q in
      let magnitude := if negative then (- q)%Q else q in
      let n := Js.round (magnitude * inject_Z (pow10 digits))%Q in
      let text := padStart (S digits) "0" (ofZ n) in
      let whole := String.substring 0 (String.length text - digits) text in
      let frac := String.substring (String.length text - digits) digits text in
      (if negative then "-" else "") +:+ whole +:+
      (match digits with O => "" | _ => "." +:+ frac end)
  end.

End JsString.

(* ================================================================== *)
(** * JavaScript dates *)
(* ================================================================== *)

Module JsDate.

(** A valid [Date] is its time value: milliseconds since 1970-01-01. *)
Definition Date : Type := Z.

Definition msPerDay : Z := 86400000.
Definition msPerMinute : Z := 60000.

(** Day number of a calendar date; [month] counts from 1. *)
Definition daysFromCivil (year month day : Z) : Z :=
  let y := if month <=? 2 then year - 1 else year in
  let era := y / 400 in
  let yoe := y - era * 400 in
  let mp := if 2 <? month then month - 3 else month + 9 in
  let doy := (153 * mp + 2) / 5 + day - 1 in
  let doe := yoe * 365 + yoe / 4 - yoe / 100 + doy in
  era * 146097 + doe - 719468.

(** Calendar date (year, month from 1, day) of a day number. *)
Definition civilFromDays (days : Z) : Z * Z * Z :=
  let z := days + 719468 in
  let era := z / 146097 in
  let doe := z - era * 146097 in
  let yoe := (doe - doe / 1460 + doe / 36524 - doe / 146096) / 365 in
  let doy := doe - (365 * yoe + yoe / 4 - yoe / 100) in
  let mp := (5 * doy + 2) / 153 in
  let d := doy - (153 * mp + 2) / 5 + 1 in
  let m := if mp <? 10 then mp + 3 else mp - 9 in
  let y := yoe + era * 400 + (if m <=? 2 then 1 else 0) in
  (y, m, d).

Definition dayOf (t : Date) : Z := t / msPerDay.
Definition timeInDay (t : Date) : Z := t mod msPerDay.

Definition getFullYear (t : Date) : Z := let '(y, _, _) := civilFromDays (dayOf t) in y.
(** [getMonth] counts from 0. *)
Definition getMonth (t : Date) : Z := let '(_, m, _) := civilFromDays (dayOf t) in m - 1.
Definition getDate (t : Date) : Z := let '(_, _, d) := civilFromDays (dayOf t) in d.
(** [getDay]: 0 is Sunday; 1970-01-01 was a Thursday. *)
Definition getDay (t : Date) : Z := (dayOf t + 4) mod 7.

(** The specification's [MakeDay]: months and days out of range carry
    over.  [month] counts from 0. *)
Definition makeDay (year month date : Z) : Z :=
  daysFromCivil (year + month / 12) (month mod 12 + 1) 1 + date - 1.

(** [new Date(year, month, date)]. *)
Definition make (year month date : Z) : Date := makeDay year month date * msPerDay.

Definition setDate (t : Date) (date : Z) : Date :=
  makeDay (getFullYear t) (getMonth t) date * msPerDay + timeInDay t.

Definition setMonth (t : Date) (month : Z) : Date :=
  makeDay (getFullYear t) month (getDate t) * msPerDay + timeInDay t.

Definition setFullYear (t : Date) (year : Z) : Date :=
  makeDay year (getMonth t) (getDate t) * msPerDay + timeInDay t.

Definition pad (n : nat) (z : Z) : string := JsString.padStart n "0" (JsString.ofZ z).

(** [date.toISOString().split('T')[0]]: the [formatDate] helper that all
    three scripts define. *)
Definition formatDate (t : Date) : string :=
  let '(y, m, d) := civilFromDays (dayOf t) in
  pad 4 y +:+ "-" +:+ pad 2 m +:+ "-" +:+ pad 2 d.

(** A field of exactly [n] digits. *)
Definition readField (n : nat) (s : string) : option (Z * string) :=
  let '(value, count, rest) := JsString.readDigits JsString.digitValue 10 0 0
                                 (String.substring 0 n s) in
  if (count =? n)%nat && (String.length rest =? 0)%nat
  then Some (value, String.substring n (String.length s - n) s)
  else None.

Definition expect (c : ascii) (s : string) : option string :=
  match s with
  | String c' rest => if Ascii.eqb c c' then Some rest else None
  | "" => None
  end.

Definition validDay (year month day : Z) : bool :=
  (1 <=? month) && (month <=? 12) && (1 <=? day) &&
  (day <=? daysFromCivil (year + month / 12) (month mod 12 + 1) 1
           - daysFromCivil year month 1).

(** [new Date(s)] for the two ISO shapes the scripts build:
    [YYYY-MM-DD] (midnight UTC) and [YYYY-MM-DDTHH:mm] (local time).
    [None] is an invalid date. *)
Definition parse (s : string) : option Date :=
  '(year, s1) ← readField 4 s;
  s2 ← expect "-" s1;
  '(month, s3) ← readField 2 s2;
  s4 ← expect "-" s3;
  '(day, s5) ← readField 2 s4;
  if negb (validDay year month day) then None
  else
    match s5 with
    | "" => Some (daysFromCivil year month day * msPerDay)
    | _ =>
        s6 ← expect "T" s5;
        '(hour, s7) ← readField 2 s6;
        s8 ← expect ":" s7;
        '(minute, s9) ← readField 2 s8;
        match s9 with
        | "" =>
            if (hour <=? 23) && (minute <=? 59)
            then Some (daysFromCivil year month day * msPerDay
                       + (hour * 60 + minute) * msPerMinute)
            else None
        | _ => None
        end
    end.

(** ** The host's time zone

    [toISOString] and [new Date] of a date without a time work on UTC;
    the getters, the setters, [new Date(year, month, date)] and [new Date]
    of a date with a time work on the local time of the host.  A [Zone]
    is the offset of local time from UTC in minutes ([-480] for UTC-8); it
    is taken as fixed, daylight saving is left out.  The functions above
    are those of a host at UTC; the functions below are those of a host
    in [zone]. *)
Definition Zone : Type := Z.
Definition utc : Zone := 0.

Definition toLocal (zone : Zone) (t : Date) : Z := t + zone * msPerMinute.
Definition ofLocal (zone : Zone) (local : Z) : Date := local - zone * msPerMinute.

Definition getFullYearIn (zone : Zone) (t : Date) : Z := getFullYear (toLocal zone t).
Definition getMonthIn (zone : Zone) (t : Date) : Z := getMonth (toLocal zone t).
Definition getDateIn (zone : Zone) (t : Date) : Z := getDate (toLocal zone t).

Definition makeIn (zone : Zone) (year month date : Z) : Date :=
  ofLocal zone (make year month date).

Definition setDateIn (zone : Zone) (t : Date) (date : Z) : Date :=
  ofLocal zone (setDate (toLocal zone t) date).

(** [new Date(s)]: a text of ten characters is a date without a time and
    is read as UTC; a date with a time is read as local time. *)
Definition parseIn (zone : Zone) (s : string) : option Date :=
  t ← parse s;
  Some (if (String.length s =? 10)%nat then t else ofLocal zone t).

End JsDate.

(* ================================================================== *)
(** * Objects, CSV text and the working directory *)
(* ================================================================== *)

Module Obj.

(** The values the generators store in a row. *)
Inductive Val : Type :=
| VStr (s : string)
| VNum (x : Js.num)
| VBool (b : bool)
| VUndef.

(** An integer-valued number. *)
Abbreviation VInt z := (VNum (Js.ofZ z)).

(** An object literal: its keys in insertion order. *)
Abbreviation Object := (list (string * Val)).

Fixpoint get (key : string) (o : Object) : Val :=
  match o with
  | [] => VUndef
  | (k, v) :: rest => if String.eqb k key then v else get key rest
  end.

(** [o[key] = v]: an existing key keeps its place. *)
Fixpoint set (key : string) (v : Val) (o : Object) : Object :=
  match o with
  | [] => [(key, v)]
  | (k, old) :: rest =>
      if String.eqb k key then (k, v) :: rest else (k, old) :: set key v rest
  end.

Definition keys (o : Object) : list string := map fst o.

(** [a === b]. *)
Definition strictEq (a b : Val) : bool :=
  match a, b with
  | VStr x, VStr y => String.eqb x y
  | VNum x, VNum y => Js.eqb x y
  | VBool x, VBool y => Bool.eqb x y
  | VUndef, VUndef => true
  | _, _ => false
  end.

(** [v === s] for a string [s]. *)
Definition isString (v : Val) (s : string) : bool :=
  match v with VStr x => String.eqb x s | _ => false end.

Definition ofOption (s : option string) : Val :=
  match s with Some x => VStr x | None => VUndef end.

(** A value inside a template literal. *)
Definition template (s : option string) : string := default "undefined" s.

(** Fraction digits of [r / d], at most [fuel] of them, stopping when the
    division comes out even. *)
Fixpoint fractionDigits (fuel : nat) (r d : Z) : string :=
  match fuel with
  | O => ""
  | S k =>
      if r =? 0 then ""
      else JsString.ofZ (r * 10 / d) +:+ fractionDigits k (r * 10 mod d) d
  end.

(** [String(x)] for a number: exact for integers and for decimals of up
    to 20 fraction digits, cut there otherwise. *)
Definition numberToString (x : Js.num) : string :=
  match x with
  | Js.NaN => "NaN"
  | Js.PosInf => "Infinity"
  | Js.NegInf => "-Infinity"
  | Js.Num q =>
      let n := Z.abs (Qnum q) in
      let d := Z.pos (Qden q) in
      let frac := fractionDigits 20 (n mod d) d in
      (if Qnum q <? 0 then "-" else "") +:+ JsString.ofZ (n / d) +:+
      (match frac with "" => "" | _ => "." +:+ frac end)
  end.

Definition quoted (s : string) : string :=
  String JsString.quote (s +:+ String JsString.quote "").

(** One cell of [convertToCSV]: strings are wrapped in double quotes,
    everything else is printed as [Array.prototype.join] prints it. *)
Definition csvCell (v : Val) : string :=
  match v with
  | VStr s => quoted s
  | VNum x => numberToString x
  | VBool b => if b then "true" else "false"
  | VUndef => ""
  end.

Definition newline : string := String "010"%char "".

Definition csvRow (headers : list string) (row : Object) : string :=
  JsString.join "," (map (fun header => csvCell (get header row)) headers).

(** The body shared by the three copies of [convertToCSV], for a data
    set whose first row is [first]. *)
Definition csvText (first : Object) (data : list Object) : string :=
  let headers := keys first in
  JsString.join newline (JsString.join "," headers :: map (csvRow headers) data).

End Obj.

Module Csv.

(** The hand-written reader that the operations and the financial script
    both contain: split a line on commas that are outside double quotes,
    dropping the quote characters. *)
Fixpoint splitLine (current : string) (inQuotes : bool) (line : string)
    : list string :=
  match line with
  | EmptyString => [String.rev current]
  | String char rest =>
      if Ascii.eqb char JsString.quote then splitLine current (negb inQuotes) rest
      else if Ascii.eqb char ","%char && negb inQuotes
           then String.rev current :: splitLine EmptyString inQuotes rest
           else splitLine (String char current) inQuotes rest
  end.

(** A parsed row: header to text.  A header that the line has no value
    for maps to the empty string. *)
Fixpoint rowObject (headers values : list string) (row : gmap string string)
    : gmap string string :=
  match headers with
  | [] => row
  | header :: moreHeaders =>
      match values with
      | value :: moreValues =>
          rowObject moreHeaders moreValues (<[header := JsString.stripQuotes value]> row)
      | [] => rowObject moreHeaders [] (<[header := EmptyString]> row)
      end
  end.

Definition headersOf (rows : list string) : list string :=
  match rows with
  | first :: _ => map JsString.stripQuotes (JsString.split ","%char first)
  | [] => []
  end.

(** The rows of a file, header row and blank lines left out. *)
Definition parse (data : string) : list (gmap string string) :=
  let rows := JsString.split "010"%char data in
  let headers := headersOf rows in
  map (fun line => rowObject headers (splitLine EmptyString false line) ∅)
      (filter (fun line => JsString.blank line = false) (tail rows)).

(** [row.Field] of a parsed row as a string operand; a missing header
    reads as [undefined]. *)
Definition field (row : gmap string string) (key : string) : option string :=
  row !! key.

(** [parseInt(row.Field) || 0]. *)
Definition intField (row : gmap string string) (key : string) : Z :=
  match row !! key with
  | Some text => JsString.parseIntOrZero text
  | None => 0
  end.

(** [parseFloat(row.Field) || 0]. *)
Definition floatField (row : gmap string string) (key : string) : Js.num :=
  match row !! key with
  | Some text => Js.orZero (JsString.parseFloat text)
  | None => Js.Num 0
  end.

End Csv.

(** The working directory and the console. *)
Abbreviation FileSystem := (gmap string string).

Inductive LogLine : Type :=
| Info (message : string)
| Failure (message : string) (detail : string).

Definition existsSync (fs : FileSystem) (name : string) : bool :=
  bool_decide (is_Some (fs !! name)).

(** [fs.readFile]/[fs.readFileSync]: a missing file is the error
    [ENOENT]. *)
Definition readFile (fs : FileSystem) (name : string) : string + string :=
  match fs !! name with
  | Some data => inr data
  | None => inl "ENOENT: no such file or directory"%string
  end.

Definition writeFileSync (name data : string) (fs : FileSystem) : FileSystem :=
  <[name := data]> fs.

(* ================================================================== *)
(** * [Math.random] and the helpers built on it *)
(* ================================================================== *)

Module Rand.

(** A computation that draws from the oracle: it maps the position of
    the next draw to a result and the position after it. *)
Definition R (A : Type) : Type := (nat -> Q) -> nat -> A * nat.

Definition ret {A} (a : A) : R A := fun _ n => (a, n).

Definition bind {A B} (m : R A) (f : A -> R B) : R B :=
  fun rnd n => let '(a, n') := m rnd n in f a rnd n'.

(** [Math.random()]. *)
Definition random : R Q := fun rnd n => (rnd n, S n).

#[global] Instance R_ret : MRet R := @ret.
#[global] Instance R_bind : MBind R := fun A B f m => bind m f.

(** [Math.floor(Math.random() * (max - min + 1) + min)]. *)
Definition randomBetween (min max : Z) : R Z :=
  u ← random;
  mret (Js.floor (u * inject_Z (max - min + 1) + inject_Z min)).

(** [randomFloatBetween(min, max, precision)]. *)
Definition randomFloatBetweenP (precision : nat) (min max : Q) : R Q :=
  u ← random;
  let value := (u * (max - min) + min)%Q in
  let multiplier := inject_Z (JsString.pow10 precision) in
  mret (inject_Z (Js.round (value * multiplier)) / multiplier)%Q.

(** The default precision is 2; no call site passes another. *)
Definition randomFloatBetween : Q -> Q -> R Q := randomFloatBetweenP 2.

Fixpoint mapM {A B} (f : A -> R B) (l : list A) : R (list B) :=
  match l with
  | [] => mret []
  | x :: rest => y ← f x; ys ← mapM f rest; mret (y :: ys)
  end.

(** The oracle honours the contract of [Math.random]. *)
Definition valid (rnd : nat -> Q) : Prop := forall n, (0 <= rnd n)%Q /\ (rnd n < 1)%Q.

End Rand.

(* ================================================================== *)
(** * The appointment generator ([generate-pat-data.js]) *)
(* ================================================================== *)

Module Appointments.

Import Rand.

(** ** Static catalogues *)

Record Location : Type := {
  loc_id : string;
  loc_name : string;
  loc_address : string;
  google_rating : Q;
  opened_date : string;
  services_offered : string
}.

Record Provider : Type := {
  prov_id : string;
  prov_name : string;
  role : string;
  primary_location : string;
  specialty : string;
  hourly_rate : Z;
  full_time : bool
}.

Record InsuranceProvider : Type := {
  ins_name : string;
  avg_reimbursement_rate : Q
}.

Record Procedure : Type := {
  code : string;
  description : string;
  category : string;
  avg_fee : Z;
  duration : Z
}.

(** A field drawn from an array is [None] when the index fell outside
    the array ([undefined]). *)
Record Patient : Type := {
  patient_id : string;
  first_name : option string;
  last_name : option string;
  name : string;
  gender : option string;
  age : Z;
  zip_code : option string;
  registration_date : string;
  insurance_provider : string;
  is_active : bool
}.

(** [new Date(2020, 0, 1)] and [new Date(2025, 3, 1)]: local midnights. *)
Definition START_DATE (zone : JsDate.Zone) : JsDate.Date := JsDate.makeIn zone 2020 0 1.
Definition END_DATE (zone : JsDate.Zone) : JsDate.Date := JsDate.makeIn zone 2025 3 1.
Definition NUM_RECORDS : Z := 10000.
Definition NUM_PATIENTS : Z := 600.

Definition locations : list Location := [
  {| loc_id := "LOC001"; loc_name := "Downtown Dental"; loc_address := "123 Main St, Portland, OR 97201";
     google_rating := 4.8%Q; opened_date := "2015-03-15"; services_offered := "General|Cosmetic|Orthodontic|Pediatric|Implants" |};
  {| loc_id := "LOC002"; loc_name := "Westside Smile Center"; loc_address := "456 Park Ave, Portland, OR 97229";
     google_rating := 4.6%Q; opened_date := "2017-06-22"; services_offered := "General|Cosmetic|Periodontic|Implants|Emergency" |};
  {| loc_id := "LOC003"; loc_name := "East Valley Dental Care"; loc_address := "789 River Rd, Gresham, OR 97030";
     google_rating := 4.5%Q; opened_date := "2019-11-10"; services_offered := "General|Cosmetic|Pediatric|Emergency" |};
  {| loc_id := "LOC004"; loc_name := "North Portland Family Dental"; loc_address := "234 Market St, Portland, OR 97217";
     google_rating := 4.7%Q; opened_date := "2018-08-05"; services_offered := "General|Cosmetic|Pediatric|Emergency|Endodontic" |}
].

Definition providers : list Provider := [
  {| prov_id := "DR001"; prov_name := "Dr. Sarah Johnson"; role := "Dentist"; primary_location := "LOC001";
     specialty := "General"; hourly_rate := 150; full_time := true |};
  {| prov_id := "DR002"; prov_name := "Dr. Michael Chen"; role := "Dentist"; primary_location := "LOC001";
     specialty := "Orthodontics"; hourly_rate := 160; full_time := true |};
  {| prov_id := "DR003"; prov_name := "Dr. Robert Garcia"; role := "Dentist"; primary_location := "LOC002";
     specialty := "Periodontics"; hourly_rate := 155; full_time := true |};
  {| prov_id := "DR004"; prov_name := "Dr. Emily Wilson"; role := "Dentist"; primary_location := "LOC002";
     specialty := "General"; hourly_rate := 145; full_time := false |};
  {| prov_id := "DR005"; prov_name := "Dr. David Kim"; role := "Dentist"; primary_location := "LOC003";
     specialty := "General"; hourly_rate := 140; full_time := true |};
  {| prov_id := "DR006"; prov_name := "Dr. Lisa Patel"; role := "Dentist"; primary_location := "LOC003";
     specialty := "Endodontics"; hourly_rate := 165; full_time := false |};
  {| prov_id := "DR007"; prov_name := "Dr. James Taylor"; role := "Dentist"; primary_location := "LOC004";
     specialty := "Oral Surgery"; hourly_rate := 170; full_time := false |};
  {| prov_id := "HYG001"; prov_name := "Lisa Martinez"; role := "Hygienist"; primary_location := "LOC001";
     specialty := "Hygiene"; hourly_rate := 60; full_time := true |};
  {| prov_id := "HYG002"; prov_name := "John Anderson"; role := "Hygienist"; primary_location := "LOC002";
     specialty := "Hygiene"; hourly_rate := 58; full_time := true |};
  {| prov_id := "HYG003"; prov_name := "Sophia Lee"; role := "Hygienist"; primary_location := "LOC003";
     specialty := "Hygiene"; hourly_rate := 55; full_time := true |};
  {| prov_id := "HYG004"; prov_name := "Michael Brooks"; role := "Hygienist"; primary_location := "LOC001";
     specialty := "Hygiene"; hourly_rate := 62; full_time := true |};
  {| prov_id := "HYG005"; prov_name := "Jennifer Lopez"; role := "Hygienist"; primary_location := "LOC001";
     specialty := "Hygiene"; hourly_rate := 59; full_time := true |};
  {| prov_id := "HYG006"; prov_name := "Thomas Wright"; role := "Hygienist"; primary_location := "LOC002";
     specialty := "Hygiene"; hourly_rate := 57; full_time := true |};
  {| prov_id := "HYG007"; prov_name := "Emily Davis"; role := "Hygienist"; primary_location := "LOC002";
     specialty := "Hygiene"; hourly_rate := 56; full_time := false |};
  {| prov_id := "HYG008"; prov_name := "Ryan Cooper"; role := "Hygienist"; primary_location := "LOC003";
     specialty := "Hygiene"; hourly_rate := 54; full_time := true |};
  {| prov_id := "HYG009"; prov_name := "Olivia Martinez"; role := "Hygienist"; primary_location := "LOC004";
     specialty := "Hygiene"; hourly_rate := 61; full_time := false |};
  {| prov_id := "ASST001"; prov_name := "Maria Rodriguez"; role := "Assistant"; primary_location := "LOC001";
     specialty := "General"; hourly_rate := 28; full_time := true |};
  {| prov_id := "ASST002"; prov_name := "David Smith"; role := "Assistant"; primary_location := "LOC001";
     specialty := "General"; hourly_rate := 27; full_time := true |};
  {| prov_id := "ASST003"; prov_name := "Sarah Johnson"; role := "Assistant"; primary_location := "LOC001";
     specialty := "Orthodontics"; hourly_rate := 29; full_time := true |};
  {| prov_id := "ASST004"; prov_name := "Michael Brown"; role := "Assistant"; primary_location := "LOC001";
     specialty := "General"; hourly_rate := 26; full_time := true |};
  {| prov_id := "ASST005"; prov_name := "Jessica Lee"; role := "Assistant"; primary_location := "LOC001";
     specialty := "Oral Surgery"; hourly_rate := 30; full_time := true |};
  {| prov_id := "ASST006"; prov_name := "Robert Wilson"; role := "Assistant"; primary_location := "LOC002";
     specialty := "General"; hourly_rate := 27; full_time := true |};
  {| prov_id := "ASST007"; prov_name := "Karen Miller"; role := "Assistant"; primary_location := "LOC002";
     specialty := "General"; hourly_rate := 26; full_time := true |};
  {| prov_id := "ASST008"; prov_name := "Daniel Taylor"; role := "Assistant"; primary_location := "LOC002";
     specialty := "General"; hourly_rate := 25; full_time := true |};
  {| prov_id := "ASST009"; prov_name := "Michelle Davis"; role := "Assistant"; primary_location := "LOC002";
     specialty := "Periodontics"; hourly_rate := 28; full_time := true |};
  {| prov_id := "ASST010"; prov_name := "Andrew Garcia"; role := "Assistant"; primary_location := "LOC003";
     specialty := "General"; hourly_rate := 26; full_time := true |};
  {| prov_id := "ASST011"; prov_name := "Patricia Martinez"; role := "Assistant"; primary_location := "LOC003";
     specialty := "General"; hourly_rate := 25; full_time := true |};
  {| prov_id := "ASST012"; prov_name := "Kevin Johnson"; role := "Assistant"; primary_location := "LOC003";
     specialty := "General"; hourly_rate := 24; full_time := true |};
  {| prov_id := "ASST013"; prov_name := "Rachel Thompson"; role := "Assistant"; primary_location := "LOC004";
     specialty := "Endodontics"; hourly_rate := 27; full_time := true |};
  {| prov_id := "ADM001"; prov_name := "Jennifer Williams"; role := "Admin"; primary_location := "LOC001";
     specialty := "Reception"; hourly_rate := 24; full_time := true |};
  {| prov_id := "ADM002"; prov_name := "Christopher Davis"; role := "Admin"; primary_location := "LOC001";
     specialty := "Billing"; hourly_rate := 26; full_time := true |};
  {| prov_id := "ADM003"; prov_name := "Amanda Johnson"; role := "Admin"; primary_location := "LOC001";
     specialty := "Office Manager"; hourly_rate := 32; full_time := true |};
  {| prov_id := "ADM004"; prov_name := "Matthew Miller"; role := "Admin"; primary_location := "LOC002";
     specialty := "Reception"; hourly_rate := 23; full_time := true |};
  {| prov_id := "ADM005"; prov_name := "Emma Smith"; role := "Admin"; primary_location := "LOC002";
     specialty := "Office Manager"; hourly_rate := 30; full_time := true |};
  {| prov_id := "ADM006"; prov_name := "Brandon Wilson"; role := "Admin"; primary_location := "LOC003";
     specialty := "Reception"; hourly_rate := 22; full_time := true |};
  {| prov_id := "ADM007"; prov_name := "Sophia Garcia"; role := "Admin"; primary_location := "LOC004";
     specialty := "Office Manager"; hourly_rate := 29; full_time := true |};
  {| prov_id := "DR008"; prov_name := "Dr. Natalie Wong"; role := "Dentist"; primary_location := "LOC004";
     specialty := "General"; hourly_rate := 155; full_time := true |};
  {| prov_id := "DR009"; prov_name := "Dr. Marcus Jackson"; role := "Dentist"; primary_location := "LOC004";
     specialty := "Pediatric"; hourly_rate := 160; full_time := false |};
  {| prov_id := "HYG010"; prov_name := "Benjamin Carter"; role := "Hygienist"; primary_location := "LOC004";
     specialty := "Hygiene"; hourly_rate := 58; full_time := true |};
  {| prov_id := "HYG011"; prov_name := "Amelia Zhang"; role := "Hygienist"; primary_location := "LOC004";
     specialty := "Hygiene"; hourly_rate := 55; full_time := true |};
  {| prov_id := "ASST014"; prov_name := "Tyler Robinson"; role := "Assistant"; primary_location := "LOC004";
     specialty := "General"; hourly_rate := 26; full_time := true |};
  {| prov_id := "ASST015"; prov_name := "Alexandra Singh"; role := "Assistant"; primary_location := "LOC004";
     specialty := "Pediatric"; hourly_rate := 27; full_time := true |};
  {| prov_id := "ASST016"; prov_name := "Caleb Washington"; role := "Assistant"; primary_location := "LOC004";
     specialty := "General"; hourly_rate := 25; full_time := true |};
  {| prov_id := "ASST017"; prov_name := "Hannah Patel"; role := "Assistant"; primary_location := "LOC004";
     specialty := "General"; hourly_rate := 24; full_time := false |};
  {| prov_id := "ADM008"; prov_name := "Noah Reynolds"; role := "Admin"; primary_location := "LOC004";
     specialty := "Reception"; hourly_rate := 23; full_time := true |};
  {| prov_id := "ADM009"; prov_name := "Isabella Ramirez"; role := "Admin"; primary_location := "LOC004";
     specialty := "Billing"; hourly_rate := 26; full_time := true |}
].

Definition insuranceProviders : list InsuranceProvider := [
  {| ins_name := "Delta Dental"; avg_reimbursement_rate := 0.85%Q |};
  {| ins_name := "Cigna Dental"; avg_reimbursement_rate := 0.80%Q |};
  {| ins_name := "Aetna"; avg_reimbursement_rate := 0.75%Q |};
  {| ins_name := "MetLife"; avg_reimbursement_rate := 0.82%Q |};
  {| ins_name := "Guardian"; avg_reimbursement_rate := 0.78%Q |};
  {| ins_name := "No Insurance"; avg_reimbursement_rate := 1.00%Q |}
].

Definition procedures : list Procedure := [
  {| code := "D0120"; description := "Periodic Oral Evaluation";
     category := "Diagnostic"; avg_fee := 60; duration := 15 |};
  {| code := "D0150"; description := "Comprehensive Oral Evaluation";
     category := "Diagnostic"; avg_fee := 110; duration := 30 |};
  {| code := "D0210"; description := "Complete Series X-rays";
     category := "Diagnostic"; avg_fee := 150; duration := 30 |};
  {| code := "D0220"; description := "Periapical X-ray (First Film)";
     category := "Diagnostic"; avg_fee := 35; duration := 10 |};
  {| code := "D0274"; description := "Bitewing X-rays (Four Films)";
     category := "Diagnostic"; avg_fee := 70; duration := 15 |};
  {| code := "D1110"; description := "Prophylaxis (Cleaning) - Adult";
     category := "Preventive"; avg_fee := 110; duration := 45 |};
  {| code := "D1120"; description := "Prophylaxis (Cleaning) - Child";
     category := "Preventive"; avg_fee := 85; duration := 30 |};
  {| code := "D1208"; description := "Fluoride Treatment";
     category := "Preventive"; avg_fee := 45; duration := 15 |};
  {| code := "D1351"; description := "Sealant (Per Tooth)";
     category := "Preventive"; avg_fee := 60; duration := 20 |};
  {| code := "D2140"; description := "Amalgam Filling - One Surface";
     category := "Restorative"; avg_fee := 155; duration := 45 |};
  {| code := "D2150"; description := "Amalgam Filling - Two Surfaces";
     category := "Restorative"; avg_fee := 195; duration := 60 |};
  {| code := "D2160"; description := "Amalgam Filling - Three Surfaces";
     category := "Restorative"; avg_fee := 235; duration := 75 |};
  {| code := "D2330"; description := "Resin Filling - One Surface";
     category := "Restorative"; avg_fee := 175; duration := 45 |};
  {| code := "D2331"; description := "Resin Filling - Two Surfaces";
     category := "Restorative"; avg_fee := 215; duration := 60 |};
  {| code := "D2332"; description := "Resin Filling - Three Surfaces";
     category := "Restorative"; avg_fee := 255; duration := 75 |};
  {| code := "D2740"; description := "Crown - Porcelain/Ceramic";
     category := "Restorative"; avg_fee := 1250; duration := 90 |};
  {| code := "D2750"; description := "Crown - Porcelain Fused to Metal";
     category := "Restorative"; avg_fee := 1150; duration := 90 |};
  {| code := "D3310"; description := "Root Canal - Anterior";
     category := "Endodontic"; avg_fee := 825; duration := 90 |};
  {| code := "D3320"; description := "Root Canal - Bicuspid";
     category := "Endodontic"; avg_fee := 950; duration := 105 |};
  {| code := "D3330"; description := "Root Canal - Molar";
     category := "Endodontic"; avg_fee := 1150; duration := 120 |};
  {| code := "D4341"; description := "Periodontal Scaling & Root Planing (Per Quadrant)";
     category := "Periodontic"; avg_fee := 275; duration := 60 |};
  {| code := "D4910"; description := "Periodontal Maintenance";
     category := "Periodontic"; avg_fee := 135; duration := 45 |};
  {| code := "D5110"; description := "Complete Denture - Maxillary";
     category := "Prosthodontic"; avg_fee := 1890; duration := 100 |};
  {| code := "D5120"; description := "Complete Denture - Mandibular";
     category := "Prosthodontic"; avg_fee := 1850; duration := 90 |};
  {| code := "D5213"; description := "Partial Denture - Maxillary";
     category := "Prosthodontic"; avg_fee := 1650; duration := 90 |};
  {| code := "D5214"; description := "Partial Denture - Mandibular";
     category := "Prosthodontic"; avg_fee := 1650; duration := 90 |};
  {| code := "D6010"; description := "Surgical Implant Placement";
     category := "Implant"; avg_fee := 2100; duration := 120 |};
  {| code := "D6056"; description := "Implant Abutment";
     category := "Implant"; avg_fee := 650; duration := 60 |};
  {| code := "D6058"; description := "Implant Crown";
     category := "Implant"; avg_fee := 1550; duration := 90 |};
  {| code := "D8080"; description := "Comprehensive Orthodontic Treatment - Adolescent";
     category := "Orthodontic"; avg_fee := 5500; duration := 120 |};
  {| code := "D8090"; description := "Comprehensive Orthodontic Treatment - Adult";
     category := "Orthodontic"; avg_fee := 6200; duration := 120 |};
  {| code := "D9110"; description := "Palliative Treatment (Emergency)";
     category := "Adjunctive"; avg_fee := 125; duration := 30 |};
  {| code := "D9215"; description := "Local Anesthesia";
     category := "Adjunctive"; avg_fee := 45; duration := 10 |};
  {| code := "D9310"; description := "Consultation";
     category := "Adjunctive"; avg_fee := 95; duration := 45 |}
].

Definition genders : list string := [
  "Male"; "Female"
].

Definition firstNamesMale : list string := [
  "James"; "John"; "Robert"; "Michael"; "William"; "David"; "Richard"; "Joseph";
  "Thomas"; "Charles"; "Kwame"; "Kenji"; "Mateo"; "Rajiv"; "Omar"; "Javier";
  "Andre"; "Devon"; "Suresh"; "Jamal"
].

Definition firstNamesFemale : list string := [
  "Mary"; "Patricia"; "Jennifer"; "Linda"; "Elizabeth"; "Barbara"; "Susan"; "Jessica";
  "Sarah"; "Karen"; "Aisha"; "Sakura"; "Sofia"; "Priya"; "Fatima"; "Isabella";
  "Naomi"; "Keisha"; "Lakshmi"; "Aaliyah"
].

Definition lastNames : list string := [
  "Smith"; "Johnson"; "Williams"; "Brown"; "Jones"; "Miller"; "Davis"; "Garcia";
  "Rodriguez"; "Wilson"; "Lee"; "Patel"; "Khan"; "Nguyen"; "Singh"; "Ali";
  "Gupta"; "Silva"; "Kim"; "Pereira"
].

Definition zipCodes : list string := [
  "97201"; "97202"; "97203"; "97204"; "97205"; "02108"; "02116"; "02115";
  "02210"; "02129"; "10001"; "10002"; "10003"; "10004"; "10005"; "90210";
  "90211"; "90212"; "90213"; "90214"; "60601"; "60602"; "60603"; "60604";
  "60605"
].

Definition teeth : list string := [
  "1"; "2"; "3"; "4"; "5"; "6"; "7"; "8"; "9"; "10"; "11"; "12"; "13"; "14"; "15"; "16";
  "17"; "18"; "19"; "20"; "21"; "22"; "23"; "24"; "25"; "26"; "27"; "28"; "29"; "30"; "31"; "32"
].

Definition appointmentStatuses : list string :=
  ["Completed"; "No-Show"; "Canceled"; "Rescheduled"].
Definition statusProbabilities : list Q := [0.85%Q; 0.05%Q; 0.07%Q; 0.03%Q].
Definition paymentMethods : list string :=
  ["Credit Card"; "Debit Card"; "Cash"; "Check"; "Insurance Only"].
Definition youthProcedureCodes : list string :=
  ["D0120"; "D0150"; "D1120"; "D1208"; "D1351"; "D8080"].
Definition seniorProcedureCodes : list string :=
  ["D2740"; "D2750"; "D3310"; "D3320"; "D3330"; "D5110"; "D5120"; "D6010"; "D6058"].

(** ** State and effects *)

(** An entry of [activeTreatmentPlans]. *)
Record TreatmentPlan : Type := {
  plan_id : string;
  creationDate : string;
  totalProcedures : Z;
  completedProcedures : Z;
  totalCost : Z
}.

(** The mutable state of a run: the position in the oracle, the two
    module-level maps and the [appointments] array being filled. *)
Record State : Type := {
  rng : nat;
  patientLastCleaningDate : gmap string string;
  activeTreatmentPlans : gmap string TreatmentPlan;
  appointments : list Obj.Object
}.

Definition initialState : State :=
  {| rng := 0; patientLastCleaningDate := ∅; activeTreatmentPlans := ∅;
     appointments := [] |}.

(** A step of the script: it may throw ([None]), else it returns a value
    and the next state. *)
Definition Gen (A : Type) : Type := (nat -> Q) -> State -> option (A * State).

#[global] Instance Gen_ret : MRet Gen := fun A a _ s => Some (a, s).
#[global] Instance Gen_bind : MBind Gen := fun A B f m rnd s =>
  match m rnd s with
  | Some (a, s') => f a rnd s'
  | None => None
  end.

(** Run a drawing helper on the state's oracle position. *)
Definition draw {A} (m : R A) : Gen A := fun rnd s =>
  let '(a, n) := m rnd (rng s) in
  Some (a, {| rng := n;
              patientLastCleaningDate := patientLastCleaningDate s;
              activeTreatmentPlans := activeTreatmentPlans s;
              appointments := appointments s |}).

(** Reading a property of [undefined] throws a [TypeError]. *)
Definition required {A} (x : option A) : Gen A := fun _ s =>
  match x with Some a => Some (a, s) | None => None end.

Definition getState : Gen State := fun _ s => Some (s, s).

Definition setLastCleaning (patientId date : string) : Gen unit := fun _ s =>
  Some (tt, {| rng := rng s;
               patientLastCleaningDate := <[patientId := date]> (patientLastCleaningDate s);
               activeTreatmentPlans := activeTreatmentPlans s;
               appointments := appointments s |}).

Definition setPlans (plans : gmap string TreatmentPlan) : Gen unit := fun _ s =>
  Some (tt, {| rng := rng s;
               patientLastCleaningDate := patientLastCleaningDate s;
               activeTreatmentPlans := plans;
               appointments := appointments s |}).

(** [appointments.push(row)]. *)
Definition push (row : Obj.Object) : Gen unit := fun _ s =>
  Some (tt, {| rng := rng s;
               patientLastCleaningDate := patientLastCleaningDate s;
               activeTreatmentPlans := activeTreatmentPlans s;
               appointments := appointments s ++ [row] |}).

Fixpoint forEach {A} (l : list A) (body : A -> Gen unit) : Gen unit :=
  match l with
  | [] => mret tt
  | x :: rest => body x;; forEach rest body
  end.

(** [arr[i]] for a number [i]. *)
Definition at_ {A} (l : list A) (i : Z) : option A :=
  if i <? 0 then None else l !! Z.to_nat i.

(** [Math.floor(Math.random() * n)]. *)
Definition randomIndex (n : Z) : R Z :=
  u ← random; mret (Js.floor (u * inject_Z n)).

(** [arr[Math.floor(Math.random() * arr.length)]]. *)
Definition pick {A} (l : list A) : R (option A) :=
  i ← randomIndex (Z.of_nat (length l)); mret (at_ l i).

Definition pad2 (z : Z) : string := JsString.padStart 2 "0" (JsString.ofZ z).

(** ** [randomAppointmentTime], [randomDate] *)

Definition randomAppointmentTime : R string :=
  hour ← randomBetween 8 16;
  index ← randomBetween 0 3;
  let minute := at_ [0; 15; 30; 45] index in
  mret (pad2 hour +:+ ":" +:+
        JsString.padStart 2 "0" (Obj.template (JsString.ofZ <$> minute))).

Definition randomDate (start end_ : JsDate.Date) : R JsDate.Date :=
  u ← random;
  mret (Js.trunc (inject_Z start + u * inject_Z (end_ - start))).

(** ** [isDueForRecall] *)

Definition isCleaning (procedureCode : string) : bool :=
  String.eqb procedureCode "D1110" || String.eqb procedureCode "D1120".

(** Months between two dates as the script counts them: both texts are
    parsed by [new Date], as UTC midnights when they are dates without a
    time, and their years and months are read with the local getters.
    [None] is [NaN] (one of the dates did not parse). *)
Definition monthsSince (zone : JsDate.Zone) (lastCleaning currentDate : string)
    : option Z :=
  lastDate ← JsDate.parseIn zone lastCleaning;
  currentDateTime ← JsDate.parseIn zone currentDate;
  Some ((JsDate.getFullYearIn zone currentDateTime - JsDate.getFullYearIn zone lastDate) * 12
        + (JsDate.getMonthIn zone currentDateTime - JsDate.getMonthIn zone lastDate)).

Definition isDueForRecall (zone : JsDate.Zone) (lastCleaningDates : gmap string string)
    (patientId procedureCode currentDate : string) : bool :=
  if negb (String.eqb procedureCode "D1110") && negb (String.eqb procedureCode "D1120")
  then true
  else
    match lastCleaningDates !! patientId with
    | None => true
    | Some lastCleaning =>
        if String.eqb lastCleaning "" then true
        else
          match monthsSince zone lastCleaning currentDate with
          | Some months => 5 <=? months
          | None => false
          end
    end.

(** ** [generatePatients] *)

Definition generatePatient (i : Z) : Gen Patient :=
  gender ← draw (pick genders);
  firstName ← draw (if bool_decide (gender = Some "Male")
                    then pick firstNamesMale else pick firstNamesFemale);
  lastName ← draw (pick lastNames);
  ageDistribution ← draw random;
  age ← draw (if Js.Qltb ageDistribution 0.15 then randomBetween 2 17
              else if Js.Qltb ageDistribution 0.70 then randomBetween 25 65
              else if Js.Qltb ageDistribution 0.90 then randomBetween 18 24
              else randomBetween 66 90);
  insuranceDraw ← draw random;
  let hasInsurance := Js.Qltb insuranceDraw 0.67 in
  insuranceProvider ←
    (if hasInsurance
     then index ← draw (randomIndex (Z.of_nat (length insuranceProviders) - 1));
          provider ← required (at_ insuranceProviders index);
          mret (ins_name provider)
     else mret "No Insurance");
  regYear ← draw (randomBetween 2018 2024);
  regMonth ← draw (randomBetween 1 12);
  regDay ← draw (randomBetween 1 28);
  let registrationDate :=
    JsString.ofZ regYear +:+ "-" +:+ pad2 regMonth +:+ "-" +:+ pad2 regDay in
  zipCode ← draw (pick zipCodes);
  activeDraw ← draw random;
  mret {| patient_id := "PAT" +:+ JsString.padStart 4 "0" (JsString.ofZ i);
          first_name := firstName;
          last_name := lastName;
          name := Obj.template firstName +:+ " " +:+ Obj.template lastName;
          gender := gender;
          age := age;
          zip_code := zipCode;
          registration_date := registrationDate;
          insurance_provider := insuranceProvider;
          is_active := Js.Qltb activeDraw 0.9 |}.

Fixpoint generatePatientsFrom (ids : list Z) : Gen (list Patient) :=
  match ids with
  | [] => mret []
  | i :: rest =>
      patient ← generatePatient i;
      others ← generatePatientsFrom rest;
      mret (patient :: others)
  end.

Definition generatePatients : Gen (list Patient) :=
  generatePatientsFrom (seqZ 1 NUM_PATIENTS).

(** ** [generateAppointmentData] *)

(** What a visit fixes before its procedures are drawn. *)
Record Visit : Type := {
  patient : Patient;
  visitDate : JsDate.Date;
  formattedVisitDate : string;
  appointmentTime : string;
  year : Z;
  month : Z;
  location : Location;
  provider : option Provider;
  appointmentStatus : string;
  visitId : string
}.

(** The status loop: the first index whose cumulative probability
    reaches the draw; index 0 when none does. *)
Fixpoint statusScan (statusRand cumulativeProb : Q) (j : Z) (probabilities : list Q) : Z :=
  match probabilities with
  | [] => 0
  | probability :: rest =>
      let cumulativeProb := (cumulativeProb + probability)%Q in
      if Js.Qleb statusRand cumulativeProb then j
      else statusScan statusRand cumulativeProb (j + 1) rest
  end.

(** [procedures.findIndex(p => p.code === selectedCode)]. *)
Fixpoint findIndexFrom (selectedCode : option string) (i : Z) (l : list Procedure) : Z :=
  match l with
  | [] => -1
  | p :: rest =>
      if bool_decide (Some (code p) = selectedCode) then i
      else findIndexFrom selectedCode (i + 1) rest
  end.

Definition findIndex (selectedCode : option string) : Z :=
  findIndexFrom selectedCode 0 procedures.

Definition procedureCount : Z := Z.of_nat (length procedures).

(** The age-banded choice of a procedure index. *)
Definition selectProcedureIndex (patientAge : Z) : R Z :=
  procedureIndex ←
    (if patientAge <? 18 then
       r ← random;
       if Js.Qltb r 0.7
       then selectedCode ← pick youthProcedureCodes; mret (findIndex selectedCode)
       else randomIndex procedureCount
     else if 55 <? patientAge then
       r ← random;
       if Js.Qltb r 0.6
       then selectedCode ← pick seniorProcedureCodes; mret (findIndex selectedCode)
       else randomIndex procedureCount
     else
       r ← random;
       if Js.Qltb r 0.6 then randomIndex 10 else randomIndex procedureCount);
  if procedureIndex =? -1 then randomIndex procedureCount else mret procedureIndex.

Definition planCategories : list string :=
  ["Restorative"; "Endodontic"; "Prosthodontic"; "Implant"].
Definition toothCategories : list string :=
  ["Restorative"; "Endodontic"; "Periodontic"; "Implant"].

Definition includes (l : list string) (s : string) : bool := bool_decide (s ∈ l).

(** [new Date(patient.registration_date).toISOString().split('T')[0]
    === formattedVisitDate]; [toISOString] throws on an invalid date. *)
Definition isNewPatient (v : Visit) : Gen bool :=
  registered ← required (JsDate.parse (registration_date (patient v)));
  mret (String.eqb (JsDate.formatDate registered) (formattedVisitDate v)).

(** The fields that the two row literals share up to [Appointment_Status]. *)
Definition rowHead (v : Visit) (procedureId : string) (provider : Provider)
    : Obj.Object :=
  [ ("Visit_ID", Obj.VStr (visitId v));
    ("Procedure_ID", Obj.VStr procedureId);
    ("Patient_ID", Obj.VStr (patient_id (patient v)));
    ("Patient_Name", Obj.VStr (name (patient v)));
    ("Patient_Gender", Obj.ofOption (gender (patient v)));
    ("Patient_Age", Obj.VInt (age (patient v)));
    ("Patient_Zip_Code", Obj.ofOption (zip_code (patient v)));
    ("Location_ID", Obj.VStr (loc_id (location v)));
    ("Location_Name", Obj.VStr (loc_name (location v)));
    ("Provider_ID", Obj.VStr (prov_id provider));
    ("Provider_Name", Obj.VStr (prov_name provider));
    ("Provider_Role", Obj.VStr (role provider));
    ("Provider_Specialty", Obj.VStr (specialty provider));
    ("Date_of_Service", Obj.VStr (formattedVisitDate v));
    ("Appointment_Time", Obj.VStr (appointmentTime v));
    ("Appointment_Status", Obj.VStr (appointmentStatus v)) ].

(** The row of a visit that was not completed: basic information, no
    financial data. *)
Definition plainRow (v : Visit) (procedureId : string) (provider : Provider)
    (newPatient : bool) : Obj.Object :=
  rowHead v procedureId provider ++
  [ ("Procedure_Code", Obj.VStr "");
    ("Procedure_Description", Obj.VStr "");
    ("Procedure_Category", Obj.VStr "");
    ("Procedure_Duration", Obj.VInt 0);
    ("Tooth_Number", Obj.VStr "");
    ("Charged_Amount", Obj.VInt 0);
    ("Insurance_Provider", Obj.VStr (insurance_provider (patient v)));
    ("Insurance_Covered_Amount", Obj.VInt 0);
    ("Patient_Responsibility", Obj.VInt 0);
    ("Discount_Applied", Obj.VInt 0);
    ("Out_of_Pocket", Obj.VInt 0);
    ("Amount_Paid", Obj.VInt 0);
    ("Payment_Method", Obj.VStr "");
    ("Payment_Status", Obj.VStr "");
    ("Is_New_Patient", Obj.VBool newPatient);
    ("Insurance_Claim_Status", Obj.VStr "");
    ("Insurance_Claim_Submission_Date", Obj.VStr "");
    ("Insurance_Claim_Payment_Date", Obj.VStr "");
    ("Google_Rating", Obj.VNum (Js.Num (google_rating (location v))));
    ("Treatment_Plan_ID", Obj.VStr "");
    ("Treatment_Plan_Creation_Date", Obj.VStr "");
    ("Treatment_Plan_Completion_Date", Obj.VStr "");
    ("Treatment_Plan_Completion_Rate", Obj.VInt 0);
    ("Estimated_Total_Cost", Obj.VInt 0);
    ("Year", Obj.VInt (year v));
    ("Month", Obj.VInt (month v)) ].

(** The treatment-plan fields of a completed row. *)
Record PlanFields : Type := {
  treatmentPlanId : string;
  treatmentPlanCreationDate : string;
  treatmentPlanCompletionDate : string;
  treatmentPlanCompletionRate : Js.num;
  estimatedTotalCost : Z
}.

(** [Math.min(100, Math.round((completed / total) * 100))]. *)
Definition completionRate (completed total : Z) : Js.num :=
  Js.mathMin (Js.ofZ 100)
    (Js.mathRound (Js.mul (Js.div (Js.ofZ completed) (Js.ofZ total)) (Js.ofZ 100))).

(** The treatment-plan step of a completed procedure. *)
Definition treatmentPlanStep (v : Visit) (procedure : Procedure) (chargedAmount : Z)
    : Gen PlanFields :=
  s ← getState;
  let patientId := patient_id (patient v) in
  match activeTreatmentPlans s !! patientId with
  | Some existingPlan =>
      let completed := completedProcedures existingPlan + 1 in
      let rate := completionRate completed (totalProcedures existingPlan) in
      let updated := {| plan_id := plan_id existingPlan;
                        creationDate := creationDate existingPlan;
                        totalProcedures := totalProcedures existingPlan;
                        completedProcedures := completed;
                        totalCost := totalCost existingPlan |} in
      if Js.ge rate (Js.ofZ 100)
      then
        setPlans (delete patientId (activeTreatmentPlans s));;
        mret {| treatmentPlanId := plan_id existingPlan;
                treatmentPlanCreationDate := creationDate existingPlan;
                treatmentPlanCompletionDate := formattedVisitDate v;
                treatmentPlanCompletionRate := rate;
                estimatedTotalCost := totalCost existingPlan |}
      else
        setPlans (<[patientId := updated]> (activeTreatmentPlans s));;
        mret {| treatmentPlanId := plan_id existingPlan;
                treatmentPlanCreationDate := creationDate existingPlan;
                treatmentPlanCompletionDate := "";
                treatmentPlanCompletionRate := rate;
                estimatedTotalCost := totalCost existingPlan |}
  | None =>
      r ← draw random;
      if Js.Qltb r 0.3 && includes planCategories (category procedure)
      then
        number ← draw (randomIndex 10000);
        let planId := "TP" +:+ JsString.padStart 4 "0" (JsString.ofZ number) in
        total ← draw (randomBetween 1 5);
        let plan := {| plan_id := planId;
                       creationDate := formattedVisitDate v;
                       totalProcedures := total;
                       completedProcedures := 1;
                       totalCost := chargedAmount * total |} in
        setPlans (<[patientId := plan]> (activeTreatmentPlans s));;
        mret {| treatmentPlanId := planId;
                treatmentPlanCreationDate := formattedVisitDate v;
                treatmentPlanCompletionDate := "";
                treatmentPlanCompletionRate :=
                  Js.mathRound (Js.mul (Js.div (Js.ofZ 1) (Js.ofZ total)) (Js.ofZ 100));
                estimatedTotalCost := totalCost plan |}
      else
        mret {| treatmentPlanId := "";
                treatmentPlanCreationDate := "";
                treatmentPlanCompletionDate := "";
                treatmentPlanCompletionRate := Js.ofZ 0;
                estimatedTotalCost := chargedAmount |}
  end.

(** The branch [appointmentStatus === 'Completed']: the financial
    calculations and the full row. *)
Definition completedProcedure (zone : JsDate.Zone) (v : Visit) (procedureId : string)
    (procedure : Procedure)
    : Gen unit :=
  feeDraw ← draw random;
  let chargedAmount := Js.round (inject_Z (avg_fee procedure) * (0.9 + feeDraw * 0.2)) in
  let hasInsurance := negb (String.eqb (insurance_provider (patient v)) "No Insurance") in
  insuranceCovered ←
    (if hasInsurance
     then
       let carrier := List.find (fun p => String.eqb (ins_name p)
                                            (insurance_provider (patient v)))
                               insuranceProviders in
       let coverageRate := match carrier with
                           | Some p => avg_reimbursement_rate p
                           | None => 0.75%Q
                           end in
       variation ← draw random;
       let coverageRate :=
         Js.Qmax 0.5 (Js.Qmin 0.95 (coverageRate * (0.9 + variation * 0.2))) in
       mret (Js.round (inject_Z chargedAmount * coverageRate))
     else mret 0);
  let patientResponsibility := chargedAmount - insuranceCovered in
  discountDraw ← draw random;
  let hasDiscount := Js.Qltb discountDraw 0.15 in
  discountRate ←
    (if hasDiscount
     then tenths ← draw (randomBetween 1 3); mret (inject_Z tenths / 10)%Q
     else mret 0%Q);
  let discountAmount := Js.round (inject_Z patientResponsibility * discountRate) in
  let outOfPocket := patientResponsibility - discountAmount in
  paidDraw ← draw random;
  let isPaid := Js.Qltb paidDraw 0.95 in
  let amountPaid := if isPaid then outOfPocket else 0 in
  paymentMethod ←
    (if isPaid then method ← draw (pick paymentMethods); mret (Obj.ofOption method)
     else mret (Obj.VStr ""));
  let needsTooth := includes toothCategories (category procedure) in
  toothNumber ←
    (if needsTooth then tooth ← draw (pick teeth); mret (Obj.ofOption tooth)
     else mret (Obj.VStr ""));
  plan ← treatmentPlanStep v procedure chargedAmount;
  claimStatus ←
    (if hasInsurance
     then
       paid ← draw random;
       if Js.Qltb paid 0.95 then mret "Paid"
       else pending ← draw random;
            mret (if Js.Qltb pending 0.5 then "Pending" else "Denied")
     else mret "");
  let claimSubmissionDate := if hasInsurance then formattedVisitDate v else "" in
  claimPaymentDate ←
    (if String.eqb claimStatus "Paid"
     then
       days ← draw (randomBetween 15 45);
       mret (JsDate.formatDate
               (JsDate.setDateIn zone (visitDate v)
                  (JsDate.getDateIn zone (visitDate v) + days)))
     else mret "");
  provider ← required (provider v);
  newPatient ← isNewPatient v;
  push (rowHead v procedureId provider ++
    [ ("Procedure_Code", Obj.VStr (code procedure));
      ("Procedure_Description", Obj.VStr (description procedure));
      ("Procedure_Category", Obj.VStr (category procedure));
      ("Procedure_Duration", Obj.VInt (duration procedure));
      ("Tooth_Number", toothNumber);
      ("Charged_Amount", Obj.VInt chargedAmount);
      ("Insurance_Provider", Obj.VStr (insurance_provider (patient v)));
      ("Insurance_Covered_Amount", Obj.VInt insuranceCovered);
      ("Patient_Responsibility", Obj.VInt patientResponsibility);
      ("Discount_Applied", Obj.VInt discountAmount);
      ("Out_of_Pocket", Obj.VInt outOfPocket);
      ("Amount_Paid", Obj.VInt amountPaid);
      ("Payment_Method", paymentMethod);
      ("Payment_Status", Obj.VStr (if isPaid then "Paid" else "Outstanding"));
      ("Is_New_Patient", Obj.VBool newPatient);
      ("Insurance_Claim_Status", Obj.VStr claimStatus);
      ("Insurance_Claim_Submission_Date", Obj.VStr claimSubmissionDate);
      ("Insurance_Claim_Payment_Date", Obj.VStr claimPaymentDate);
      ("Google_Rating", Obj.VNum (Js.Num (google_rating (location v))));
      ("Treatment_Plan_ID", Obj.VStr (treatmentPlanId plan));
      ("Treatment_Plan_Creation_Date", Obj.VStr (treatmentPlanCreationDate plan));
      ("Treatment_Plan_Completion_Date", Obj.VStr (treatmentPlanCompletionDate plan));
      ("Treatment_Plan_Completion_Rate", Obj.VNum (treatmentPlanCompletionRate plan));
      ("Estimated_Total_Cost", Obj.VInt (estimatedTotalCost plan));
      ("Year", Obj.VInt (year v));
      ("Month", Obj.VInt (month v)) ]).

(** The body of the inner loop once the procedure is chosen: the recall
    gate, the update of the last cleaning date, and one of the two rows. *)
Definition procedureBody (zone : JsDate.Zone) (v : Visit) (i p : Z) (procedure : Procedure)
    : Gen unit :=
  s ← getState;
  if isCleaning (code procedure) &&
     negb (isDueForRecall zone (patientLastCleaningDate s) (patient_id (patient v))
             (code procedure) (formattedVisitDate v))
  then mret tt
  else
    (if isCleaning (code procedure)
     then setLastCleaning (patient_id (patient v)) (formattedVisitDate v)
     else mret tt);;
    let procedureId :=
      "PROC" +:+ JsString.padStart 6 "0" (JsString.ofZ (i * 10 + p + 1)) in
    if String.eqb (appointmentStatus v) "Completed"
    then completedProcedure zone v procedureId procedure
    else
      provider ← required (provider v);
      newPatient ← isNewPatient v;
      push (plainRow v procedureId provider newPatient).

Definition procedureIteration (zone : JsDate.Zone) (v : Visit) (i p : Z) : Gen unit :=
  procedureIndex ← draw (selectProcedureIndex (age (patient v)));
  procedure ← required (at_ procedures procedureIndex);
  procedureBody zone v i p procedure.

Definition makeVisitId (i : Z) : string :=
  "V" +:+ JsString.padStart 6 "0" (JsString.ofZ (i + 1)).

(** The part of the outer loop body that precedes the procedures. *)
Definition planVisit (zone : JsDate.Zone) (patients : list Patient) (i : Z) : Gen Visit :=
  u ← draw random;
  patient ← required (Js.floorPow15 u (Z.of_nat (length patients)) ≫= at_ patients);
  let start := match JsDate.parse (registration_date patient) with
               | Some regDate =>
                   if START_DATE zone <? regDate then regDate else START_DATE zone
               | None => START_DATE zone
               end in
  visitDate ← draw (randomDate start (END_DATE zone));
  appointmentTime ← draw randomAppointmentTime;
  location ← draw (pick locations);
  location ← required location;
  let locationProviders :=
    List.filter (fun p => String.eqb (primary_location p) (loc_id location)) providers in
  provider ←
    (if (0 <? length locationProviders)%nat
     then draw (pick locationProviders)
     else match List.find (fun p => String.eqb (primary_location p) (loc_id location))
                  providers with
          | Some p => mret (Some p)
          | None => draw (pick providers)
          end);
  statusRand ← draw random;
  let statusIndex := statusScan statusRand 0 0 statusProbabilities in
  mret {| patient := patient;
          visitDate := visitDate;
          formattedVisitDate := JsDate.formatDate visitDate;
          appointmentTime := appointmentTime;
          year := JsDate.getFullYearIn zone visitDate;
          month := JsDate.getMonthIn zone visitDate + 1;
          location := location;
          provider := provider;
          appointmentStatus := Obj.template (at_ appointmentStatuses statusIndex);
          visitId := makeVisitId i |}.

(** One iteration of the outer loop. *)
Definition visit (zone : JsDate.Zone) (patients : list Patient) (i : Z) : Gen unit :=
  v ← planVisit zone patients i;
  numProceduresForVisit ← draw (randomBetween 1 3);
  forEach (seqZ 0 numProceduresForVisit) (procedureIteration zone v i).

(** The key of the final sort: [new Date(Date_of_Service + 'T' +
    Appointment_Time)], a local time.  Every row carries a formatted date
    and a time of day, so the key is a valid date; 0 stands in
    otherwise. *)
Definition sortKey (zone : JsDate.Zone) (row : Obj.Object) : Z :=
  match Obj.get "Date_of_Service" row, Obj.get "Appointment_Time" row with
  | Obj.VStr date, Obj.VStr time =>
      default 0 (JsDate.parseIn zone (date +:+ "T" +:+ time))
  | _, _ => 0
  end.

(** [Array.prototype.sort] is stable: a row goes before the first later
    row that it does not come after. *)
Fixpoint insertRow (zone : JsDate.Zone) (row : Obj.Object) (sorted : list Obj.Object)
    : list Obj.Object :=
  match sorted with
  | [] => [row]
  | other :: rest =>
      if sortKey zone row <=? sortKey zone other then row :: sorted
      else other :: insertRow zone row rest
  end.

Definition sortRows (zone : JsDate.Zone) (rows : list Obj.Object) : list Obj.Object :=
  foldr (insertRow zone) [] rows.

Definition generateAppointmentData (zone : JsDate.Zone) (patients : list Patient)
    : Gen (list Obj.Object) :=
  forEach (seqZ 0 NUM_RECORDS) (visit zone patients);;
  s ← getState;
  mret (sortRows zone (appointments s)).

(** ** The script *)

(** This copy of [convertToCSV] reads [data[0]] without a guard: an
    empty data set throws. *)
Definition convertToCSV (data : list Obj.Object) : option string :=
  match data with
  | first :: _ => Some (Obj.csvText first data)
  | [] => None
  end.

Definition outputFile : string := "Pat_App_Data.csv".

(** The rows of a run on a host in [zone]. *)
Definition run (zone : JsDate.Zone) (rnd : nat -> Q) : option (list Obj.Object) :=
  fst <$> (patients ← generatePatients; generateAppointmentData zone patients)
            rnd initialState.

(** The whole script on a working directory; [None] is an uncaught
    exception, which leaves the directory as it was. *)
Definition script (zone : JsDate.Zone) (rnd : nat -> Q) (fs : FileSystem)
    : option (FileSystem * list LogLine) :=
  rows ← run zone rnd;
  text ← convertToCSV rows;
  Some (writeFileSync outputFile text fs,
        [Info ("Created " +:+ JsString.ofZ (Z.of_nat (length rows))
               +:+ " dental appointment records");
         Info "Data saved to 'Pat_App_Data.csv'"]).

End Appointments.

(* ================================================================== *)
(** * The operations generator *)
(* ================================================================== *)

Module Operations.

Import Rand.

(** ** Static catalogues *)

Record Location : Type := {
  loc_id : string;
  loc_name : string;
  loc_address : string;
  opened_date : string;
  chairs : Z;
  operatingHours : Z;
  avgPatientsPerChairPerDay : Z;
  target_chair_utilization : Q;
  target_collection_rate : Q;
  target_new_patients : Z;
  target_cancellation_rate : Q
}.

Record StaffMember : Type := {
  staff_id : string;
  staff_name : string;
  role : string;
  primary_location : string;
  specialty : string;
  hourly_rate : Z;
  full_time : bool
}.

Record Equipment : Type := {
  eq_id : string;
  eq_name : string;
  eq_type : string;
  eq_locations : list string;
  avg_usage_time : Z;
  avg_daily_uses : Z;
  maintenance_interval_days : Z
}.

Definition START_DATE : JsDate.Date := JsDate.make 2020 0 1.
Definition END_DATE : JsDate.Date := JsDate.make 2025 3 1.

Definition inputFile : string := "Pat_App_Data.csv".
Definition operationsFile : string := "Dental_Operations_Data.csv".
Definition staffHoursFile : string := "Dental_Staff_Hours_Data.csv".
Definition equipmentUsageFile : string := "Dental_Equipment_Usage_Data.csv".

Definition locations : list Location := [
  {| loc_id := "LOC001"; loc_name := "Downtown Dental"; loc_address := "123 Main St, Portland, OR 97201";
     opened_date := "2015-03-15"; chairs := 5; operatingHours := 9;
     avgPatientsPerChairPerDay := 8;
     target_chair_utilization := 0.85%Q; target_collection_rate := 0.92%Q;
     target_new_patients := 30; target_cancellation_rate := 0.05%Q |};
  {| loc_id := "LOC002"; loc_name := "Westside Smile Center"; loc_address := "456 Park Ave, Portland, OR 97229";
     opened_date := "2017-06-22"; chairs := 4; operatingHours := 10;
     avgPatientsPerChairPerDay := 7;
     target_chair_utilization := 0.82%Q; target_collection_rate := 0.90%Q;
     target_new_patients := 25; target_cancellation_rate := 0.06%Q |};
  {| loc_id := "LOC003"; loc_name := "East Valley Dental Care"; loc_address := "789 River Rd, Gresham, OR 97030";
     opened_date := "2019-11-10"; chairs := 3; operatingHours := 8;
     avgPatientsPerChairPerDay := 6;
     target_chair_utilization := 0.80%Q; target_collection_rate := 0.88%Q;
     target_new_patients := 20; target_cancellation_rate := 0.07%Q |};
  {| loc_id := "LOC004"; loc_name := "North Portland Family Dental"; loc_address := "234 Market St, Portland, OR 97217";
     opened_date := "2018-08-05"; chairs := 4; operatingHours := 9;
     avgPatientsPerChairPerDay := 7;
     target_chair_utilization := 0.83%Q; target_collection_rate := 0.91%Q;
     target_new_patients := 25; target_cancellation_rate := 0.06%Q |}
].

Definition staffMembers : list StaffMember := [
  {| staff_id := "DR001"; staff_name := "Dr. Sarah Johnson"; role := "Dentist"; primary_location := "LOC001";
     specialty := "General"; hourly_rate := 150; full_time := true |};
  {| staff_id := "DR002"; staff_name := "Dr. Michael Chen"; role := "Dentist"; primary_location := "LOC001";
     specialty := "Orthodontics"; hourly_rate := 160; full_time := true |};
  {| staff_id := "DR003"; staff_name := "Dr. Robert Garcia"; role := "Dentist"; primary_location := "LOC002";
     specialty := "Periodontics"; hourly_rate := 155; full_time := true |};
  {| staff_id := "DR004"; staff_name := "Dr. Emily Wilson"; role := "Dentist"; primary_location := "LOC002";
     specialty := "General"; hourly_rate := 145; full_time := false |};
  {| staff_id := "DR005"; staff_name := "Dr. David Kim"; role := "Dentist"; primary_location := "LOC003";
     specialty := "General"; hourly_rate := 140; full_time := true |};
  {| staff_id := "DR006"; staff_name := "Dr. Lisa Patel"; role := "Dentist"; primary_location := "LOC003";
     specialty := "Endodontics"; hourly_rate := 165; full_time := false |};
  {| staff_id := "DR007"; staff_name := "Dr. James Taylor"; role := "Dentist"; primary_location := "LOC001";
     specialty := "Oral Surgery"; hourly_rate := 170; full_time := false |};
  {| staff_id := "HYG001"; staff_name := "Lisa Martinez"; role := "Hygienist"; primary_location := "LOC001";
     specialty := "Hygiene"; hourly_rate := 60; full_time := true |};
  {| staff_id := "HYG002"; staff_name := "John Anderson"; role := "Hygienist"; primary_location := "LOC002";
     specialty := "Hygiene"; hourly_rate := 58; full_time := true |};
  {| staff_id := "HYG003"; staff_name := "Sophia Lee"; role := "Hygienist"; primary_location := "LOC003";
     specialty := "Hygiene"; hourly_rate := 55; full_time := true |};
  {| staff_id := "HYG004"; staff_name := "Michael Brooks"; role := "Hygienist"; primary_location := "LOC001";
     specialty := "Hygiene"; hourly_rate := 62; full_time := true |};
  {| staff_id := "HYG005"; staff_name := "Jennifer Lopez"; role := "Hygienist"; primary_location := "LOC001";
     specialty := "Hygiene"; hourly_rate := 59; full_time := true |};
  {| staff_id := "HYG006"; staff_name := "Thomas Wright"; role := "Hygienist"; primary_location := "LOC002";
     specialty := "Hygiene"; hourly_rate := 57; full_time := true |};
  {| staff_id := "HYG007"; staff_name := "Emily Davis"; role := "Hygienist"; primary_location := "LOC002";
     specialty := "Hygiene"; hourly_rate := 56; full_time := false |};
  {| staff_id := "HYG008"; staff_name := "Ryan Cooper"; role := "Hygienist"; primary_location := "LOC003";
     specialty := "Hygiene"; hourly_rate := 54; full_time := true |};
  {| staff_id := "HYG009"; staff_name := "Olivia Martinez"; role := "Hygienist"; primary_location := "LOC001";
     specialty := "Hygiene"; hourly_rate := 61; full_time := false |};
  {| staff_id := "ASST001"; staff_name := "Maria Rodriguez"; role := "Assistant"; primary_location := "LOC001";
     specialty := "General"; hourly_rate := 28; full_time := true |};
  {| staff_id := "ASST002"; staff_name := "David Smith"; role := "Assistant"; primary_location := "LOC001";
     specialty := "General"; hourly_rate := 27; full_time := true |};
  {| staff_id := "ASST003"; staff_name := "Sarah Johnson"; role := "Assistant"; primary_location := "LOC001";
     specialty := "Orthodontics"; hourly_rate := 29; full_time := true |};
  {| staff_id := "ASST004"; staff_name := "Michael Brown"; role := "Assistant"; primary_location := "LOC001";
     specialty := "General"; hourly_rate := 26; full_time := true |};
  {| staff_id := "ASST005"; staff_name := "Jessica Lee"; role := "Assistant"; primary_location := "LOC001";
     specialty := "Oral Surgery"; hourly_rate := 30; full_time := true |};
  {| staff_id := "ASST006"; staff_name := "Robert Wilson"; role := "Assistant"; primary_location := "LOC001";
     specialty := "General"; hourly_rate := 27; full_time := true |};
  {| staff_id := "ASST007"; staff_name := "Karen Miller"; role := "Assistant"; primary_location := "LOC002";
     specialty := "General"; hourly_rate := 26; full_time := true |};
  {| staff_id := "ASST008"; staff_name := "Daniel Taylor"; role := "Assistant"; primary_location := "LOC002";
     specialty := "General"; hourly_rate := 25; full_time := true |};
  {| staff_id := "ASST009"; staff_name := "Michelle Davis"; role := "Assistant"; primary_location := "LOC002";
     specialty := "Periodontics"; hourly_rate := 28; full_time := true |};
  {| staff_id := "ASST010"; staff_name := "Andrew Garcia"; role := "Assistant"; primary_location := "LOC002";
     specialty := "General"; hourly_rate := 26; full_time := true |};
  {| staff_id := "ASST011"; staff_name := "Patricia Martinez"; role := "Assistant"; primary_location := "LOC003";
     specialty := "General"; hourly_rate := 25; full_time := true |};
  {| staff_id := "ASST012"; staff_name := "Kevin Johnson"; role := "Assistant"; primary_location := "LOC003";
     specialty := "General"; hourly_rate := 24; full_time := true |};
  {| staff_id := "ASST013"; staff_name := "Rachel Thompson"; role := "Assistant"; primary_location := "LOC003";
     specialty := "Endodontics"; hourly_rate := 27; full_time := true |};
  {| staff_id := "ADM001"; staff_name := "Jennifer Williams"; role := "Admin"; primary_location := "LOC001";
     specialty := "Reception"; hourly_rate := 24; full_time := true |};
  {| staff_id := "ADM002"; staff_name := "Christopher Davis"; role := "Admin"; primary_location := "LOC001";
     specialty := "Billing"; hourly_rate := 26; full_time := true |};
  {| staff_id := "ADM003"; staff_name := "Amanda Johnson"; role := "Admin"; primary_location := "LOC001";
     specialty := "Office Manager"; hourly_rate := 32; full_time := true |};
  {| staff_id := "ADM004"; staff_name := "Matthew Miller"; role := "Admin"; primary_location := "LOC002";
     specialty := "Reception"; hourly_rate := 23; full_time := true |};
  {| staff_id := "ADM005"; staff_name := "Emma Smith"; role := "Admin"; primary_location := "LOC002";
     specialty := "Office Manager"; hourly_rate := 30; full_time := true |};
  {| staff_id := "ADM006"; staff_name := "Brandon Wilson"; role := "Admin"; primary_location := "LOC003";
     specialty := "Reception"; hourly_rate := 22; full_time := true |};
  {| staff_id := "ADM007"; staff_name := "Sophia Garcia"; role := "Admin"; primary_location := "LOC003";
     specialty := "Office Manager"; hourly_rate := 29; full_time := true |};
  {| staff_id := "DR008"; staff_name := "Dr. Natalie Wong"; role := "Dentist"; primary_location := "LOC004";
     specialty := "General"; hourly_rate := 155; full_time := true |};
  {| staff_id := "DR009"; staff_name := "Dr. Marcus Jackson"; role := "Dentist"; primary_location := "LOC004";
     specialty := "Pediatric"; hourly_rate := 160; full_time := false |};
  {| staff_id := "HYG010"; staff_name := "Benjamin Carter"; role := "Hygienist"; primary_location := "LOC004";
     specialty := "Hygiene"; hourly_rate := 58; full_time := true |};
  {| staff_id := "HYG011"; staff_name := "Amelia Zhang"; role := "Hygienist"; primary_location := "LOC004";
     specialty := "Hygiene"; hourly_rate := 55; full_time := true |};
  {| staff_id := "ASST014"; staff_name := "Tyler Robinson"; role := "Assistant"; primary_location := "LOC004";
     specialty := "General"; hourly_rate := 26; full_time := true |};
  {| staff_id := "ASST015"; staff_name := "Alexandra Singh"; role := "Assistant"; primary_location := "LOC004";
     specialty := "Pediatric"; hourly_rate := 27; full_time := true |};
  {| staff_id := "ASST016"; staff_name := "Caleb Washington"; role := "Assistant"; primary_location := "LOC004";
     specialty := "General"; hourly_rate := 25; full_time := true |};
  {| staff_id := "ASST017"; staff_name := "Hannah Patel"; role := "Assistant"; primary_location := "LOC004";
     specialty := "General"; hourly_rate := 24; full_time := false |};
  {| staff_id := "ADM008"; staff_name := "Noah Reynolds"; role := "Admin"; primary_location := "LOC004";
     specialty := "Reception"; hourly_rate := 23; full_time := true |};
  {| staff_id := "ADM009"; staff_name := "Isabella Ramirez"; role := "Admin"; primary_location := "LOC004";
     specialty := "Billing"; hourly_rate := 26; full_time := true |}
].

Definition equipment : list Equipment := [
  {| eq_id := "EQ001"; eq_name := "Digital X-Ray Machine"; eq_type := "Imaging";
     eq_locations := ["LOC001"; "LOC002"; "LOC003"; "LOC004"];
     avg_usage_time := 15; avg_daily_uses := 12; maintenance_interval_days := 90 |};
  {| eq_id := "EQ002"; eq_name := "Panoramic X-Ray"; eq_type := "Imaging";
     eq_locations := ["LOC001"; "LOC002"; "LOC004"];
     avg_usage_time := 20; avg_daily_uses := 6; maintenance_interval_days := 120 |};
  {| eq_id := "EQ003"; eq_name := "CBCT Scanner"; eq_type := "Imaging";
     eq_locations := ["LOC001"];
     avg_usage_time := 30; avg_daily_uses := 3; maintenance_interval_days := 180 |};
  {| eq_id := "EQ004"; eq_name := "Dental Chair 1"; eq_type := "Treatment";
     eq_locations := ["LOC001"; "LOC002"; "LOC003"; "LOC004"];
     avg_usage_time := 45; avg_daily_uses := 10; maintenance_interval_days := 60 |};
  {| eq_id := "EQ005"; eq_name := "Dental Chair 2"; eq_type := "Treatment";
     eq_locations := ["LOC001"; "LOC002"; "LOC003"; "LOC004"];
     avg_usage_time := 45; avg_daily_uses := 10; maintenance_interval_days := 60 |};
  {| eq_id := "EQ006"; eq_name := "Dental Chair 3"; eq_type := "Treatment";
     eq_locations := ["LOC001"; "LOC002"; "LOC003"; "LOC004"];
     avg_usage_time := 45; avg_daily_uses := 10; maintenance_interval_days := 60 |};
  {| eq_id := "EQ007"; eq_name := "Dental Chair 4"; eq_type := "Treatment";
     eq_locations := ["LOC001"; "LOC002"; "LOC004"];
     avg_usage_time := 45; avg_daily_uses := 10; maintenance_interval_days := 60 |};
  {| eq_id := "EQ008"; eq_name := "Dental Chair 5"; eq_type := "Treatment";
     eq_locations := ["LOC001"];
     avg_usage_time := 45; avg_daily_uses := 10; maintenance_interval_days := 60 |};
  {| eq_id := "EQ009"; eq_name := "CAD/CAM System"; eq_type := "Restoration";
     eq_locations := ["LOC001"];
     avg_usage_time := 60; avg_daily_uses := 2; maintenance_interval_days := 90 |};
  {| eq_id := "EQ010"; eq_name := "Sterilization Unit"; eq_type := "Sterilization";
     eq_locations := ["LOC001"; "LOC002"; "LOC003"; "LOC004"];
     avg_usage_time := 30; avg_daily_uses := 15; maintenance_interval_days := 30 |};
  {| eq_id := "EQ011"; eq_name := "Dental Laser"; eq_type := "Treatment";
     eq_locations := ["LOC001"; "LOC002"; "LOC004"];
     avg_usage_time := 25; avg_daily_uses := 4; maintenance_interval_days := 60 |};
  {| eq_id := "EQ012"; eq_name := "Intraoral Scanner"; eq_type := "Imaging";
     eq_locations := ["LOC001"; "LOC002"; "LOC003"; "LOC004"];
     avg_usage_time := 20; avg_daily_uses := 5; maintenance_interval_days := 45 |}
].

Definition holidays : list string := [
  "2020-01-01"; "2020-01-20"; "2020-02-17"; "2020-05-25"; "2020-07-04"; "2020-09-07";
  "2020-11-11"; "2020-11-26"; "2020-12-25"; "2021-01-01"; "2021-01-18"; "2021-02-15";
  "2021-05-31"; "2021-07-04"; "2021-09-06"; "2021-11-11"; "2021-11-25"; "2021-12-25";
  "2022-01-01"; "2022-01-17"; "2022-02-21"; "2022-05-30"; "2022-07-04"; "2022-09-05";
  "2022-11-11"; "2022-11-24"; "2022-12-25"; "2023-01-01"; "2023-01-16"; "2023-02-20";
  "2023-05-29"; "2023-07-04"; "2023-09-04"; "2023-11-11"; "2023-11-23"; "2023-12-25";
  "2024-01-01"; "2024-01-15"; "2024-02-19"; "2024-05-27"; "2024-07-04"; "2024-09-02";
  "2024-11-11"; "2024-11-28"; "2024-12-25"; "2025-01-01"; "2025-01-20"; "2025-02-17";
  "2025-05-26"; "2025-07-04"
].

(** ** [getGrowthFactor]

    ([getSeasonalFactor] and [getDayOfWeekFactor] are defined in this
    script but never called.) *)

Definition getGrowthFactor (date : JsDate.Date) : R Q :=
  let yearsSince2020 :=
    (inject_Z (JsDate.getFullYear date - 2020) + inject_Z (JsDate.getMonth date) / 12)%Q in
  variation ← randomFloatBetween 0.8 1.2;
  mret (1 + (yearsSince2020 * 0.05) * variation)%Q.

(** ** [readAppointmentData]: the per-(date, location) index *)

Record ProcedureDetail : Type := {
  detail_code : string;
  detail_description : option string;
  detail_category : option string;
  detail_duration : Z
}.

(** A bucket of the index. *)
Record Metrics : Type := {
  total : Z;
  completed : Z;
  canceled : Z;
  noShow : Z;
  rescheduled : Z;
  totalDuration : Z;
  newPatients : Z;
  procedures : list ProcedureDetail;
  chargedAmount : Z;
  insuranceCovered : Z;
  patientResponsibility : Z;
  amountPaid : Z
}.

Definition emptyMetrics : Metrics :=
  {| total := 0; completed := 0; canceled := 0; noShow := 0; rescheduled := 0;
     totalDuration := 0; newPatients := 0; procedures := [];
     chargedAmount := 0; insuranceCovered := 0; patientResponsibility := 0;
     amountPaid := 0 |}.

(** [appointmentsByDateLocation]: date, then location. *)
Abbreviation Index := (gmap string (gmap string Metrics)).

Definition lookupBucket (index : Index) (date locationId : string) : option Metrics :=
  index !! date ≫= fun byLocation => byLocation !! locationId.

(** The effect of one parsed row on its bucket. *)
Definition countRow (row : gmap string string) (bucket : Metrics) : Metrics :=
  let status := Csv.field row "Appointment_Status" in
  let duration := Csv.intField row "Procedure_Duration" in
  let isCompleted := bool_decide (status = Some "Completed") in
  let procedureCode := Csv.field row "Procedure_Code" in
  {| total := total bucket + 1;
     completed := if isCompleted then completed bucket + 1 else completed bucket;
     canceled := if negb isCompleted && bool_decide (status = Some "Canceled")
                 then canceled bucket + 1 else canceled bucket;
     noShow := if negb isCompleted && bool_decide (status = Some "No-Show")
               then noShow bucket + 1 else noShow bucket;
     rescheduled := if negb isCompleted && bool_decide (status = Some "Rescheduled")
                    then rescheduled bucket + 1 else rescheduled bucket;
     totalDuration := if isCompleted then totalDuration bucket + duration
                      else totalDuration bucket;
     newPatients := if bool_decide (Csv.field row "Is_New_Patient" = Some "true")
                    then newPatients bucket + 1 else newPatients bucket;
     procedures :=
       match procedureCode with
       | Some code =>
           if isCompleted && negb (String.eqb code "")
           then procedures bucket ++
                [{| detail_code := code;
                    detail_description := Csv.field row "Procedure_Description";
                    detail_category := Csv.field row "Procedure_Category";
                    detail_duration := duration |}]
           else procedures bucket
       | None => procedures bucket
       end;
     chargedAmount := if isCompleted
                      then chargedAmount bucket + Csv.intField row "Charged_Amount"
                      else chargedAmount bucket;
     insuranceCovered := if isCompleted
                         then insuranceCovered bucket
                              + Csv.intField row "Insurance_Covered_Amount"
                         else insuranceCovered bucket;
     patientResponsibility := if isCompleted
                              then patientResponsibility bucket
                                   + Csv.intField row "Patient_Responsibility"
                              else patientResponsibility bucket;
     amountPaid := if isCompleted
                   then amountPaid bucket + Csv.intField row "Amount_Paid"
                   else amountPaid bucket |}.

(** The keys of a row: an absent column reads as [undefined], which as a
    property name is the string of that word. *)
Definition rowDate (row : gmap string string) : string :=
  Obj.template (Csv.field row "Date_of_Service").
Definition rowLocation (row : gmap string string) : string :=
  Obj.template (Csv.field row "Location_ID").

Definition accumulate (index : Index) (row : gmap string string) : Index :=
  let date := rowDate row in
  let locationId := rowLocation row in
  let byLocation := default ∅ (index !! date) in
  let bucket := default emptyMetrics (byLocation !! locationId) in
  <[date := <[locationId := countRow row bucket]> byLocation]> index.

Definition buildIndex (data : string) : Index :=
  foldl accumulate ∅ (Csv.parse data).

(** The promise of [readAppointmentData]: rejected with the read error,
    or resolved with the index.  The console lines come with it. *)
Definition readAppointmentData (fs : FileSystem) : (string + Index) * list LogLine :=
  match readFile fs inputFile with
  | inl err => (inl err, [Failure "Error reading appointment data file:" err])
  | inr data => (inr (buildIndex data), [Info "Successfully processed appointment data"])
  end.

(** ** [generateDailyOperations] *)

Section Generator.

(** [[...staffInRole].sort(() => 0.5 - Math.random())]: how often a sort
    calls its comparator, and what it returns for one that is not
    consistent, is left to the engine.  The shuffle is a parameter. *)
Context (shuffle : list StaffMember -> R (list StaffMember)).

Definition staffWorkingPercent : list (string * Q) :=
  [("Dentist", 0.9%Q); ("Hygienist", 0.833%Q); ("Assistant", 0.85%Q); ("Admin", 0.973%Q)].

Definition dayNames : list string :=
  ["Sunday"; "Monday"; "Tuesday"; "Wednesday"; "Thursday"; "Friday"; "Saturday"].

(** [shuffled.slice(0, numWorking)]. *)
Definition slice0 {A} (l : list A) (n : Z) : list A :=
  if n <? 0 then take (length l - Z.to_nat (- n)) l else take (Z.to_nat n) l.

(** Hours and cost of one member of staff who works that day. *)
Definition staffHours (saturday : bool) (staff : StaffMember) : R (Q * Q * Obj.Object) :=
  hoursWorked ←
    (if saturday
     then (if full_time staff then randomFloatBetween 4 5 else randomFloatBetween 3 4)
     else (if full_time staff then randomFloatBetween 7 9 else randomFloatBetween 4 6));
  let laborCost := (hoursWorked * inject_Z (hourly_rate staff))%Q in
  mret (hoursWorked, laborCost,
        [ ("Staff_ID", Obj.VStr (staff_id staff));
          ("Staff_Name", Obj.VStr (staff_name staff));
          ("Staff_Role", Obj.VStr (role staff));
          ("Staff_Specialty", Obj.VStr (specialty staff));
          ("Hours_Worked", Obj.VNum (Js.Num hoursWorked));
          ("Labor_Cost", Obj.VNum (Js.Num laborCost)) ]).

(** The staff of one role that works today. *)
Definition staffOfRole (saturday : bool) (locationStaff : list StaffMember)
    (entry : string * Q) : R (list (Q * Q * Obj.Object)) :=
  let staffInRole := List.filter (fun s => String.eqb (role s) (fst entry)) locationStaff in
  let numWorking := Js.round (inject_Z (Z.of_nat (length staffInRole)) * snd entry) in
  shuffled ← shuffle staffInRole;
  mapM (staffHours saturday) (slice0 shuffled numWorking).

Definition sumQ (l : list Q) : Q := foldl Qplus 0%Q l.

(** Usage of one piece of equipment. *)
Definition equipmentUsage (saturday : bool) (location : Location) (actualAppointments : Z)
    (eq : Equipment) : R Obj.Object :=
  let volumeFactor :=
    if 0 <? avgPatientsPerChairPerDay location
    then Js.div (Js.ofZ actualAppointments)
                (Js.ofZ (avgPatientsPerChairPerDay location * chairs location))
    else Js.Num 1 in
  variation ← randomFloatBetween 0.8 1.2;
  let dailyUses :=
    Js.mathRound (Js.mul (Js.mul (Js.ofZ (avg_daily_uses eq)) volumeFactor)
                         (Js.Num variation)) in
  let usageTime := Js.mul dailyUses (Js.ofZ (avg_usage_time eq)) in
  let availableMinutes :=
    if saturday then (inject_Z (operatingHours location * 60) / 2)%Q
    else inject_Z (operatingHours location * 60) in
  let utilizationRate :=
    Js.mathMin (Js.Num 0.95) (Js.div usageTime (Js.Num availableMinutes)) in
  mret [ ("Equipment_ID", Obj.VStr (eq_id eq));
         ("Equipment_Name", Obj.VStr (eq_name eq));
         ("Equipment_Type", Obj.VStr (eq_type eq));
         ("Usage_Count", Obj.VNum dailyUses);
         ("Usage_Time_Minutes", Obj.VNum usageTime);
         ("Utilization_Rate", Obj.VStr (JsString.toFixed 2 utilizationRate)) ].

Definition utilizationOf (equipmentRow : Obj.Object) : Js.num :=
  match Obj.get "Utilization_Rate" equipmentRow with
  | Obj.VStr text => JsString.parseFloat text
  | _ => Js.NaN
  end.

Definition countRole (staffData : list Obj.Object) (r : string) : Z :=
  Z.of_nat (length (List.filter
     (fun s => Obj.isString (Obj.get "Staff_Role" s) r) staffData)).

(** What [generateDailyOperations] returns for an open day: the record,
    and the two arrays that it carries under [Staff_Details] and
    [Equipment_Details] until the caller moves them out. *)
Record DailyData : Type := {
  dailyRecord : Obj.Object;
  Staff_Details : list Obj.Object;
  Equipment_Details : list Obj.Object
}.

Definition appointmentMetricsFor (appointmentData : Index) (formattedDate : string)
    (location : Location) : Metrics :=
  default emptyMetrics (lookupBucket appointmentData formattedDate (loc_id location)).

Definition toFixedQ (digits : nat) (x : Q) : string := JsString.toFixed digits (Js.Num x).

(** *** The two metrics with a derived and a synthetic arm *)

(** Chair utilization: the summed duration over the available chair
    minutes, capped, when the day has a duration; else around the target. *)
Definition syntheticChairUtilization (targetUtilization : Q) : R Js.num :=
  u ← randomFloatBetween (Js.Qmax 0.65 (targetUtilization - 0.1))
                         (Js.Qmin 0.95 (targetUtilization + 0.05));
  mret (Js.Num u).

Definition derivedChairUtilization (appointmentMetrics : Metrics) (availableMinutes : Q)
    : Js.num :=
  Js.mathMin (Js.Num 0.95)
    (Js.div (Js.ofZ (totalDuration appointmentMetrics)) (Js.Num availableMinutes)).

Definition chairUtilizationOf (appointmentMetrics : Metrics) (availableMinutes : Q)
    (targetUtilization : Q) : R Js.num :=
  if 0 <? totalDuration appointmentMetrics
  then mret (derivedChairUtilization appointmentMetrics availableMinutes)
  else syntheticChairUtilization targetUtilization.

(** Collection rate: paid over charged when something was charged; else
    around the target. *)
Definition syntheticCollectionRate (location : Location) : R Q :=
  randomFloatBetween (Js.Qmax 0.6 (target_collection_rate location - 0.1))
                     (Js.Qmin 0.98 (target_collection_rate location + 0.05)).

Definition derivedCollectionRate (appointmentMetrics : Metrics) : Q :=
  (inject_Z (amountPaid appointmentMetrics)
   / inject_Z (chargedAmount appointmentMetrics))%Q.

Definition collectionRateOf (appointmentMetrics : Metrics) (location : Location) : R Q :=
  if 0 <? chargedAmount appointmentMetrics
  then mret (derivedCollectionRate appointmentMetrics)
  else syntheticCollectionRate location.

(** The chair minutes of a day; Saturday is a half day. *)
Definition availableChairMinutes (location : Location) (saturday : bool) : Q :=
  let minutes := inject_Z (chairs location * operatingHours location * 60) in
  if saturday then (minutes / 2)%Q else minutes.

(** The target, improved by half a point per year since 2020. *)
Definition targetUtilizationOn (date : JsDate.Date) (location : Location) : Q :=
  (target_chair_utilization location
   + inject_Z (JsDate.getFullYear date - 2020) * 0.005)%Q.

(** The clinic is closed on Sundays and holidays. *)
Definition closedOn (date : JsDate.Date) : bool :=
  (JsDate.getDay date =? 0) || bool_decide (JsDate.formatDate date ∈ holidays).

(** *** The daily record *)

(** [null] (here [None]) on a Sunday or a holiday. *)
Definition generateDailyOperations (date : JsDate.Date) (location : Location)
    (appointmentData : Index) : R (option DailyData) :=
  let formattedDate := JsDate.formatDate date in
  let isHoliday := bool_decide (formattedDate ∈ holidays) in
  let isWeekend := (JsDate.getDay date =? 0) || (JsDate.getDay date =? 6) in
  if closedOn date then mret None
  else
    let saturday := JsDate.getDay date =? 6 in
    let appointmentMetrics := appointmentMetricsFor appointmentData formattedDate location in
    let targetUtilization := targetUtilizationOn date location in
    let availableMinutes := availableChairMinutes location saturday in
    chairUtilization ← chairUtilizationOf appointmentMetrics availableMinutes
                                          targetUtilization;
    let totalScheduled := total appointmentMetrics in
    let cancellations := canceled appointmentMetrics in
    let noShows := noShow appointmentMetrics in
    let cancellationRate :=
      if 0 <? totalScheduled
      then (inject_Z cancellations / inject_Z totalScheduled)%Q else 0%Q in
    let noShowRate :=
      if 0 <? totalScheduled
      then (inject_Z noShows / inject_Z totalScheduled)%Q else 0%Q in
    let newPatients := newPatients appointmentMetrics in
    let actualAppointments := completed appointmentMetrics in
    let returningPatients := actualAppointments - newPatients in
    avgWaitTime ← randomBetween 5 25;
    let locationStaff :=
      List.filter (fun s => String.eqb (primary_location s) (loc_id location)) staffMembers in
    staffByRole ← mapM (staffOfRole saturday locationStaff) staffWorkingPercent;
    let staff := concat staffByRole in
    let staffData := map snd staff in
    let totalLaborHours := sumQ (map (fun x => fst (fst x)) staff) in
    let totalLaborCost := sumQ (map (fun x => snd (fst x)) staff) in
    let locationEquipment :=
      List.filter (fun eq => bool_decide (loc_id location ∈ eq_locations eq)) equipment in
    equipmentData ← mapM (equipmentUsage saturday location actualAppointments)
                         locationEquipment;
    let fractionalYear :=
      (inject_Z (JsDate.getFullYear date - 2020) + inject_Z (JsDate.getMonth date) / 12)%Q in
    completionJitter ← randomFloatBetween (-0.05) 0.05;
    let treatmentPlanCompletionRate :=
      (0.65 + (0.85 - 0.65) * (fractionalYear / 5) + completionJitter)%Q in
    let activeTreatmentPlans := Js.round (inject_Z actualAppointments * 0.433) in
    let completedTreatmentPlans :=
      Js.round (inject_Z activeTreatmentPlans * treatmentPlanCompletionRate) in
    paymentJitter ← randomBetween (-2) 3;
    let avgDaysToPayment :=
      (30 - (30 - 15) * (fractionalYear / 5) + inject_Z paymentJitter)%Q in
    let dailyClaimsSubmitted := Js.round (inject_Z actualAppointments * 0.8) in
    processedFactor ← randomFloatBetween 0.9 1.1;
    let dailyClaimsProcessed := Js.round (inject_Z dailyClaimsSubmitted * processedFactor) in
    paidFactor ← randomFloatBetween 0.85 0.95;
    let dailyClaimsPaid := Js.round (inject_Z dailyClaimsProcessed * paidFactor) in
    deniedFactor ← randomFloatBetween 0.02 0.08;
    let dailyClaimsDenied := Js.round (inject_Z dailyClaimsProcessed * deniedFactor) in
    actualCollectionRate ← collectionRateOf appointmentMetrics location;
    revenuePerHour ←
      (if Js.Qltb 0 totalLaborHours
       then mret (Js.round (inject_Z (chargedAmount appointmentMetrics) / totalLaborHours))
       else base ← randomFloatBetween 900 1400;
            growth ← getGrowthFactor date;
            mret (Js.round (base * growth)));
    revenuePerChair ←
      (if 0 <? chairs location
       then mret (Js.round (inject_Z (chargedAmount appointmentMetrics)
                            / inject_Z (chairs location)))
       else base ← randomFloatBetween 1800 2400;
            growth ← getGrowthFactor date;
            mret (Js.round (base * growth)));
    revenuePerPatient ←
      (if 0 <? actualAppointments
       then mret (Js.round (inject_Z (chargedAmount appointmentMetrics)
                            / inject_Z actualAppointments))
       else base ← randomFloatBetween 250 350;
            growth ← getGrowthFactor date;
            mret (Js.round (base * growth)));
    laborCostPercentage ←
      (if Js.Qltb 0 totalLaborCost && (0 <? chargedAmount appointmentMetrics)
       then mret (toFixedQ 2 (totalLaborCost / inject_Z (chargedAmount appointmentMetrics)))
       else share ← randomFloatBetween 0.27 0.33; mret (toFixedQ 2 share));
    supplyShare ← randomFloatBetween 0.12 0.16;
    overheadShare ← randomFloatBetween 0.35 0.42;
    mret (Some {|
      dailyRecord :=
        [ ("Operations_ID",
           Obj.VStr ("OP-" +:+ loc_id location +:+ "-" +:+
                     JsString.join "" (JsString.split "-" formattedDate)));
          ("Location_ID", Obj.VStr (loc_id location));
          ("Location_Name", Obj.VStr (loc_name location));
          ("Date", Obj.VStr formattedDate);
          ("Year", Obj.VInt (JsDate.getFullYear date));
          ("Month", Obj.VInt (JsDate.getMonth date + 1));
          ("Day_of_Week", Obj.ofOption (dayNames !! Z.to_nat (JsDate.getDay date)));
          ("Is_Holiday", Obj.VBool isHoliday);
          ("Is_Weekend", Obj.VBool isWeekend);
          ("Appointment_Capacity",
           Obj.VInt (chairs location * avgPatientsPerChairPerDay location));
          ("Scheduled_Appointments", Obj.VInt totalScheduled);
          ("Actual_Appointments", Obj.VInt actualAppointments);
          ("Chair_Utilization", Obj.VStr (JsString.toFixed 2 chairUtilization));
          ("Target_Chair_Utilization", Obj.VStr (toFixedQ 2 targetUtilization));
          ("Cancellation_Count", Obj.VInt cancellations);
          ("Cancellation_Rate", Obj.VStr (toFixedQ 2 cancellationRate));
          ("No_Show_Count", Obj.VInt noShows);
          ("No_Show_Rate", Obj.VStr (toFixedQ 2 noShowRate));
          ("Avg_Wait_Time", Obj.VInt avgWaitTime);
          ("Total_Patients_Seen", Obj.VInt actualAppointments);
          ("New_Patient_Count", Obj.VInt newPatients);
          ("Returning_Patient_Count", Obj.VInt returningPatients);
          ("Target_New_Patients",
           Obj.VNum (Js.Num (inject_Z (target_new_patients location) / 20)));
          ("Total_Labor_Hours", Obj.VStr (toFixedQ 1 totalLaborHours));
          ("Total_Labor_Cost", Obj.VInt (Js.round totalLaborCost));
          ("Staff_Count", Obj.VInt (Z.of_nat (length staffData)));
          ("Dentist_Count", Obj.VInt (countRole staffData "Dentist"));
          ("Hygienist_Count", Obj.VInt (countRole staffData "Hygienist"));
          ("Assistant_Count", Obj.VInt (countRole staffData "Assistant"));
          ("Admin_Count", Obj.VInt (countRole staffData "Admin"));
          ("Equipment_Count", Obj.VInt (Z.of_nat (length equipmentData)));
          ("Avg_Equipment_Utilization",
           Obj.VStr (if (0 <? length equipmentData)%nat
                     then JsString.toFixed 2
                            (Js.div (foldl Js.add (Js.Num 0) (map utilizationOf equipmentData))
                                    (Js.ofZ (Z.of_nat (length equipmentData))))
                     else "0.00"));
          ("Active_Treatment_Plans", Obj.VInt activeTreatmentPlans);
          ("Completed_Treatment_Plans", Obj.VInt completedTreatmentPlans);
          ("Treatment_Plan_Completion_Rate",
           Obj.VStr (toFixedQ 2 treatmentPlanCompletionRate));
          ("Treatment_Plans_Not_Started",
           Obj.VInt (Js.round (inject_Z activeTreatmentPlans * 0.1)));
          ("Treatment_Plans_In_Progress",
           Obj.VInt (Js.round (inject_Z activeTreatmentPlans * 0.7)));
          ("Treatment_Plans_Completed", Obj.VInt completedTreatmentPlans);
          ("Treatment_Plans_Delayed",
           Obj.VInt (Js.round (inject_Z activeTreatmentPlans * 0.2)));
          ("Insurance_Claims_Submitted", Obj.VInt dailyClaimsSubmitted);
          ("Insurance_Claims_Processed", Obj.VInt dailyClaimsProcessed);
          ("Insurance_Claims_Paid", Obj.VInt dailyClaimsPaid);
          ("Insurance_Claims_Denied", Obj.VInt dailyClaimsDenied);
          ("Insurance_Denial_Rate",
           Obj.VStr (JsString.toFixed 2
                       (Js.div (Js.ofZ dailyClaimsDenied) (Js.ofZ dailyClaimsProcessed))));
          ("Avg_Days_To_Payment", Obj.VNum (Js.Num avgDaysToPayment));
          ("Claims_Aging_0_30", Obj.VInt (Js.round (inject_Z dailyClaimsSubmitted * 0.6)));
          ("Claims_Aging_31_60", Obj.VInt (Js.round (inject_Z dailyClaimsSubmitted * 0.25)));
          ("Claims_Aging_61_90", Obj.VInt (Js.round (inject_Z dailyClaimsSubmitted * 0.1)));
          ("Claims_Aging_90_Plus", Obj.VInt (Js.round (inject_Z dailyClaimsSubmitted * 0.05)));
          ("Target_Collection_Rate", Obj.VStr (toFixedQ 2 (target_collection_rate location)));
          ("Actual_Collection_Rate", Obj.VStr (toFixedQ 2 actualCollectionRate));
          ("Revenue_Per_Hour", Obj.VInt revenuePerHour);
          ("Revenue_Per_Chair", Obj.VInt revenuePerChair);
          ("Revenue_Per_Patient", Obj.VInt revenuePerPatient);
          ("Labor_Cost_Percentage", Obj.VStr laborCostPercentage);
          ("Supply_Cost_Percentage", Obj.VStr (toFixedQ 2 supplyShare));
          ("Overhead_Percentage", Obj.VStr (toFixedQ 2 overheadShare)) ];
      Staff_Details := staffData;
      Equipment_Details := equipmentData |}).

(** ** [generateOperationsDataset] *)

(** The dates that [while (date <= END_DATE)] visits, one
    [date.setDate(date.getDate() + 1)] apart.  The bound only makes the
    recursion structural; [operatingDates_complete] shows that the loop
    condition, not the bound, ends the enumeration. *)
Fixpoint datesFrom (bound : nat) (date : JsDate.Date) : list JsDate.Date :=
  match bound with
  | O => []
  | S k =>
      if date <=? END_DATE
      then date :: datesFrom k (JsDate.setDate date (JsDate.getDate date + 1))
      else []
  end.

Definition dateBound : nat := 2000.
Definition operatingDates : list JsDate.Date := datesFrom dateBound START_DATE.

Record Dataset : Type := {
  operationsData : list Obj.Object;
  staffHoursData : list Obj.Object;
  equipmentUsageData : list Obj.Object
}.

Definition emptyDataset : Dataset :=
  {| operationsData := []; staffHoursData := []; equipmentUsageData := [] |}.

Definition detailRow (daily : Obj.Object) (fields : list string) (detail : Obj.Object)
    : Obj.Object :=
  [ ("Operations_ID", Obj.get "Operations_ID" daily);
    ("Location_ID", Obj.get "Location_ID" daily);
    ("Date", Obj.get "Date" daily) ] ++
  map (fun key => (key, Obj.get key detail)) fields.

Definition staffFields : list string :=
  ["Staff_ID"; "Staff_Name"; "Staff_Role"; "Staff_Specialty"; "Hours_Worked"; "Labor_Cost"].
Definition equipmentFields : list string :=
  ["Equipment_ID"; "Equipment_Name"; "Equipment_Type"; "Usage_Count";
   "Usage_Time_Minutes"; "Utilization_Rate"].

(** The body of the inner [for] loop. *)
Definition addLocation (appointmentData : Index) (date : JsDate.Date)
    (acc : Dataset) (location : Location) : R Dataset :=
  dailyData ← generateDailyOperations date location appointmentData;
  match dailyData with
  | None => mret acc
  | Some daily =>
      mret {| operationsData := operationsData acc ++ [dailyRecord daily];
              staffHoursData := staffHoursData acc ++
                map (detailRow (dailyRecord daily) staffFields) (Staff_Details daily);
              equipmentUsageData := equipmentUsageData acc ++
                map (detailRow (dailyRecord daily) equipmentFields)
                    (Equipment_Details daily) |}
  end.

Fixpoint foldM {A B} (f : B -> A -> R B) (acc : B) (l : list A) : R B :=
  match l with
  | [] => mret acc
  | x :: rest => acc' ← f acc x; foldM f acc' rest
  end.

Definition generateOperationsDataset (appointmentData : Index) : R Dataset :=
  foldM (fun acc date => foldM (addLocation appointmentData date) acc locations)
        emptyDataset operatingDates.

(** ** [convertToCSV] and [main] *)

Definition convertToCSV (data : list Obj.Object) : string :=
  match data with
  | first :: _ => Obj.csvText first data
  | [] => ""
  end.

Definition count (rows : list Obj.Object) : string := JsString.ofZ (Z.of_nat (length rows)).

(** [main]: the rejected promise is caught and logged, and nothing is
    written; otherwise the three files are written. *)
Definition main (rnd : nat -> Q) (fs : FileSystem) : FileSystem * list LogLine :=
  let start := [Info "Reading appointment data and generating operations data..."] in
  match readAppointmentData fs with
  | (inl error, readLog) =>
      (fs, start ++ readLog ++ [Failure "Error generating operations data:" error])
  | (inr appointmentData, readLog) =>
      let dataset := fst (generateOperationsDataset appointmentData rnd 0%nat) in
      (writeFileSync equipmentUsageFile (convertToCSV (equipmentUsageData dataset))
         (writeFileSync staffHoursFile (convertToCSV (staffHoursData dataset))
            (writeFileSync operationsFile (convertToCSV (operationsData dataset)) fs)),
       start ++ readLog ++
       [ Info "Saving data to CSV files...";
         Info ("Generated " +:+ count (operationsData dataset)
               +:+ " dental operations records");
         Info ("Generated " +:+ count (staffHoursData dataset) +:+ " staff hours records");
         Info ("Generated " +:+ count (equipmentUsageData dataset)
               +:+ " equipment usage records") ])
  end.

End Generator.

End Operations.

(* ================================================================== *)
(** * The financial generator *)
(* ================================================================== *)

Module Financial.

Import Rand.

Declare Scope js_scope.
Delimit Scope js_scope with js.
Infix "+" := Js.add : js_scope.
Infix "-" := Js.sub : js_scope.
Infix "*" := Js.mul : js_scope.
Infix "/" := Js.div : js_scope.

(** ** Static catalogues *)

Record Location : Type := {
  loc_id : string;
  loc_name : string;
  loc_address : string;
  opened_date : string;
  square_footage : Z;
  monthly_rent : Z;
  acquisition_cost : Z;
  acquisition_date : string;
  chairs : Z;
  target_chair_utilization : Q;
  target_collection_rate : Q;
  target_new_patients : Z;
  target_cancellation_rate : Q
}.

Record InsuranceProvider : Type := {
  ins_name : string;
  reimbursement_rate : Q
}.

Definition START_DATE : JsDate.Date := JsDate.make 2020 0 1.
Definition END_DATE : JsDate.Date := JsDate.make 2025 3 1.

Definition appointmentsFile : string := "Pat_App_Data.csv".
Definition operationsFile : string := "Operations_Data.csv".
Definition outputFile : string := "Financial_Data.csv".

Definition serviceCategories : list string :=
  ["Diagnostic"; "Preventive"; "Restorative"; "Endodontic"; "Periodontic";
   "Prosthodontic"; "Oral Surgery"; "Orthodontic"; "Implant"; "Adjunctive"].

Definition locations : list Location := [
  {| loc_id := "LOC001"; loc_name := "Downtown Dental"; loc_address := "123 Main St, Portland, OR 97201";
     opened_date := "2015-03-15"; square_footage := 3200; monthly_rent := 12800;
     acquisition_cost := 850000; acquisition_date := "2015-01-15"; chairs := 5;
     target_chair_utilization := 0.85%Q; target_collection_rate := 0.92%Q;
     target_new_patients := 30; target_cancellation_rate := 0.05%Q |};
  {| loc_id := "LOC002"; loc_name := "Westside Smile Center"; loc_address := "456 Park Ave, Portland, OR 97229";
     opened_date := "2017-06-22"; square_footage := 2800; monthly_rent := 9800;
     acquisition_cost := 720000; acquisition_date := "2017-04-10"; chairs := 4;
     target_chair_utilization := 0.82%Q; target_collection_rate := 0.90%Q;
     target_new_patients := 25; target_cancellation_rate := 0.06%Q |};
  {| loc_id := "LOC003"; loc_name := "East Valley Dental Care"; loc_address := "789 River Rd, Gresham, OR 97030";
     opened_date := "2019-11-10"; square_footage := 2400; monthly_rent := 7200;
     acquisition_cost := 650000; acquisition_date := "2019-09-05"; chairs := 3;
     target_chair_utilization := 0.80%Q; target_collection_rate := 0.88%Q;
     target_new_patients := 20; target_cancellation_rate := 0.07%Q |};
  {| loc_id := "LOC004"; loc_name := "North Portland Family Dental"; loc_address := "234 Market St, Portland, OR 97217";
     opened_date := "2018-08-05"; square_footage := 2600; monthly_rent := 8500;
     acquisition_cost := 695000; acquisition_date := "2018-06-15"; chairs := 4;
     target_chair_utilization := 0.83%Q; target_collection_rate := 0.91%Q;
     target_new_patients := 25; target_cancellation_rate := 0.06%Q |}
].

Definition insuranceProviders : list InsuranceProvider := [
  {| ins_name := "Delta Dental"; reimbursement_rate := 0.85%Q |};
  {| ins_name := "Cigna Dental"; reimbursement_rate := 0.80%Q |};
  {| ins_name := "Aetna"; reimbursement_rate := 0.75%Q |};
  {| ins_name := "MetLife"; reimbursement_rate := 0.82%Q |};
  {| ins_name := "Guardian"; reimbursement_rate := 0.78%Q |};
  {| ins_name := "United Healthcare"; reimbursement_rate := 0.79%Q |};
  {| ins_name := "No Insurance"; reimbursement_rate := 1.00%Q |}
].

Definition holidays : list string := [
  "2020-01-01"; "2020-01-20"; "2020-02-17"; "2020-05-25"; "2020-07-04"; "2020-09-07";
  "2020-11-11"; "2020-11-26"; "2020-12-25"; "2021-01-01"; "2021-01-18"; "2021-02-15";
  "2021-05-31"; "2021-07-04"; "2021-09-06"; "2021-11-11"; "2021-11-25"; "2021-12-25";
  "2022-01-01"; "2022-01-17"; "2022-02-21"; "2022-05-30"; "2022-07-04"; "2022-09-05";
  "2022-11-11"; "2022-11-24"; "2022-12-25"; "2023-01-01"; "2023-01-16"; "2023-02-20";
  "2023-05-29"; "2023-07-04"; "2023-09-04"; "2023-11-11"; "2023-11-23"; "2023-12-25";
  "2024-01-01"; "2024-01-15"; "2024-02-19"; "2024-05-27"; "2024-07-04"; "2024-09-02";
  "2024-11-11"; "2024-11-28"; "2024-12-25"; "2025-01-01"; "2025-01-20"; "2025-02-17";
  "2025-05-26"; "2025-07-04"
].

(** ** [getSeasonalFactor], [getGrowthFactor]

    ([getDayOfWeekFactor] is defined in this script but never called.) *)

Definition getSeasonalFactor (date : JsDate.Date) : R Q :=
  let month := JsDate.getMonth date in
  if bool_decide (JsDate.formatDate date ∈ holidays) then randomFloatBetween 0.4 0.6
  else if (month =? 11) || (month =? 0) || (month =? 1) then randomFloatBetween 0.85 0.95
  else if (2 <=? month) && (month <=? 4) then randomFloatBetween 1.05 1.15
  else if (5 <=? month) && (month <=? 7) then randomFloatBetween 0.9 1.1
  else randomFloatBetween 0.95 1.05.

(** An opening date that does not parse makes every comparison false
    and the result [NaN]. *)
Definition getGrowthFactor (date : JsDate.Date) (location : Location) : R Js.num :=
  match JsDate.parse (opened_date location) with
  | Some locationOpenDate =>
      let yearsSinceOpening :=
        (inject_Z (JsDate.getFullYear date - JsDate.getFullYear locationOpenDate)
         + inject_Z (JsDate.getMonth date - JsDate.getMonth locationOpenDate) / 12)%Q in
      variation ← randomFloatBetween 0.9 1.1;
      mret (Js.Num
        (if Js.Qltb yearsSinceOpening 2
         then 1 + (yearsSinceOpening * 0.2) * variation
         else if Js.Qltb yearsSinceOpening 4
         then 1 + (0.4 + ((yearsSinceOpening - 2) * 0.12) * variation)
         else 1 + (0.64 + ((yearsSinceOpening - 4) * 0.055) * variation))%Q)
  | None => _ ← randomFloatBetween 0.9 1.1; mret Js.NaN
  end.

(** ** [readExistingData]: the two per-(location, year, month) indices *)

Record AppointmentBucket : Type := {
  totalAppointments : Z;
  completedAppointments : Z;
  canceledAppointments : Z;
  noShowAppointments : Z;
  totalChargedAmount : Z;
  totalInsuranceCovered : Z;
  totalAmountPaid : Z;
  serviceCategoryCounts : gmap string Z;
  payorCounts : gmap string Z
}.

Definition emptyAppointmentBucket : AppointmentBucket :=
  {| totalAppointments := 0; completedAppointments := 0; canceledAppointments := 0;
     noShowAppointments := 0; totalChargedAmount := 0; totalInsuranceCovered := 0;
     totalAmountPaid := 0; serviceCategoryCounts := ∅; payorCounts := ∅ |}.

Record OperationsBucket : Type := {
  daysInMonth : Z;
  opsTotalAppointments : Z;
  totalNewPatients : Z;
  totalLaborCost : Z;
  totalLaborHours : Js.num;
  avgChairUtilization : Js.num;
  avgCollectionRate : Js.num
}.

Definition emptyOperationsBucket : OperationsBucket :=
  {| daysInMonth := 0; opsTotalAppointments := 0; totalNewPatients := 0;
     totalLaborCost := 0; totalLaborHours := Js.Num 0; avgChairUtilization := Js.Num 0;
     avgCollectionRate := Js.Num 0 |}.

Record ExistingData : Type := {
  appointmentsByLocationMonth : gmap string AppointmentBucket;
  operationsByLocationMonth : gmap string OperationsBucket
}.

(** [String(parseInt(text))] inside a template: [NaN] when nothing
    parses. *)
Definition intText (text : option string) : string :=
  match text ≫= JsString.parseInt with
  | Some z => JsString.ofZ z
  | None => "NaN"
  end.

(** The key [`${locationId}-${year}-${month}`] of a parsed row. *)
Definition rowKey (row : gmap string string) : string :=
  Obj.template (Csv.field row "Location_ID") +:+ "-" +:+
  intText (Csv.field row "Year") +:+ "-" +:+ intText (Csv.field row "Month").

(** [counts[key] = (counts[key] || 0) + 1] when [key] is a non-empty
    string. *)
Definition bump (key : option string) (counts : gmap string Z) : gmap string Z :=
  match key with
  | Some k => if String.eqb k "" then counts
              else <[k := default 0 (counts !! k) + 1]> counts
  | None => counts
  end.

Definition countAppointment (row : gmap string string) (b : AppointmentBucket)
    : AppointmentBucket :=
  let status := Csv.field row "Appointment_Status" in
  let isCompleted := bool_decide (status = Some "Completed") in
  {| totalAppointments := totalAppointments b + 1;
     completedAppointments :=
       if isCompleted then completedAppointments b + 1 else completedAppointments b;
     canceledAppointments :=
       if negb isCompleted && bool_decide (status = Some "Canceled")
       then canceledAppointments b + 1 else canceledAppointments b;
     noShowAppointments :=
       if negb isCompleted && bool_decide (status = Some "No-Show")
       then noShowAppointments b + 1 else noShowAppointments b;
     totalChargedAmount :=
       if isCompleted then totalChargedAmount b + Csv.intField row "Charged_Amount"
       else totalChargedAmount b;
     totalInsuranceCovered :=
       if isCompleted
       then totalInsuranceCovered b + Csv.intField row "Insurance_Covered_Amount"
       else totalInsuranceCovered b;
     totalAmountPaid :=
       if isCompleted then totalAmountPaid b + Csv.intField row "Amount_Paid"
       else totalAmountPaid b;
     serviceCategoryCounts :=
       if isCompleted
       then bump (Csv.field row "Procedure_Category") (serviceCategoryCounts b)
       else serviceCategoryCounts b;
     payorCounts :=
       if isCompleted then bump (Csv.field row "Insurance_Provider") (payorCounts b)
       else payorCounts b |}.

Definition accumulateAppointment (index : gmap string AppointmentBucket)
    (row : gmap string string) : gmap string AppointmentBucket :=
  let key := rowKey row in
  <[key := countAppointment row (default emptyAppointmentBucket (index !! key))]> index.

Definition countOperations (row : gmap string string) (b : OperationsBucket)
    : OperationsBucket :=
  {| daysInMonth := daysInMonth b + 1;
     opsTotalAppointments := opsTotalAppointments b + Csv.intField row "Actual_Appointments";
     totalNewPatients := totalNewPatients b + Csv.intField row "New_Patient_Count";
     totalLaborCost := totalLaborCost b + Csv.intField row "Total_Labor_Cost";
     totalLaborHours := (totalLaborHours b + Csv.floatField row "Total_Labor_Hours")%js;
     avgChairUtilization :=
       (avgChairUtilization b + Csv.floatField row "Chair_Utilization")%js;
     avgCollectionRate :=
       (avgCollectionRate b + Csv.floatField row "Actual_Collection_Rate")%js |}.

Definition accumulateOperations (index : gmap string OperationsBucket)
    (row : gmap string string) : gmap string OperationsBucket :=
  let key := rowKey row in
  <[key := countOperations row (default emptyOperationsBucket (index !! key))]> index.

(** The averaging pass over the operations index. *)
Definition average (b : OperationsBucket) : OperationsBucket :=
  if 0 <? daysInMonth b
  then {| daysInMonth := daysInMonth b;
          opsTotalAppointments := opsTotalAppointments b;
          totalNewPatients := totalNewPatients b;
          totalLaborCost := totalLaborCost b;
          totalLaborHours := totalLaborHours b;
          avgChairUtilization := (avgChairUtilization b / Js.ofZ (daysInMonth b))%js;
          avgCollectionRate := (avgCollectionRate b / Js.ofZ (daysInMonth b))%js |}
  else b.

(** Each file is probed with [fs.existsSync]; a file that is not there
    is reported and leaves its index empty. *)
Definition readAppointments (fs : FileSystem)
    : gmap string AppointmentBucket * list LogLine :=
  if existsSync fs appointmentsFile
  then match readFile fs appointmentsFile with
       | inr data => (foldl accumulateAppointment ∅ (Csv.parse data),
                      [Info "Successfully processed appointment data"])
       | inl err => (∅, [Failure "Error reading appointment data:" err])
       end
  else (∅, [Info "Appointment data file not found, will generate synthetic data"]).

Definition readOperations (fs : FileSystem)
    : gmap string OperationsBucket * list LogLine :=
  if existsSync fs operationsFile
  then match readFile fs operationsFile with
       | inr data => (average <$> foldl accumulateOperations ∅ (Csv.parse data),
                      [Info "Successfully processed operations data"])
       | inl err => (∅, [Failure "Error reading operations data:" err])
       end
  else (∅, [Info "Operations data file not found, will generate synthetic data"]).

Definition readExistingData (fs : FileSystem) : ExistingData * list LogLine :=
  let '(appointments, appointmentLog) := readAppointments fs in
  let '(operations, operationsLog) := readOperations fs in
  ({| appointmentsByLocationMonth := appointments;
      operationsByLocationMonth := operations |},
   appointmentLog ++ operationsLog).

(** ** [generateMonthlyFinancialData] *)

Definition categoryWeights : list (string * Q) :=
  [("Diagnostic", 0.10%Q); ("Preventive", 0.20%Q); ("Restorative", 0.25%Q);
   ("Endodontic", 0.08%Q); ("Periodontic", 0.07%Q); ("Prosthodontic", 0.10%Q);
   ("Oral Surgery", 0.05%Q); ("Orthodontic", 0.08%Q); ("Implant", 0.05%Q);
   ("Adjunctive", 0.02%Q)].

Definition payorWeights : list (string * Q) :=
  [("Delta Dental", 0.30%Q); ("Cigna Dental", 0.15%Q); ("Aetna", 0.12%Q);
   ("MetLife", 0.10%Q); ("Guardian", 0.08%Q); ("United Healthcare", 0.05%Q);
   ("No Insurance", 0.20%Q)].

Definition weightOf (table : list (string * Q)) (key : string) : option Q :=
  snd <$> List.find (fun entry => String.eqb (fst entry) key) table.

Definition sumCounts (counts : gmap string Z) : Z :=
  map_fold (fun _ count acc => acc + count) 0 counts.

(** A split of the revenue by the counts of an index entry. *)
Definition splitByCounts (keys : list string) (counts : gmap string Z)
    (totalRevenue : Js.num) : list (string * Js.num) :=
  let totalCount := sumCounts counts in
  map (fun key =>
         let keyCount := Js.ofZ (default 0 (counts !! key)) in
         (key, Js.mathRound ((keyCount / Js.ofZ totalCount) * totalRevenue)%js))
      keys.

(** A split by a fixed weight table, each weight varied by a draw and
    the result normalised; [fallback] stands for a key without a weight. *)
Definition splitByWeights (keys : list string) (table : list (string * Q))
    (fallback : option Q) (totalRevenue : Js.num) : R (list (string * Js.num)) :=
  weights ← mapM (fun key =>
                    variation ← randomFloatBetween 0.85 1.15;
                    let weight := match weightOf table key, fallback with
                                  | Some w, _ => Js.Num w
                                  | None, Some w => Js.Num w
                                  | None, None => Js.NaN
                                  end in
                    mret (key, (weight * Js.Num variation)%js)) keys;
  let totalWeight := foldl Js.add (Js.Num 0) (map snd weights) in
  mret (map (fun entry =>
               (fst entry, Js.mathRound ((snd entry / totalWeight) * totalRevenue)%js))
            weights).

Definition amountOf (split : list (string * Js.num)) (key : string) : Obj.Val :=
  match List.find (fun entry => String.eqb (fst entry) key) split with
  | Some entry => Obj.VNum (snd entry)
  | None => Obj.VUndef
  end.

(** [Math.round(base * randomFloatBetween(min, max))]. *)
Definition roundedShare (base : Js.num) (min max : Q) : R Js.num :=
  share ← randomFloatBetween min max;
  mret (Js.mathRound (base * Js.Num share)%js).

Definition nonEmpty (counts : gmap string Z) : bool := bool_decide (counts ≠ ∅).

Definition pad2 (z : Z) : string := JsString.padStart 2 "0" (JsString.ofZ z).

(** The key [`${location.id}-${year}-${month}`] of a month. *)
Definition lookupKey (date : JsDate.Date) (location : Location) : string :=
  loc_id location +:+ "-" +:+ JsString.ofZ (JsDate.getFullYear date) +:+ "-" +:+
  JsString.ofZ (JsDate.getMonth date + 1).

(** *** The metrics that look at the operations index

    Each is an [if (operationsData && ...)] in the source, with the
    estimate in its [else]. *)

Definition syntheticLabor (totalRevenue : Js.num) : R (Js.num * Js.num) :=
  clinical ← roundedShare totalRevenue 0.18 0.22;
  administrative ← roundedShare totalRevenue 0.06 0.10;
  mret (clinical, administrative).

(** Clinical and administrative labour cost. *)
Definition laborCosts (operationsData : option OperationsBucket) (totalRevenue : Js.num)
    : R (Js.num * Js.num) :=
  match operationsData with
  | Some o =>
      if 0 <? totalLaborCost o
      then mret (Js.mathRound (Js.ofZ (totalLaborCost o) * Js.Num 0.75)%js,
                 Js.mathRound (Js.ofZ (totalLaborCost o) * Js.Num 0.25)%js)
      else syntheticLabor totalRevenue
  | None => syntheticLabor totalRevenue
  end.

Definition syntheticCollectionRate (location : Location) : R Js.num :=
  rate ← randomFloatBetween (Js.Qmax 0.6 (target_collection_rate location - 0.1))
                            (Js.Qmin 0.98 (target_collection_rate location + 0.05));
  mret (Js.Num rate).

(** The [else if] of the collection rate: paid over charged from the
    appointment index. *)
Definition appointmentCollectionRate (location : Location)
    (appointmentData : option AppointmentBucket) : R Js.num :=
  match appointmentData with
  | Some a =>
      if 0 <? totalChargedAmount a
      then mret (Js.ofZ (totalAmountPaid a) / Js.ofZ (totalChargedAmount a))%js
      else syntheticCollectionRate location
  | None => syntheticCollectionRate location
  end.

Definition collectionRateOf (location : Location)
    (appointmentData : option AppointmentBucket)
    (operationsData : option OperationsBucket) : R Js.num :=
  match operationsData with
  | Some o =>
      if Js.gt (avgCollectionRate o) (Js.Num 0) then mret (avgCollectionRate o)
      else appointmentCollectionRate location appointmentData
  | None => appointmentCollectionRate location appointmentData
  end.

(** Visits, new and returning patients estimated from the procedures. *)
Definition estimatedPatients (numberOfProcedures : Js.num) : R (Js.num * Js.num * Js.num) :=
  let visits := Js.mathRound (numberOfProcedures * Js.Num 0.7)%js in
  new ← roundedShare visits 0.15 0.25;
  mret (visits, new, (visits - new)%js).

Definition patientCounts (operationsData : option OperationsBucket)
    (numberOfProcedures : Js.num) : R (Js.num * Js.num * Js.num) :=
  match operationsData with
  | Some o =>
      let visits := opsTotalAppointments o in
      let new := totalNewPatients o in
      mret (Js.ofZ visits, Js.ofZ new, Js.ofZ (visits - new))
  | None => estimatedPatients numberOfProcedures
  end.

Definition syntheticChairUtilization : R Js.num :=
  estimate ← randomFloatBetween 0.7 0.9; mret (Js.Num estimate).

Definition chairUtilizationOf (operationsData : option OperationsBucket) : R Js.num :=
  match operationsData with
  | Some o =>
      if Js.gt (avgChairUtilization o) (Js.Num 0) then mret (avgChairUtilization o)
      else syntheticChairUtilization
  | None => syntheticChairUtilization
  end.

(** *** The monthly record *)

Definition generateMonthlyFinancialData (date : JsDate.Date) (location : Location)
    (existingData : ExistingData) : R Obj.Object :=
  let formattedDate := JsDate.formatDate date in
  let year := JsDate.getFullYear date in
  let month := JsDate.getMonth date + 1 in
  let appointmentData := appointmentsByLocationMonth existingData !! lookupKey date location in
  let operationsData := operationsByLocationMonth existingData !! lookupKey date location in
  seasonalFactor ← getSeasonalFactor date;
  growthFactor ← getGrowthFactor date location;
  (* Revenue *)
  let syntheticRevenue :=
    baseRevenue ←
      (if String.eqb (loc_id location) "LOC001" then randomBetween 180000 220000
       else if String.eqb (loc_id location) "LOC002" then randomBetween 140000 170000
       else if String.eqb (loc_id location) "LOC004" then randomBetween 120000 150000
       else randomBetween 100000 130000);
    mret (Js.mathRound (Js.ofZ baseRevenue * Js.Num seasonalFactor * growthFactor)%js) in
  totalRevenue ←
    match appointmentData with
    | Some a =>
        if 0 <? totalChargedAmount a then mret (Js.ofZ (totalChargedAmount a))
        else syntheticRevenue
    | None => syntheticRevenue
    end;
  let syntheticServiceRevenue :=
    splitByWeights serviceCategories categoryWeights None totalRevenue in
  serviceRevenue ←
    match appointmentData with
    | Some a =>
        if nonEmpty (serviceCategoryCounts a)
        then mret (splitByCounts serviceCategories (serviceCategoryCounts a) totalRevenue)
        else syntheticServiceRevenue
    | None => syntheticServiceRevenue
    end;
  (* Expenses *)
  '(laborClinical, laborAdministrative) ← laborCosts operationsData totalRevenue;
  suppliesClinical ← roundedShare totalRevenue 0.05 0.08;
  suppliesOffice ← roundedShare totalRevenue 0.01 0.02;
  rentVariation ← randomFloatBetween 0.98 1.02;
  let rent := Js.mathRound (Js.ofZ (monthly_rent location) * Js.Num rentVariation)%js in
  utilities ← roundedShare totalRevenue 0.01 0.03;
  equipmentCosts ← roundedShare totalRevenue 0.03 0.05;
  marketing ← roundedShare totalRevenue 0.03 0.07;
  insurance ← roundedShare totalRevenue 0.02 0.04;
  professionalFees ← roundedShare totalRevenue 0.02 0.04;
  continuingEducation ← roundedShare totalRevenue 0.005 0.015;
  labFees ← roundedShare totalRevenue 0.06 0.10;
  softwareIT ← roundedShare totalRevenue 0.01 0.03;
  travel ← roundedShare totalRevenue 0.005 0.015;
  miscellaneous ← roundedShare totalRevenue 0.01 0.03;
  let totalExpenses :=
    foldl Js.add (Js.Num 0)
      [laborClinical; laborAdministrative; suppliesClinical; suppliesOffice; rent;
       utilities; equipmentCosts; marketing; insurance; professionalFees;
       continuingEducation; labFees; softwareIT; travel; miscellaneous] in
  (* Cash flow *)
  daysInAR ← randomBetween 30 45;
  let accountsReceivable :=
    Js.mathRound (totalRevenue * (Js.ofZ daysInAR / Js.ofZ 30))%js in
  arCurrent ← roundedShare accountsReceivable 0.55 0.65;
  ar31 ← roundedShare accountsReceivable 0.20 0.25;
  ar61 ← roundedShare accountsReceivable 0.08 0.12;
  ar91 ← roundedShare accountsReceivable 0.05 0.10;
  collectionRate ← collectionRateOf location appointmentData operationsData;
  let totalClaims := Js.mathRound (totalRevenue * Js.Num 0.8 / Js.ofZ 150)%js in
  claimsOutstanding ← roundedShare totalClaims 0.3 0.4;
  claimsDenied ← roundedShare totalClaims 0.02 0.05;
  avgDaysToPayment ← randomBetween 25 40;
  let collectionsExpected := (totalRevenue * Js.Num 0.9)%js in
  let collectionsActual := Js.mathRound (totalRevenue * collectionRate)%js in
  (* Procedures *)
  '(numberOfProcedures, completedProcedures, cancelledProcedures) ←
    match appointmentData, operationsData with
    | Some a, _ =>
        let completed := completedAppointments a in
        let cancelled := canceledAppointments a + noShowAppointments a in
        mret (Js.ofZ (completed + cancelled), Js.ofZ completed, Js.ofZ cancelled)
    | None, Some o =>
        let completed := Js.ofZ (opsTotalAppointments o) in
        cancelled ← roundedShare completed 0.02 0.08;
        mret ((completed + cancelled)%js, completed, cancelled)
    | None, None =>
        averageValue ← randomBetween 200 300;
        let number := Js.mathRound (totalRevenue / Js.ofZ averageValue)%js in
        completed ← roundedShare number 0.92 0.98;
        mret (number, completed, (number - completed)%js)
    end;
  (* Patients *)
  '(patientVisits, newPatients, returningPatients) ←
    patientCounts operationsData numberOfProcedures;
  patientRetentionRate ← randomFloatBetween 0.75 0.9;
  (* Capacity *)
  let chairCapacity := chairs location in
  let totalChairHours := chairCapacity * 22 * 8 in
  chairUtilization ← chairUtilizationOf operationsData;
  let usedChairHours := (Js.ofZ totalChairHours * chairUtilization)%js in
  (* Payor mix *)
  let payors := map ins_name insuranceProviders in
  let syntheticPayorMix := splitByWeights payors payorWeights (Some 0.02%Q) totalRevenue in
  payorMix ←
    match appointmentData with
    | Some a =>
        if nonEmpty (payorCounts a)
        then mret (splitByCounts payors (payorCounts a) totalRevenue)
        else syntheticPayorMix
    | None => syntheticPayorMix
    end;
  treatmentPlansPresented ← roundedShare patientVisits 0.3 0.5;
  treatmentPlansAccepted ← roundedShare treatmentPlansPresented 0.6 0.8;
  treatmentPlansCompleted ← roundedShare treatmentPlansAccepted 0.7 0.9;
  (* KPIs *)
  let ebitda := (totalRevenue - totalExpenses)%js in
  let ebitdaMargin := (ebitda / totalRevenue)%js in
  let operatingCashFlow := (collectionsActual - totalExpenses)%js in
  let dso := (accountsReceivable / (totalRevenue / Js.ofZ 30))%js in
  let revenuePerSquareFoot := (totalRevenue / Js.ofZ (square_footage location))%js in
  let revenuePerPatient := (totalRevenue / patientVisits)%js in
  let marketingROI := ((totalRevenue * Js.Num 0.15) / marketing)%js in
  mret
    [ ("Financial_ID",
       Obj.VStr ("FIN-" +:+ loc_id location +:+ "-" +:+ JsString.ofZ year +:+ pad2 month));
      ("Location_ID", Obj.VStr (loc_id location));
      ("Location_Name", Obj.VStr (loc_name location));
      ("Date", Obj.VStr formattedDate);
      ("Year", Obj.VInt year);
      ("Month", Obj.VInt month);
      ("Period", Obj.VStr (JsString.ofZ year +:+ "-" +:+ pad2 month));
      ("Total_Revenue", Obj.VNum totalRevenue);
      ("Revenue_Diagnostic", amountOf serviceRevenue "Diagnostic");
      ("Revenue_Preventive", amountOf serviceRevenue "Preventive");
      ("Revenue_Restorative", amountOf serviceRevenue "Restorative");
      ("Revenue_Endodontic", amountOf serviceRevenue "Endodontic");
      ("Revenue_Periodontic", amountOf serviceRevenue "Periodontic");
      ("Revenue_Prosthodontic", amountOf serviceRevenue "Prosthodontic");
      ("Revenue_Oral_Surgery", amountOf serviceRevenue "Oral Surgery");
      ("Revenue_Orthodontic", amountOf serviceRevenue "Orthodontic");
      ("Revenue_Implant", amountOf serviceRevenue "Implant");
      ("Revenue_Adjunctive", amountOf serviceRevenue "Adjunctive");
      ("Total_Expenses", Obj.VNum totalExpenses);
      ("Labor_Clinical", Obj.VNum laborClinical);
      ("Labor_Administrative", Obj.VNum laborAdministrative);
      ("Supplies_Clinical", Obj.VNum suppliesClinical);
      ("Supplies_Office", Obj.VNum suppliesOffice);
      ("Rent_Lease", Obj.VNum rent);
      ("Utilities", Obj.VNum utilities);
      ("Equipment_Costs", Obj.VNum equipmentCosts);
      ("Marketing", Obj.VNum marketing);
      ("Insurance", Obj.VNum insurance);
      ("Professional_Fees", Obj.VNum professionalFees);
      ("Continuing_Education", Obj.VNum continuingEducation);
      ("Lab_Fees", Obj.VNum labFees);
      ("Software_IT", Obj.VNum softwareIT);
      ("Travel", Obj.VNum travel);
      ("Miscellaneous", Obj.VNum miscellaneous);
      ("EBITDA", Obj.VNum ebitda);
      ("EBITDA_Margin", Obj.VStr (JsString.toFixed 4 ebitdaMargin));
      ("Labor_Cost_Percentage",
       Obj.VStr (JsString.toFixed 4
                   ((laborClinical + laborAdministrative) / totalRevenue)%js));
      ("Supply_Cost_Percentage",
       Obj.VStr (JsString.toFixed 4
                   ((suppliesClinical + suppliesOffice) / totalRevenue)%js));
      ("Total_AR", Obj.VNum accountsReceivable);
      ("AR_Current", Obj.VNum arCurrent);
      ("AR_31_60", Obj.VNum ar31);
      ("AR_61_90", Obj.VNum ar61);
      ("AR_91_Plus", Obj.VNum ar91);
      ("DSO", Obj.VStr (JsString.toFixed 1 dso));
      ("Total_Claims_Submitted", Obj.VNum totalClaims);
      ("Claims_Outstanding", Obj.VNum claimsOutstanding);
      ("Claims_Denied", Obj.VNum claimsDenied);
      ("Avg_Days_To_Payment", Obj.VInt avgDaysToPayment);
      ("Collections_Expected", Obj.VNum (Js.mathRound collectionsExpected));
      ("Collections_Actual", Obj.VNum collectionsActual);
      ("Collection_Rate", Obj.VStr (JsString.toFixed 4 collectionRate));
      ("Total_Procedures", Obj.VNum numberOfProcedures);
      ("Completed_Procedures", Obj.VNum completedProcedures);
      ("Cancelled_Procedures", Obj.VNum cancelledProcedures);
      ("Total_Patient_Visits", Obj.VNum patientVisits);
      ("New_Patients", Obj.VNum newPatients);
      ("Returning_Patients", Obj.VNum returningPatients);
      ("Patient_Retention_Rate",
       Obj.VStr (JsString.toFixed 4 (Js.Num patientRetentionRate)));
      ("Revenue_Per_Patient", Obj.VStr (JsString.toFixed 2 revenuePerPatient));
      ("Chair_Capacity", Obj.VInt chairCapacity);
      ("Total_Chair_Hours", Obj.VInt totalChairHours);
      ("Used_Chair_Hours", Obj.VNum (Js.mathRound usedChairHours));
      ("Chair_Utilization", Obj.VStr (JsString.toFixed 4 chairUtilization));
      ("Payor_Delta_Dental", amountOf payorMix "Delta Dental");
      ("Payor_Cigna_Dental", amountOf payorMix "Cigna Dental");
      ("Payor_Aetna", amountOf payorMix "Aetna");
      ("Payor_MetLife", amountOf payorMix "MetLife");
      ("Payor_Guardian", amountOf payorMix "Guardian");
      ("Payor_United_Healthcare", amountOf payorMix "United Healthcare");
      ("Payor_Self_Pay", amountOf payorMix "No Insurance");
      ("Treatment_Plans_Presented", Obj.VNum treatmentPlansPresented);
      ("Treatment_Plans_Accepted", Obj.VNum treatmentPlansAccepted);
      ("Treatment_Plans_Completed", Obj.VNum treatmentPlansCompleted);
      ("Case_Acceptance_Rate",
       Obj.VStr (JsString.toFixed 4 (treatmentPlansAccepted / treatmentPlansPresented)%js));
      ("Treatment_Completion_Rate",
       Obj.VStr (JsString.toFixed 4 (treatmentPlansCompleted / treatmentPlansAccepted)%js));
      ("Revenue_Per_Square_Foot", Obj.VStr (JsString.toFixed 2 revenuePerSquareFoot));
      ("Marketing_ROI", Obj.VStr (JsString.toFixed 2 marketingROI));
      ("Operating_Cash_Flow", Obj.VNum operatingCashFlow);
      ("Revenue_MoM_Change", Obj.VInt 0);
      ("Revenue_YoY_Change", Obj.VInt 0);
      ("EBITDA_MoM_Change", Obj.VInt 0);
      ("EBITDA_YoY_Change", Obj.VInt 0) ].

(** ** [generateFinancialDataset] *)

(** The first month of a location: the later of its opening date and
    [START_DATE], moved to the first day of its month. *)
Definition startDateOf (location : Location) : JsDate.Date :=
  let start := match JsDate.parse (opened_date location) with
               | Some locationOpenDate =>
                   if START_DATE <? locationOpenDate then locationOpenDate else START_DATE
               | None => START_DATE
               end in
  JsDate.setDate start 1.

(** The dates that [while (currentDate <= END_DATE)] visits, one
    [setMonth(getMonth() + 1)] apart.  The bound only makes the recursion
    structural; [monthDates_complete] shows that the loop condition ends
    the enumeration for every location of the catalogue. *)
Fixpoint monthsFrom (bound : nat) (date : JsDate.Date) : list JsDate.Date :=
  match bound with
  | O => []
  | S k =>
      if date <=? END_DATE
      then date :: monthsFrom k (JsDate.setMonth date (JsDate.getMonth date + 1))
      else []
  end.

Definition monthBound : nat := 200.
Definition monthDates (location : Location) : list JsDate.Date :=
  monthsFrom monthBound (startDateOf location).

Definition monthlyRows (existingData : ExistingData) (location : Location)
    : R (list Obj.Object) :=
  mapM (fun date => generateMonthlyFinancialData date location existingData)
       (monthDates location).

Definition stringOf (v : Obj.Val) : string :=
  match v with Obj.VStr s => s | _ => "undefined" end.
Definition numberOf (v : Obj.Val) : Js.num :=
  match v with Obj.VNum x => x | _ => Js.NaN end.

Definition dateKey (row : Obj.Object) : Z :=
  default 0 (JsDate.parse (stringOf (Obj.get "Date" row))).

(** The comparator of the sort is positive: [a] comes after [b].
    [localeCompare] on the location identifiers is their order as
    strings. *)
Definition comesAfter (a b : Obj.Object) : bool :=
  let locationA := stringOf (Obj.get "Location_ID" a) in
  let locationB := stringOf (Obj.get "Location_ID" b) in
  if String.eqb locationA locationB then dateKey b <? dateKey a
  else String.ltb locationB locationA.

Fixpoint insertRecord (row : Obj.Object) (sorted : list Obj.Object) : list Obj.Object :=
  match sorted with
  | [] => [row]
  | other :: rest =>
      if comesAfter row other then other :: insertRecord row rest
      else row :: sorted
  end.

Definition sortRecords (rows : list Obj.Object) : list Obj.Object :=
  foldr insertRecord [] rows.

(** [financialData.find(item => ...)] for a location, a year and a
    month. *)
Definition findRecord (financialData : list Obj.Object) (locationId : Obj.Val)
    (year month : Js.num) : option Obj.Object :=
  List.find (fun item =>
               Obj.strictEq (Obj.get "Location_ID" item) locationId &&
               Js.eqb (numberOf (Obj.get "Year" item)) year &&
               Js.eqb (numberOf (Obj.get "Month" item)) month)
            financialData.

(** [((current.F - previous.F) / previous.F).toFixed(4)]. *)
Definition change (field : string) (current previous : Obj.Object) : Obj.Val :=
  let now := numberOf (Obj.get field current) in
  let before := numberOf (Obj.get field previous) in
  Obj.VStr (JsString.toFixed 4 ((now - before) / before)%js).

(** The comparative pass on one record.  It writes the four change
    fields only, and the searches read none of them, so each record is
    compared against the records as they were generated. *)
Definition compare (financialData : list Obj.Object) (current : Obj.Object) : Obj.Object :=
  let locationId := Obj.get "Location_ID" current in
  let year := numberOf (Obj.get "Year" current) in
  let month := numberOf (Obj.get "Month" current) in
  let january := Js.eqb month (Js.ofZ 1) in
  let prevMonth :=
    findRecord financialData locationId
      (if january then (year - Js.ofZ 1)%js else year)
      (if january then Js.ofZ 12 else (month - Js.ofZ 1)%js) in
  let prevYear := findRecord financialData locationId (year - Js.ofZ 1)%js month in
  let withMonth :=
    match prevMonth with
    | Some previous =>
        Obj.set "EBITDA_MoM_Change" (change "EBITDA" current previous)
          (Obj.set "Revenue_MoM_Change" (change "Total_Revenue" current previous) current)
    | None => current
    end in
  match prevYear with
  | Some previous =>
      Obj.set "EBITDA_YoY_Change" (change "EBITDA" current previous)
        (Obj.set "Revenue_YoY_Change" (change "Total_Revenue" current previous) withMonth)
  | None => withMonth
  end.

Definition generateFinancialDataset (existingData : ExistingData) : R (list Obj.Object) :=
  byLocation ← mapM (monthlyRows existingData) locations;
  let financialData := sortRecords (concat byLocation) in
  mret (map (compare financialData) financialData).

(** ** [convertToCSV] and [main] *)

Definition convertToCSV (data : list Obj.Object) : string :=
  match data with
  | first :: _ => Obj.csvText first data
  | [] => ""
  end.

Definition main (rnd : nat -> Q) (fs : FileSystem) : FileSystem * list LogLine :=
  let '(existingData, readLog) := readExistingData fs in
  let financialDataset := fst (generateFinancialDataset existingData rnd 0%nat) in
  (writeFileSync outputFile (convertToCSV financialDataset) fs,
   [Info "Reading existing data and generating financial data..."] ++ readLog ++
   [ Info ("Generated " +:+ JsString.ofZ (Z.of_nat (length financialDataset))
           +:+ " financial records");
     Info ("Data saved to " +:+ Obj.quoted outputFile) ]).

End Financial.

(* ================================================================== *)
(** * What is stated about the generators *)
(* ================================================================== *)

Module AppointmentSpec.
Import Rand Appointments.

(** What the claims say about a row. *)

Definition isCompleted (row : Obj.Object) : Prop :=
  Obj.get "Appointment_Status" row = Obj.VStr "Completed".

Definition balanced (row : Obj.Object) : Prop :=
  exists responsibility discount outOfPocket paid : Z,
    Obj.get "Patient_Responsibility" row = Obj.VInt responsibility /\
    Obj.get "Discount_Applied" row = Obj.VInt discount /\
    Obj.get "Out_of_Pocket" row = Obj.VInt outOfPocket /\
    Obj.get "Amount_Paid" row = Obj.VInt paid /\
    outOfPocket = responsibility - discount /\
    (paid = 0 \/ paid = outOfPocket).

Definition zeroFields : list string :=
  ["Charged_Amount"; "Insurance_Covered_Amount"; "Patient_Responsibility";
   "Discount_Applied"; "Out_of_Pocket"; "Amount_Paid"; "Procedure_Duration";
   "Treatment_Plan_Completion_Rate"; "Estimated_Total_Cost"].

Definition emptyFields : list string :=
  ["Payment_Method"; "Payment_Status"; "Insurance_Claim_Status";
   "Insurance_Claim_Submission_Date"; "Insurance_Claim_Payment_Date";
   "Treatment_Plan_ID"; "Treatment_Plan_Creation_Date";
   "Treatment_Plan_Completion_Date"].

Definition financialDefaults (row : Obj.Object) : Prop :=
  Forall (fun key => Obj.get key row = Obj.VInt 0) zeroFields /\
  Forall (fun key => Obj.get key row = Obj.VStr "") emptyFields.

(** A row of visit [i] for one of [patients]. *)
Record RowOk (patients : list Patient) (i : Z) (row : Obj.Object) : Prop := {
  row_visit : Obj.get "Visit_ID" row = Obj.VStr (makeVisitId i);
  row_patient : exists p, p ∈ patients /\
                  Obj.get "Patient_ID" row = Obj.VStr (patient_id p) /\
                  Obj.get "Insurance_Provider" row = Obj.VStr (insurance_provider p);
  row_status : exists status, status ∈ appointmentStatuses /\
                  Obj.get "Appointment_Status" row = Obj.VStr status;
  row_completed : isCompleted row -> balanced row;
  row_other : ~ isCompleted row -> financialDefaults row
}.

(** ** Steps of the appointment generator *)

(** Total correctness: the step returns, and its result and final state
    satisfy [Q]. *)
Definition wp (rnd : nat -> Q) {A} (m : Gen A) (s : State) (Q : A -> State -> Prop) : Prop :=
  exists a s', m rnd s = Some (a, s') /\ Q a s'.

(** A state that has the rows and the cleaning dates of another. *)
Definition unchanged (s s' : State) : Prop :=
  appointments s' = appointments s /\
  patientLastCleaningDate s' = patientLastCleaningDate s.

(** Steps that return and leave the rows and the cleaning dates alone. *)
Definition frames (rnd : nat -> Q) {A} (m : Gen A) : Prop :=
  forall s, wp rnd m s (fun _ s' => unchanged s s').

(** ** The recall gate *)

(** The recall gate of the inner loop: a cleaning that is not due. *)
Definition gated (zone : JsDate.Zone) (v : Visit) (procedure : Procedure) (s : State)
    : bool :=
  isCleaning (code procedure) &&
  negb (isDueForRecall zone (patientLastCleaningDate s) (patient_id (patient v))
          (code procedure) (formattedVisitDate v)).

(** The cleaning dates after a procedure that passed the gate. *)
Definition recorded (v : Visit) (procedure : Procedure) (dates : gmap string string)
    : gmap string string :=
  if isCleaning (code procedure)
  then <[patient_id (patient v) := formattedVisitDate v]> dates
  else dates.

(** The gate on the table of cleaning dates that a state holds. *)
Definition stopped (zone : JsDate.Zone) (v : Visit) (procedure : Procedure)
    (dates : gmap string string) : bool :=
  isCleaning (code procedure) &&
  negb (isDueForRecall zone dates (patient_id (patient v)) (code procedure)
          (formattedVisitDate v)).

(** ** Patients, visits and groups of rows *)

(** The patients that the visits can rely on. *)
Definition patientsOk (patients : list Patient) : Prop :=
  patients <> [] /\
  Forall (fun p => is_Some (JsDate.parse (registration_date p))) patients.

Record VisitOk (patients : list Patient) (i : Z) (v : Visit) : Prop := {
  visit_id : visitId v = makeVisitId i;
  visit_patient : patient v ∈ patients;
  visit_status : appointmentStatus v ∈ appointmentStatuses;
  visit_provider : is_Some (provider v);
  visit_registered : is_Some (JsDate.parse (registration_date (patient v)))
}.

(** ** The rows of a visit *)

(** [`PROC${String(i * 10 + p + 1).padStart(6, '0')}`]. *)
Definition makeProcedureId (i p : Z) : string :=
  "PROC" +:+ JsString.padStart 6 "0" (JsString.ofZ (i * 10 + p + 1)).

(** The inner loop of a visit on the procedures that it draws, the first
    of them at position [p]: the draws that pass the gate, each with its
    position, and the cleaning dates that the loop leaves. *)
Fixpoint passed (zone : JsDate.Zone) (v : Visit) (p : Z) (draws : list Procedure)
    (dates : gmap string string) : list (Z * Procedure) * gmap string string :=
  match draws with
  | [] => ([], dates)
  | procedure :: rest =>
      if stopped zone v procedure dates then passed zone v (p + 1) rest dates
      else
        let '(rows, dates') := passed zone v (p + 1) rest (recorded v procedure dates) in
        ((p, procedure) :: rows, dates')
  end.

(** The row that a procedure of a visit leaves. *)
Record DrawnRow (v : Visit) (procedureId : string) (procedure : Procedure)
    (row : Obj.Object) : Prop := {
  drawn_visit : Obj.get "Visit_ID" row = Obj.VStr (visitId v);
  drawn_procedure : Obj.get "Procedure_ID" row = Obj.VStr procedureId;
  drawn_patient : Obj.get "Patient_ID" row = Obj.VStr (patient_id (patient v));
  drawn_date : Obj.get "Date_of_Service" row = Obj.VStr (formattedVisitDate v);
  drawn_status : Obj.get "Appointment_Status" row = Obj.VStr (appointmentStatus v);
  drawn_code : isCompleted row ->
               Obj.get "Procedure_Code" row = Obj.VStr (code procedure)
}.

(** The rows of a visit are the rows of its draws that passed the gate,
    one each and in the order of the draws. *)
Definition rowsOfDraws (zone : JsDate.Zone) (v : Visit) (i : Z) (draws : list Procedure)
    (dates : gmap string string) (group : list Obj.Object) : Prop :=
  Forall2 (fun draw row => DrawnRow v (makeProcedureId i draw.1) draw.2 row)
          (passed zone v 0 draws dates).1 group.

(** The groups of rows of the visits from [i] on, given what each visit
    fixed and the procedures that it drew: every visit is of one of the
    patients and draws one to three procedures of the catalogue, its rows
    are those of the draws that passed the gate, and the next visit starts
    from the cleaning dates that it leaves. *)
Fixpoint visitsDrawn (zone : JsDate.Zone) (patients : list Patient) (i : Z)
    (dates : gmap string string) (visits : list (Visit * list Procedure))
    (groups : list (list Obj.Object)) : Prop :=
  match visits, groups with
  | [], [] => True
  | (v, draws) :: visits, group :: groups =>
      VisitOk patients i v /\
      (1 <= length draws <= 3)%nat /\
      Forall (fun procedure => procedure ∈ procedures) draws /\
      rowsOfDraws zone v i draws dates group /\
      visitsDrawn zone patients (i + 1) (passed zone v 0 draws dates).2 visits groups
  | _, _ => False
  end.

(** The rows of the visits [first .. first + count - 1], visit by visit. *)
Definition groupsOk (patients : list Patient) (first : Z) (groups : list (list Obj.Object))
    : Prop :=
  forall k group, groups !! k = Some group ->
    (length group <= 3)%nat /\ Forall (RowOk patients (first + Z.of_nat k)) group.

Definition registrationText (regYear regMonth regDay : Z) : string :=
  JsString.ofZ regYear +:+ "-" +:+ pad2 regMonth +:+ "-" +:+ pad2 regDay.

Definition carriers : list string := map ins_name insuranceProviders.

Record PatientOk (p : Patient) : Prop := {
  patient_registered : is_Some (JsDate.parse (registration_date p));
  patient_carrier : insurance_provider p ∈ carriers
}.

(** The patients that a run draws. *)
Definition patientsOf (rnd : nat -> Q) : option (list Patient) :=
  fst <$> generatePatients rnd initialState.
End AppointmentSpec.

Module AppointmentClaimDefs.
Import Rand Appointments AppointmentSpec.

(** An oracle that always answers 0.55. *)
Definition steady : nat -> Q := fun _ => 0.55%Q.

(** The only row of the run on [steady], on a host at UTC. *)
Definition steadyRow : Obj.Object :=
  [ ("Visit_ID", Obj.VStr "V000001"); ("Procedure_ID", Obj.VStr "PROC000001");
    ("Patient_ID", Obj.VStr "PAT0245"); ("Patient_Name", Obj.VStr "Sakura Patel");
    ("Patient_Gender", Obj.VStr "Female"); ("Patient_Age", Obj.VInt 47);
    ("Patient_Zip_Code", Obj.VStr "10004"); ("Location_ID", Obj.VStr "LOC003");
    ("Location_Name", Obj.VStr "East Valley Dental Care");
    ("Provider_ID", Obj.VStr "ASST010"); ("Provider_Name", Obj.VStr "Andrew Garcia");
    ("Provider_Role", Obj.VStr "Assistant"); ("Provider_Specialty", Obj.VStr "General");
    ("Date_of_Service", Obj.VStr "2023-07-31"); ("Appointment_Time", Obj.VStr "12:30");
    ("Appointment_Status", Obj.VStr "Completed"); ("Procedure_Code", Obj.VStr "D1110");
    ("Procedure_Description", Obj.VStr "Prophylaxis (Cleaning) - Adult");
    ("Procedure_Category", Obj.VStr "Preventive"); ("Procedure_Duration", Obj.VInt 45);
    ("Tooth_Number", Obj.VStr ""); ("Charged_Amount", Obj.VInt 111);
    ("Insurance_Provider", Obj.VStr "Aetna"); ("Insurance_Covered_Amount", Obj.VInt 84);
    ("Patient_Responsibility", Obj.VInt 27); ("Discount_Applied", Obj.VInt 0);
    ("Out_of_Pocket", Obj.VInt 27); ("Amount_Paid", Obj.VInt 27);
    ("Payment_Method", Obj.VStr "Cash"); ("Payment_Status", Obj.VStr "Paid");
    ("Is_New_Patient", Obj.VBool false); ("Insurance_Claim_Status", Obj.VStr "Paid");
    ("Insurance_Claim_Submission_Date", Obj.VStr "2023-07-31");
    ("Insurance_Claim_Payment_Date", Obj.VStr "2023-09-01");
    ("Google_Rating", Obj.VNum (Js.Num 4.5)); ("Treatment_Plan_ID", Obj.VStr "");
    ("Treatment_Plan_Creation_Date", Obj.VStr "");
    ("Treatment_Plan_Completion_Date", Obj.VStr "");
    ("Treatment_Plan_Completion_Rate", Obj.VInt 0);
    ("Estimated_Total_Cost", Obj.VInt 111); ("Year", Obj.VInt 2023);
    ("Month", Obj.VInt 7) ].

(** The patients that [steady] draws. *)
Definition steadyPatients : list Patient :=
  Eval vm_compute in
    match generatePatients steady initialState with
    | Some (patients, _) => patients
    | None => []
    end.

(** The state of the run on [steady] after its first visit, up to the
    position in the oracle. *)
Definition steadyState (position : nat) : State :=
  {| rng := position;
     patientLastCleaningDate := {[ "PAT0245" := "2023-07-31" ]};
     activeTreatmentPlans := ∅;
     appointments := [steadyRow] |}.

(** An oracle that answers 0.55, except for 0.9 where the first visit
    draws its status.  The 600 patients take the answers 0 to 7199, twelve
    each; the first visit draws its patient with answer 7200, its date with
    answer 7201 and its status with answer 7206.  That visit is a
    No-Show. *)
Definition mixed : nat -> Q :=
  fun n => if Z.of_nat n =? 7206 then 0.9%Q else 0.55%Q.

(** The row of the first visit on [mixed], on a host at UTC. *)
Definition mixedRow : Obj.Object :=
  [ ("Visit_ID", Obj.VStr "V000001"); ("Procedure_ID", Obj.VStr "PROC000001");
    ("Patient_ID", Obj.VStr "PAT0245"); ("Patient_Name", Obj.VStr "Sakura Patel");
    ("Patient_Gender", Obj.VStr "Female"); ("Patient_Age", Obj.VInt 47);
    ("Patient_Zip_Code", Obj.VStr "10004"); ("Location_ID", Obj.VStr "LOC003");
    ("Location_Name", Obj.VStr "East Valley Dental Care");
    ("Provider_ID", Obj.VStr "ASST010"); ("Provider_Name", Obj.VStr "Andrew Garcia");
    ("Provider_Role", Obj.VStr "Assistant"); ("Provider_Specialty", Obj.VStr "General");
    ("Date_of_Service", Obj.VStr "2023-07-31"); ("Appointment_Time", Obj.VStr "12:30");
    ("Appointment_Status", Obj.VStr "No-Show"); ("Procedure_Code", Obj.VStr "");
    ("Procedure_Description", Obj.VStr ""); ("Procedure_Category", Obj.VStr "");
    ("Procedure_Duration", Obj.VInt 0); ("Tooth_Number", Obj.VStr "");
    ("Charged_Amount", Obj.VInt 0); ("Insurance_Provider", Obj.VStr "Aetna");
    ("Insurance_Covered_Amount", Obj.VInt 0); ("Patient_Responsibility", Obj.VInt 0);
    ("Discount_Applied", Obj.VInt 0); ("Out_of_Pocket", Obj.VInt 0);
    ("Amount_Paid", Obj.VInt 0); ("Payment_Method", Obj.VStr "");
    ("Payment_Status", Obj.VStr ""); ("Is_New_Patient", Obj.VBool false);
    ("Insurance_Claim_Status", Obj.VStr "");
    ("Insurance_Claim_Submission_Date", Obj.VStr "");
    ("Insurance_Claim_Payment_Date", Obj.VStr "");
    ("Google_Rating", Obj.VNum (Js.Num 4.5)); ("Treatment_Plan_ID", Obj.VStr "");
    ("Treatment_Plan_Creation_Date", Obj.VStr "");
    ("Treatment_Plan_Completion_Date", Obj.VStr "");
    ("Treatment_Plan_Completion_Rate", Obj.VInt 0);
    ("Estimated_Total_Cost", Obj.VInt 0); ("Year", Obj.VInt 2023);
    ("Month", Obj.VInt 7) ].

(** A host eight hours west of Greenwich. *)
Definition west : JsDate.Zone := -480.

(** An oracle that answers 0.55, except where the first two visits draw
    their dates: with answer 7201 the first visit falls on 2023-07-01, and
    with answer 7221 the second visit, which on a host in [west] starts at
    answer 7220, falls on 2023-11-30.  Both visits are of patient PAT0245
    and draw the adult cleaning D1110. *)
Definition western : nat -> Q :=
  fun n => if Z.of_nat n =? 7201 then 0.5279%Q
           else if Z.of_nat n =? 7221 then 0.6401%Q
           else 0.55%Q.

(** The patient, the procedure and the date of a row. *)
Definition cleaningOf (row : Obj.Object) : Obj.Val * Obj.Val * Obj.Val :=
  (Obj.get "Patient_ID" row, Obj.get "Procedure_Code" row, Obj.get "Date_of_Service" row).

(** An oracle that answers 0.95 while the patients are drawn and 0.1
    afterwards: every patient is 89 years old and uninsured, every visit
    is a completed crown, and every new treatment plan is drawn with one
    procedure in it. *)
Definition onePlan : nat -> Q :=
  fun n => if Z.of_nat n <? 6600 then 0.95%Q else 0.1%Q.

(** The state of a run after the patients and the first [count] visits. *)
Definition afterVisits (zone : JsDate.Zone) (count : Z) (rnd : nat -> Q) : option State :=
  snd <$> (patients ← generatePatients; forEach (seqZ 0 count) (visit zone patients))
            rnd initialState.

(** The month of a date as a host in [zone] reads it, counted from
    year 0. *)
Definition monthIndex (zone : JsDate.Zone) (date : JsDate.Date) : Z :=
  JsDate.getFullYearIn zone date * 12 + JsDate.getMonthIn zone date.

(** A patient, a visit and a state to try the recall gate on. *)
Definition samplePatient : Patient :=
  {| patient_id := "PAT0245"; first_name := Some "Sakura"; last_name := Some "Patel";
     name := "Sakura Patel"; gender := Some "Female"; age := 47;
     zip_code := Some "10004"; registration_date := "2021-07-16";
     insurance_provider := "Aetna"; is_active := true |}.

Definition sampleVisit (zone : JsDate.Zone) (date status : string) : Visit :=
  {| patient := samplePatient;
     visitDate := default 0 (JsDate.parse date);
     formattedVisitDate := date;
     appointmentTime := "12:30";
     year := JsDate.getFullYearIn zone (default 0 (JsDate.parse date));
     month := JsDate.getMonthIn zone (default 0 (JsDate.parse date)) + 1;
     location := {| loc_id := "LOC003"; loc_name := "East Valley Dental Care";
                    loc_address := "789 River Rd, Gresham, OR 97030";
                    google_rating := 4.5%Q; opened_date := "2019-11-10";
                    services_offered := "General|Cosmetic|Pediatric|Emergency" |};
     provider := Some {| prov_id := "HYG003"; prov_name := "Sophia Lee";
                         role := "Hygienist"; primary_location := "LOC003";
                         specialty := "Hygiene"; hourly_rate := 55; full_time := true |};
     appointmentStatus := status;
     visitId := makeVisitId 7 |}.

Definition adultCleaning : Procedure :=
  {| code := "D1110"; description := "Prophylaxis (Cleaning) - Adult";
     category := "Preventive"; avg_fee := 110; duration := 45 |}.

(** How many rows carry the identifier of visit [i]. *)
Definition rowsOfVisit (rows : list Obj.Object) (i : Z) : nat :=
  length (List.filter (fun row => Obj.isString (Obj.get "Visit_ID" row) (makeVisitId i)) rows).

(** Claim C8 as the specification states it: every visit has between
    one and three rows. *)
Definition everyVisitHasRows : Prop :=
  forall zone rnd, valid rnd ->
    exists rows, run zone rnd = Some rows /\
      (forall i, 0 <= i < NUM_RECORDS -> (1 <= rowsOfVisit rows i <= 3)%nat) /\
      Z.of_nat (length rows) <= NUM_RECORDS * 3.
End AppointmentClaimDefs.

Module OperationsClaimDefs.
Import Rand Operations.

(** A shuffle that leaves the order alone. *)
Definition keepOrder : list StaffMember -> R (list StaffMember) := fun l => mret l.

Definition half : nat -> Q := fun _ => 0.5%Q.

Definition downtown : Location :=
  {| loc_id := "LOC001"; loc_name := "Downtown Dental"; loc_address := "123 Main St, Portland, OR 97201";
     opened_date := "2015-03-15"; chairs := 5; operatingHours := 9;
     avgPatientsPerChairPerDay := 8;
     target_chair_utilization := 0.85%Q; target_collection_rate := 0.92%Q;
     target_new_patients := 30; target_cancellation_rate := 0.05%Q |}.

(** An appointment file of one Completed row. *)
Definition oneRowFile : string :=
  "Visit_ID,Location_ID,Date_of_Service,Appointment_Status,Procedure_Code,Procedure_Duration,Charged_Amount,Amount_Paid"
  +:+ Obj.newline +:+
  "V1,LOC001,2024-03-05,Completed,D1110,45,200,150" +:+ Obj.newline.

Definition oneRowIndex : Index := Eval vm_compute in buildIndex oneRowFile.

(** The claim that a generator whose input is missing still writes. *)
Definition writesWithoutInput : Prop :=
  forall shuffle rnd (fs : FileSystem),
    fs !! inputFile = None ->
    is_Some (fst (main shuffle rnd fs) !! operationsFile).
End OperationsClaimDefs.

Module PipelineClaimDefs.
Import Rand AppointmentClaimDefs OperationsClaimDefs.

(** The two upstream scripts in the order of the pipeline, on a host at
    UTC: the appointment generator, then the operations generator on the
    directory that it leaves. *)
Definition upstream (shuffle : list Operations.StaffMember -> R (list Operations.StaffMember))
    (rndAppointments rndOperations : nat -> Q) (fs : FileSystem) : option FileSystem :=
  '(fs1, _) ← Appointments.script JsDate.utc rndAppointments fs;
  Some (fst (Operations.main shuffle rndOperations fs1)).

(** The indices that the financial generator reads after the upstream
    scripts. *)
Definition indexOf (fs : FileSystem) : Financial.ExistingData :=
  fst (Financial.readExistingData fs).

Definition appointmentBucket (fs : FileSystem) (date : JsDate.Date)
    (location : Financial.Location) : option Financial.AppointmentBucket :=
  Financial.appointmentsByLocationMonth (indexOf fs) !! Financial.lookupKey date location.

Definition operationsBucket (fs : FileSystem) (date : JsDate.Date)
    (location : Financial.Location) : option Financial.OperationsBucket :=
  Financial.operationsByLocationMonth (indexOf fs) !! Financial.lookupKey date location.

(** The claim that every metric that looks at the operations index is
    drawn after a run of the pipeline. *)
Definition operationsMetricsSynthetic : Prop :=
  forall shuffle rndAppointments rndOperations (fs fs' : FileSystem),
    fs !! Financial.operationsFile = None ->
    upstream shuffle rndAppointments rndOperations fs = Some fs' ->
    forall date location totalRevenue numberOfProcedures,
      let a := appointmentBucket fs' date location in
      let o := operationsBucket fs' date location in
      Financial.laborCosts o totalRevenue = Financial.syntheticLabor totalRevenue /\
      Financial.collectionRateOf location a o = Financial.syntheticCollectionRate location /\
      Financial.chairUtilizationOf o = Financial.syntheticChairUtilization /\
      Financial.patientCounts o numberOfProcedures
      = Financial.estimatedPatients numberOfProcedures.

Definition eastValley : Financial.Location :=
  {| Financial.loc_id := "LOC003"; Financial.loc_name := "East Valley Dental Care";
     Financial.loc_address := "789 River Rd, Gresham, OR 97030";
     Financial.opened_date := "2019-11-10"; Financial.square_footage := 2400;
     Financial.monthly_rent := 7200; Financial.acquisition_cost := 650000;
     Financial.acquisition_date := "2019-09-05"; Financial.chairs := 3;
     Financial.target_chair_utilization := 0.80%Q;
     Financial.target_collection_rate := 0.88%Q;
     Financial.target_new_patients := 20;
     Financial.target_cancellation_rate := 0.07%Q |}.

(** The appointment file of the run on [steady]. *)
Definition steadyFile : string :=
  Eval vm_compute in default "" (Appointments.convertToCSV [steadyRow]).

(** The bucket of that file. *)
Definition steadyBucket : Financial.AppointmentBucket :=
  {| Financial.totalAppointments := 1; Financial.completedAppointments := 1;
     Financial.canceledAppointments := 0; Financial.noShowAppointments := 0;
     Financial.totalChargedAmount := 111; Financial.totalInsuranceCovered := 84;
     Financial.totalAmountPaid := 27;
     Financial.serviceCategoryCounts := {[ "Preventive" := 1 ]};
     Financial.payorCounts := {[ "Aetna" := 1 ]} |}.
End PipelineClaimDefs.

(* ================================================================== *)
(** * Facts about the random helpers *)
(* ================================================================== *)

Module RandFacts.
Import Rand.

Lemma Qltb_lt a b : Js.Qltb a b = true <-> (a < b)%Q.
Proof.
  unfold Js.Qltb. rewrite negb_true_iff. split; intros H.
  - apply Qnot_le_lt. intros Hle. apply Qle_bool_iff in Hle. congruence.
  - destruct (Qle_bool b a) eqn:E; [|reflexivity].
    apply Qle_bool_iff in E. exfalso. eapply Qlt_not_le; eauto.
Qed.

Lemma floor_lower (x : Q) (n : Z) : (inject_Z n <= x)%Q -> n <= Qfloor x.
Proof.
  intros H. rewrite <- (Qfloor_Z n). by apply Qfloor_resp_le.
Qed.

Lemma floor_upper (x : Q) (n : Z) : (x < inject_Z n)%Q -> Qfloor x < n.
Proof.
  intros H. rewrite Zlt_Qlt. eapply Qle_lt_trans; [apply Qfloor_le | exact H].
Qed.

(** A draw scaled to [k] values and shifted by [min] floors into
    [min .. min + k - 1]. *)
Lemma scaled_draw_range (u : Q) (k min : Z) :
  (0 <= u)%Q -> (u < 1)%Q -> 0 < k ->
  min <= Js.floor (u * inject_Z k + inject_Z min) < min + k.
Proof.
  intros H0 H1 Hk. unfold Js.floor.
  assert (Hk' : (0 < inject_Z k)%Q) by (change 0%Q with (inject_Z 0); rewrite <- Zlt_Qlt; exact Hk).
  split.
  - apply floor_lower.
    assert (0 <= u * inject_Z k)%Q by (apply Qmult_le_0_compat; [done | by apply Qlt_le_weak]).
    lra.
  - apply floor_upper. rewrite inject_Z_plus.
    assert (u * inject_Z k < 1 * inject_Z k)%Q by (apply Qmult_lt_compat_r; done).
    lra.
Qed.

Lemma random_run rnd n : random rnd n = (rnd n, S n).
Proof. reflexivity. Qed.

Lemma bind_run {A B} (m : R A) (f : A -> R B) rnd n :
  (m ≫= f) rnd n = f (m rnd n).1 rnd (m rnd n).2.
Proof. unfold mbind, R_bind, bind. by destruct (m rnd n). Qed.

Lemma randomBetween_range rnd n min max :
  valid rnd -> min <= max ->
  min <= (randomBetween min max rnd n).1 <= max.
Proof.
  intros Hv Hle. unfold randomBetween. rewrite bind_run, random_run.
  cbn [fst snd mret R_ret ret].
  destruct (Hv n) as [H0 H1].
  pose proof (scaled_draw_range (rnd n) (max - min + 1) min H0 H1 ltac:(lia)). lia.
Qed.
End RandFacts.

(* ================================================================== *)
(** * The appointment generator *)
(* ================================================================== *)

Module AppointmentFacts.
Import Rand Appointments RandFacts AppointmentSpec.

Section Logic.
Context (rnd : nat -> Q).

Lemma wp_ret {A} (a : A) s (Q : A -> State -> Prop) : Q a s -> wp rnd (mret a) s Q.
Proof. intros H. exists a, s. done. Qed.

Lemma wp_bind {A B} (m : Gen A) (f : A -> Gen B) s (Q : B -> State -> Prop) :
  wp rnd m s (fun a s' => wp rnd (f a) s' Q) -> wp rnd (m ≫= f) s Q.
Proof.
  intros (a & s' & Hm & b & s'' & Hf & HQ). exists b, s''. split; [|done].
  unfold mbind, Gen_bind. by rewrite Hm.
Qed.

Lemma wp_mono {A} (m : Gen A) s (Q Q' : A -> State -> Prop) :
  wp rnd m s Q -> (forall a s', Q a s' -> Q' a s') -> wp rnd m s Q'.
Proof. intros (a & s' & Hm & HQ) H. exists a, s'. eauto. Qed.

Lemma wp_required {A} (x : option A) a s (Q : A -> State -> Prop) :
  x = Some a -> Q a s -> wp rnd (required x) s Q.
Proof. intros -> H. exists a, s. done. Qed.

Lemma wp_getState s (Q : State -> State -> Prop) : Q s s -> wp rnd getState s Q.
Proof. intros H. exists s, s. done. Qed.

Lemma wp_push row s (Q : unit -> State -> Prop) :
  (forall s', appointments s' = appointments s ++ [row] ->
              patientLastCleaningDate s' = patientLastCleaningDate s -> Q tt s') ->
  wp rnd (push row) s Q.
Proof. intros H. eexists tt, _. split; [reflexivity|]. by apply H. Qed.

Lemma wp_setLastCleaning patientId date s (Q : unit -> State -> Prop) :
  (forall s', appointments s' = appointments s ->
              patientLastCleaningDate s' = <[patientId := date]> (patientLastCleaningDate s) ->
              Q tt s') ->
  wp rnd (setLastCleaning patientId date) s Q.
Proof. intros H. eexists tt, _. split; [reflexivity|]. by apply H. Qed.

Lemma unchanged_refl s : unchanged s s.
Proof. by split. Qed.

Lemma unchanged_trans s1 s2 s3 : unchanged s1 s2 -> unchanged s2 s3 -> unchanged s1 s3.
Proof. intros [] []. split; congruence. Qed.

Lemma frames_ret {A} (a : A) : frames rnd (mret a).
Proof. intros s. apply wp_ret. apply unchanged_refl. Qed.

Lemma frames_bind {A B} (m : Gen A) (f : A -> Gen B) :
  frames rnd m -> (forall a, frames rnd (f a)) -> frames rnd (m ≫= f).
Proof.
  intros Hm Hf s. apply wp_bind. eapply wp_mono; [apply Hm|].
  intros a s' E. eapply wp_mono; [apply Hf|]. intros b s'' E'.
  exact (unchanged_trans _ _ _ E E').
Qed.

Lemma frames_draw {A} (m : R A) : frames rnd (draw m).
Proof.
  intros s. unfold wp, draw. destruct (m rnd (rng s)) as [a n].
  eexists _, _. split; [reflexivity|]. by split.
Qed.

Lemma frames_getState : frames rnd getState.
Proof. intros s. apply wp_getState. apply unchanged_refl. Qed.

Lemma frames_setPlans plans : frames rnd (setPlans plans).
Proof. intros s. eexists tt, _. split; [reflexivity | by split]. Qed.

Lemma wp_frame {A B} (m : Gen A) (f : A -> Gen B) s (Q : B -> State -> Prop) :
  frames rnd m ->
  (forall a s', unchanged s s' -> wp rnd (f a) s' Q) ->
  wp rnd (m ≫= f) s Q.
Proof.
  intros Hm Hf. apply wp_bind. eapply wp_mono; [apply Hm|]. intros a s' E. by apply Hf.
Qed.

(** A drawing step whose result satisfies [P]. *)
Lemma wp_draw {A B} (m : R A) (P : A -> Prop) (f : A -> Gen B) s
    (Q : B -> State -> Prop) :
  P (m rnd (rng s)).1 ->
  (forall a s', P a -> unchanged s s' -> wp rnd (f a) s' Q) ->
  wp rnd (draw m ≫= f) s Q.
Proof.
  intros HP Hf. apply wp_bind. unfold wp at 1, draw.
  destruct (m rnd (rng s)) as [a n]. eexists _, _. split; [reflexivity|].
  apply Hf; [exact HP | by split].
Qed.

End Logic.

Ltac frames :=
  repeat first
    [ apply frames_ret | apply frames_draw | apply frames_getState
    | apply frames_setPlans
    | apply frames_bind; [|intros ?]
    | match goal with
      | |- frames _ (if ?b then _ else _) => destruct b
      | |- frames _ (match ?x with _ => _ end) => destruct x
      end ].

Lemma treatmentPlanStep_frames rnd v procedure chargedAmount :
  frames rnd (treatmentPlanStep v procedure chargedAmount).
Proof. unfold treatmentPlanStep. frames. Qed.
End AppointmentFacts.

Module AppointmentRows.
Import Rand Appointments RandFacts AppointmentSpec AppointmentFacts.

Lemma status_eqb_completed (status : string) :
  String.eqb status "Completed" = true <-> Obj.VStr status = Obj.VStr "Completed".
Proof.
  rewrite String.eqb_eq. split; [by intros -> | by intros [= ->]].
Qed.

(** The row of a visit that was not completed. *)
Lemma plainRow_ok patients i v procedureId provider newPatient :
  visitId v = makeVisitId i ->
  patient v ∈ patients ->
  appointmentStatus v ∈ appointmentStatuses ->
  String.eqb (appointmentStatus v) "Completed" = false ->
  RowOk patients i (plainRow v procedureId provider newPatient).
Proof.
  intros Hid Hp Hs Hne. split.
  - cbn. by rewrite Hid.
  - exists (patient v). split; [done|]. split; reflexivity.
  - exists (appointmentStatus v). split; [done | reflexivity].
  - intros Hc. unfold isCompleted in Hc. cbn in Hc.
    apply status_eqb_completed in Hc. congruence.
  - intros _. split; repeat constructor.
Qed.

Lemma plainRow_drawn v procedureId procedure provider newPatient :
  String.eqb (appointmentStatus v) "Completed" = false ->
  DrawnRow v procedureId procedure (plainRow v procedureId provider newPatient).
Proof.
  intros Hne. split; try reflexivity.
  intros Hc. unfold isCompleted in Hc. cbn in Hc.
  apply status_eqb_completed in Hc. congruence.
Qed.

Ltac wp_skip :=
  eapply wp_frame;
  [ first [ apply treatmentPlanStep_frames | frames ]
  | let a := fresh "a" in let s' := fresh "s" in let E := fresh "E" in
    intros a s' E; cbv beta zeta ].

Tactic Notation "wp_skip" "as" ident(a) ident(s') ident(E) :=
  eapply wp_frame;
  [ first [ apply treatmentPlanStep_frames | frames ]
  | intros a s' E; cbv beta zeta ].

Ltac chain :=
  repeat match goal with
         | H : unchanged _ _ |- _ => destruct H
         end;
  congruence.

Lemma isNewPatient_wp rnd v s (Q : bool -> State -> Prop) :
  is_Some (JsDate.parse (registration_date (patient v))) ->
  (forall b, Q b s) -> wp rnd (isNewPatient v) s Q.
Proof.
  intros [registered Hr] HQ. unfold isNewPatient. apply wp_bind.
  eapply wp_required; [exact Hr|]. apply wp_ret. apply HQ.
Qed.

(** The completed branch pushes one row, and the row is in order. *)
Lemma completedProcedure_spec zone rnd patients i v procedureId procedure s :
  visitId v = makeVisitId i ->
  patient v ∈ patients ->
  appointmentStatus v = "Completed" ->
  is_Some (provider v) ->
  is_Some (JsDate.parse (registration_date (patient v))) ->
  wp rnd (completedProcedure zone v procedureId procedure) s
     (fun _ s' => exists row, appointments s' = appointments s ++ [row] /\
                              patientLastCleaningDate s' = patientLastCleaningDate s /\
                              RowOk patients i row /\
                              DrawnRow v procedureId procedure row).
Proof.
  intros Hid Hp Hs [provider Hprov] Hreg. unfold completedProcedure.
  do 10 wp_skip.
  apply wp_bind. eapply wp_required; [exact Hprov|].
  apply wp_bind. apply isNewPatient_wp; [exact Hreg|]. intros newPatient.
  apply wp_push. intros s' Es' El'. eexists.
  split; [rewrite Es'; f_equal; chain|]. split; [chain|].
  split; split.
  - cbn. by rewrite Hid.
  - exists (patient v). split; [done|]. split; reflexivity.
  - exists "Completed". split; [set_solver|]. cbn. by rewrite Hs.
  - intros _. eexists _, _, _, _. repeat split; try reflexivity.
    destruct (Js.Qltb _ 0.95); [by right | by left].
  - intros Hn. exfalso. apply Hn. unfold isCompleted. cbn. by rewrite Hs.
  - reflexivity.
  - reflexivity.
  - reflexivity.
  - reflexivity.
  - reflexivity.
  - intros _. reflexivity.
Qed.

(** The body of the inner loop: nothing happens at the gate; past it,
    one row is pushed and a cleaning is recorded. *)
Lemma procedureBody_full zone rnd patients i p v procedure s :
  visitId v = makeVisitId i ->
  patient v ∈ patients ->
  appointmentStatus v ∈ appointmentStatuses ->
  is_Some (provider v) ->
  is_Some (JsDate.parse (registration_date (patient v))) ->
  wp rnd (procedureBody zone v i p procedure) s
     (fun _ s' =>
        if gated zone v procedure s then s' = s
        else exists row,
               appointments s' = appointments s ++ [row] /\
               patientLastCleaningDate s' = recorded v procedure (patientLastCleaningDate s) /\
               RowOk patients i row /\
               DrawnRow v (makeProcedureId i p) procedure row).
Proof.
  intros Hid Hp Hs Hprov Hreg. unfold procedureBody.
  apply wp_bind. apply wp_getState. fold (gated zone v procedure s).
  destruct (gated zone v procedure s); [by apply wp_ret|].
  apply wp_bind.
  eapply (wp_mono _ _ _ (fun _ s1 =>
      appointments s1 = appointments s /\
      patientLastCleaningDate s1 = recorded v procedure (patientLastCleaningDate s))).
  { unfold recorded. destruct (isCleaning (code procedure)).
    - apply wp_setLastCleaning. intros s1 E1 El1. done.
    - by apply wp_ret. }
  intros _ s1 [E1 El1]. cbv beta zeta.
  destruct (String.eqb (appointmentStatus v) "Completed") eqn:Hc.
  - apply String.eqb_eq in Hc.
    eapply wp_mono; [by apply (completedProcedure_spec zone rnd patients i)|].
    intros _ s' (row & Es' & El' & Hrow & Hdrawn). exists row.
    split; [congruence|]. split; [congruence | done].
  - destruct Hprov as [provider Hprov].
    apply wp_bind. eapply wp_required; [exact Hprov|].
    apply wp_bind. apply isNewPatient_wp; [exact Hreg|]. intros newPatient.
    apply wp_push. intros s' Es' El'. eexists.
    split; [rewrite Es'; f_equal; congruence|]. split; [congruence|].
    split; [by apply plainRow_ok | by apply plainRow_drawn].
Qed.

(** The body of the inner loop pushes at most one row. *)
Lemma procedureBody_spec zone rnd patients i p v procedure s :
  visitId v = makeVisitId i ->
  patient v ∈ patients ->
  appointmentStatus v ∈ appointmentStatuses ->
  is_Some (provider v) ->
  is_Some (JsDate.parse (registration_date (patient v))) ->
  wp rnd (procedureBody zone v i p procedure) s
     (fun _ s' => exists new, appointments s' = appointments s ++ new /\
                              (length new <= 1)%nat /\
                              Forall (RowOk patients i) new).
Proof.
  intros Hid Hp Hs Hprov Hreg.
  eapply wp_mono; [by apply (procedureBody_full zone rnd patients i)|].
  intros [] s' H. cbv beta in H. destruct (gated zone v procedure s).
  - rewrite H. exists []. rewrite app_nil_r. repeat split; [simpl; lia | constructor].
  - destruct H as (row & E & _ & Hrow & _). exists [row].
    split; [done|]. split; [simpl; lia | by constructor].
Qed.
End AppointmentRows.

Module AppointmentDraws.
Import Rand Appointments RandFacts AppointmentSpec AppointmentFacts AppointmentRows.

Lemma at_in {A} (l : list A) (i : Z) :
  0 <= i < Z.of_nat (length l) -> exists x, at_ l i = Some x /\ x ∈ l.
Proof.
  intros [H0 H1]. unfold at_. destruct (i <? 0) eqn:E; [lia|].
  destruct (lookup_lt_is_Some_2 l (Z.to_nat i)) as [x Hx]; [lia|].
  exists x. split; [done|]. by eapply list_elem_of_lookup_2.
Qed.

Lemma randomIndex_range rnd n k :
  valid rnd -> 0 < k -> 0 <= (randomIndex k rnd n).1 < k.
Proof.
  intros Hv Hk. unfold randomIndex. rewrite bind_run, random_run.
  cbn [fst snd mret R_ret ret]. destruct (Hv n) as [H0 H1].
  pose proof (scaled_draw_range (rnd n) k 0 H0 H1 Hk) as H.
  unfold Js.floor in *.
  assert (E : (rnd n * inject_Z k + inject_Z 0 == rnd n * inject_Z k)%Q) by (simpl; ring).
  assert (E' : Qfloor (rnd n * inject_Z k + inject_Z 0) = Qfloor (rnd n * inject_Z k)).
  { apply Z.le_antisymm; apply Qfloor_resp_le; rewrite E; apply Qle_refl. }
  lia.
Qed.

Lemma pick_in {A} rnd n (l : list A) :
  valid rnd -> l <> [] -> exists x, (pick l rnd n).1 = Some x /\ x ∈ l.
Proof.
  intros Hv Hl. unfold pick. rewrite bind_run. cbn [fst snd mret R_ret ret].
  apply at_in. apply randomIndex_range; [done|]. destruct l; [done | simpl; lia].
Qed.

Lemma floorPow15_range (u : Q) (n : Z) :
  (0 <= u)%Q -> (u < 1)%Q -> 0 < n ->
  exists k, Js.floorPow15 u n = Some k /\ 0 <= k < n.
Proof.
  intros H0 H1 Hn. unfold Js.floorPow15.
  destruct (Js.Qltb u 0) eqn:E.
  { apply Qltb_lt in E. exfalso. eapply Qlt_not_le; eauto. }
  eexists. split; [reflexivity|].
  destruct u as [a b]. unfold Qle, Qlt in *. simpl in *.
  assert (Ha : 0 <= a) by lia. assert (Hab : a < Z.pos b) by lia.
  set (q := Z.pos b ^ 3). assert (Hq : 0 < q) by (unfold q; lia).
  split.
  - apply Z.div_pos; [apply Z.sqrt_nonneg | done].
  - apply Z.div_lt_upper_bound; [done|].
    apply Z.sqrt_lt_square; [|nia|].
    + unfold q. nia.
    + unfold q. 
      assert (a ^ 3 < Z.pos b ^ 3) by (apply Z.pow_lt_mono_l; lia).
      assert (0 <= a ^ 3) by (apply Z.pow_nonneg; lia).
      assert (0 < n ^ 2) by nia.
      assert (0 < Z.pos b ^ 3) by lia.
      nia.
Qed.
End AppointmentDraws.

Module AppointmentVisit.
Import Rand Appointments RandFacts AppointmentSpec AppointmentFacts AppointmentRows
       AppointmentDraws.

Lemma findIndex_listed (codes : list string) (selectedCode : string) :
  forallb (fun c => (0 <=? findIndex (Some c)) && (findIndex (Some c) <? procedureCount))
          codes = true ->
  selectedCode ∈ codes ->
  0 <= findIndex (Some selectedCode) < procedureCount.
Proof.
  intros Hall Hin. rewrite forallb_forall in Hall.
  specialize (Hall selectedCode). rewrite <- list_elem_of_In in Hall.
  specialize (Hall Hin). apply andb_true_iff in Hall as [H1 H2]. lia.
Qed.

(** The age-banded choice always lands inside the catalogue. *)
Lemma selectProcedureIndex_range rnd n patientAge :
  valid rnd -> 0 <= (selectProcedureIndex patientAge rnd n).1 < procedureCount.
Proof.
  intros Hv. unfold selectProcedureIndex. rewrite bind_run.
  assert (Hidx : forall k, 0 <= (randomIndex procedureCount rnd k).1 < procedureCount).
  { intros k. apply randomIndex_range; [done | reflexivity]. }
  assert (Hten : forall k, 0 <= (randomIndex 10 rnd k).1 < procedureCount).
  { intros k. pose proof (randomIndex_range rnd k 10 Hv ltac:(lia)).
    change procedureCount with 34. lia. }
  assert (Hpick : forall codes k,
    codes <> [] ->
    forallb (fun c => (0 <=? findIndex (Some c)) && (findIndex (Some c) <? procedureCount))
            codes = true ->
    0 <= ((selectedCode ← pick codes; mret (findIndex selectedCode)) rnd k).1
      < procedureCount).
  { intros codes k Hne Hall. rewrite bind_run. cbn [fst snd mret R_ret ret].
    destruct (pick_in rnd k codes Hv Hne) as (c & -> & Hc).
    by apply (findIndex_listed codes). }
  set (chosen := (_ rnd n)).
  assert (Hchosen : 0 <= chosen.1 < procedureCount).
  { subst chosen.
    destruct (patientAge <? 18); [|destruct (55 <? patientAge)];
      rewrite bind_run, random_run; cbn [fst snd];
      destruct (Js.Qltb (rnd n) _); auto; apply Hpick; done. }
  destruct (chosen.1 =? -1) eqn:E; [apply Hidx | exact Hchosen].
Qed.

Lemma statusScan_range statusRand probabilities : forall cumulativeProb j,
  0 <= j ->
  0 <= statusScan statusRand cumulativeProb j probabilities
    < Z.max 1 (j + Z.of_nat (length probabilities)).
Proof.
  induction probabilities as [|probability rest IH]; intros c j Hj; cbn [statusScan].
  - simpl. lia.
  - rewrite length_cons, Nat2Z.inj_succ.
    destruct (Js.Qleb statusRand _); [lia|].
    assert (Hj' : 0 <= j + 1) by lia.
    specialize (IH (c + probability)%Q (j + 1) Hj'). lia.
Qed.

Lemma status_listed statusRand :
  Obj.template (at_ appointmentStatuses (statusScan statusRand 0 0 statusProbabilities))
    ∈ appointmentStatuses.
Proof.
  assert (H0 : 0 <= 0) by lia.
  pose proof (statusScan_range statusRand statusProbabilities 0%Q 0 H0) as H.
  set (index := statusScan _ _ _ _) in *.
  assert (Hrange : 0 <= index < Z.of_nat (length appointmentStatuses)) by (simpl in *; lia).
  destruct (at_in appointmentStatuses index Hrange) as (x & -> & Hx).
  exact Hx.
Qed.

Lemma providers_at_location location :
  location ∈ locations ->
  List.filter (fun p => String.eqb (primary_location p) (loc_id location)) providers <> [].
Proof.
  intros H. unfold locations in H.
  repeat (apply elem_of_cons in H as [-> | H]; [done|]).
  by apply elem_of_nil in H.
Qed.

Lemma planVisit_spec zone rnd patients i s :
  valid rnd -> patientsOk patients ->
  wp rnd (planVisit zone patients i) s
     (fun v s' => unchanged s s' /\ VisitOk patients i v).
Proof.
  intros Hv [Hne Hreg]. unfold planVisit.
  eapply (wp_draw rnd random (fun u => (0 <= u)%Q /\ (u < 1)%Q)); [apply Hv|].
  intros u s1 [Hu0 Hu1] E1. cbv beta zeta.
  destruct (floorPow15_range u (Z.of_nat (length patients)) Hu0 Hu1
              ltac:(destruct patients; [done | simpl; lia])) as (k & Hk & Hrange).
  destruct (at_in patients k Hrange) as (p & Hp & Hin).
  apply wp_bind. eapply wp_required; [by rewrite Hk|].
  wp_skip. wp_skip.
  eapply (wp_draw rnd (pick locations) (fun l => exists x, l = Some x /\ x ∈ locations)).
  { by apply pick_in. }
  intros ? s4 (location & -> & Hloc) E4. cbv beta zeta.
  apply wp_bind. eapply wp_required; [reflexivity|].
  pose proof (providers_at_location location Hloc) as Hproviders.
  set (locationProviders := List.filter _ providers) in *.
  destruct (0 <? length locationProviders)%nat eqn:Elen.
  2: { destruct locationProviders; [done | simpl in Elen; done]. }
  eapply (wp_draw rnd (pick locationProviders) is_Some).
  { destruct (pick_in rnd (rng s4) locationProviders Hv Hproviders) as (x & -> & _). eauto. }
  intros provider s5 Hprovider E5. cbv beta zeta.
  wp_skip. apply wp_ret. split; [split; chain|].
  split; simpl; try done.
  - apply status_listed.
  - rewrite Forall_forall in Hreg. by apply Hreg.
Qed.

(** A loop whose body pushes at most one row pushes at most as many rows
    as it has iterations. *)
Lemma forEach_rows {A} rnd (P : Obj.Object -> Prop) (body : A -> Gen unit) (l : list A) :
  (forall x s, wp rnd (body x) s
     (fun _ s' => exists new, appointments s' = appointments s ++ new /\
                              (length new <= 1)%nat /\ Forall P new)) ->
  forall s, wp rnd (forEach l body) s
     (fun _ s' => exists new, appointments s' = appointments s ++ new /\
                              (length new <= length l)%nat /\ Forall P new).
Proof.
  intros Hbody. induction l as [|x l IH]; intros s; simpl.
  - apply wp_ret. exists []. rewrite app_nil_r. repeat split; [simpl; lia | constructor].
  - apply wp_bind. eapply wp_mono; [apply Hbody|].
    intros _ s1 (new1 & E1 & L1 & F1). eapply wp_mono; [apply IH|].
    intros _ s2 (new2 & E2 & L2 & F2). exists (new1 ++ new2).
    rewrite E2, E1, app_assoc. split; [done|].
    rewrite length_app. split; [simpl; lia | by apply Forall_app].
Qed.

Lemma passed_length zone v draws : forall p dates,
  (length (passed zone v p draws dates).1 <= length draws)%nat.
Proof.
  induction draws as [|procedure rest IH]; intros p dates; cbn [passed]; [simpl; lia|].
  destruct (stopped zone v procedure dates).
  - specialize (IH (p + 1) dates). simpl. lia.
  - specialize (IH (p + 1) (recorded v procedure dates)).
    destruct (passed zone v (p + 1) rest (recorded v procedure dates)). simpl in *. lia.
Qed.

(** The inner loop of a visit: it draws one procedure per iteration, and
    pushes the rows of the draws that pass the gate. *)
Lemma procedures_spec zone rnd patients i v (count : nat) :
  valid rnd -> VisitOk patients i v ->
  forall p s,
    wp rnd (forEach (seqZ p (Z.of_nat count)) (procedureIteration zone v i)) s
       (fun _ s' => exists draws new,
          length draws = count /\
          Forall (fun procedure => procedure ∈ procedures) draws /\
          appointments s' = appointments s ++ new /\
          Forall2 (fun draw row => DrawnRow v (makeProcedureId i draw.1) draw.2 row)
                  (passed zone v p draws (patientLastCleaningDate s)).1 new /\
          patientLastCleaningDate s'
          = (passed zone v p draws (patientLastCleaningDate s)).2 /\
          Forall (RowOk patients i) new).
Proof.
  intros Hv Hvisit. induction count as [|count IH]; intros p s.
  - apply wp_ret. exists [], []. rewrite app_nil_r. repeat split; constructor.
  - replace (Z.of_nat (S count)) with (Z.succ (Z.of_nat count)) by lia.
    rewrite seqZ_cons by lia. rewrite Z.pred_succ. cbn [forEach].
    apply wp_bind. unfold procedureIteration at 1.
    eapply (wp_draw rnd (selectProcedureIndex _) (fun k => 0 <= k < procedureCount)).
    { by apply selectProcedureIndex_range. }
    intros k s1 Hk E1.
    destruct (at_in procedures k Hk) as (procedure & Hprocedure & Hlisted).
    apply wp_bind. eapply wp_required; [exact Hprocedure|].
    destruct Hvisit as [Hid Hp Hs Hprov Hreg].
    eapply wp_mono; [by apply (procedureBody_full zone rnd patients i p)|].
    intros [] s2 H2. cbv beta in H2.
    eapply wp_mono; [apply IH|].
    intros [] s3 (draws & new & L & C3 & E3 & F3 & D3 & R3). cbv beta.
    exists (procedure :: draws). cbn [passed].
    assert (Hgate : gated zone v procedure s1
                    = stopped zone v procedure (patientLastCleaningDate s)).
    { unfold gated, stopped. destruct E1 as [_ ->]. reflexivity. }
    rewrite Hgate in H2. replace (Z.succ p) with (p + 1) in * by lia.
    destruct (stopped zone v procedure (patientLastCleaningDate s)).
    + subst s2. exists new. destruct E1 as [Ea Ed]. rewrite Ea, Ed in *.
      split; [simpl; lia|]. split; [by constructor | done].
    + destruct H2 as (row & E2 & D2 & Hrow & Hdrawn). exists (row :: new).
      destruct E1 as [Ea Ed]. rewrite Ed in D2. rewrite D2 in F3, D3.
      destruct (passed zone v (p + 1) draws
                  (recorded v procedure (patientLastCleaningDate s))) as [rows dates'].
      split; [simpl; lia|]. split; [by constructor|].
      split; [rewrite E3, E2, Ea, <- app_assoc; reflexivity|].
      split; [by constructor|]. split; [done | by constructor].
Qed.

(** One iteration of the outer loop: the visit draws one to three
    procedures, and its rows are those of the draws that pass the gate. *)
Lemma visit_drawn zone rnd patients i s :
  valid rnd -> patientsOk patients ->
  wp rnd (visit zone patients i) s
     (fun _ s' => exists v draws new,
        VisitOk patients i v /\
        (1 <= length draws <= 3)%nat /\
        Forall (fun procedure => procedure ∈ procedures) draws /\
        appointments s' = appointments s ++ new /\
        rowsOfDraws zone v i draws (patientLastCleaningDate s) new /\
        patientLastCleaningDate s'
        = (passed zone v 0 draws (patientLastCleaningDate s)).2 /\
        Forall (RowOk patients i) new).
Proof.
  intros Hv Hp. unfold visit. apply wp_bind.
  eapply wp_mono; [by apply planVisit_spec|]. intros v s1 [E1 Hvisit].
  eapply (wp_draw rnd (randomBetween 1 3) (fun n => 1 <= n <= 3)).
  { apply randomBetween_range; [done | lia]. }
  intros num s2 Hnum E2.
  rewrite <- (Z2Nat.id num) by lia.
  eapply wp_mono; [by apply (procedures_spec zone rnd patients i v)|].
  intros [] s3 (draws & new & L & C3 & E3 & F3 & D3 & R3). cbv beta.
  assert (Ed : patientLastCleaningDate s2 = patientLastCleaningDate s) by chain.
  assert (Ea : appointments s2 = appointments s) by chain.
  rewrite Ed in F3, D3. rewrite Ea in E3.
  exists v, draws, new. split; [done|]. split; [lia | done].
Qed.

Lemma visit_spec zone rnd patients i s :
  valid rnd -> patientsOk patients ->
  wp rnd (visit zone patients i) s
     (fun _ s' => exists new, appointments s' = appointments s ++ new /\
                              (length new <= 3)%nat /\
                              Forall (RowOk patients i) new).
Proof.
  intros Hv Hp. eapply wp_mono; [by apply visit_drawn|].
  intros [] s' (v & draws & new & _ & L & _ & E & F & _ & Hrows). exists new.
  split; [done|]. split; [|done].
  unfold rowsOfDraws in F. apply Forall2_length in F. rewrite <- F.
  pose proof (passed_length zone v draws 0 (patientLastCleaningDate s)). lia.
Qed.

(** The outer loop: the groups of rows of the visits, with what each
    visit drew. *)
Lemma visits_drawn zone rnd patients (count : nat) : forall first s,
  valid rnd -> patientsOk patients ->
  wp rnd (forEach (seqZ first (Z.of_nat count)) (visit zone patients)) s
     (fun _ s' => exists groups visits,
        appointments s' = appointments s ++ concat groups /\
        length groups = count /\ groupsOk patients first groups /\
        visitsDrawn zone patients first (patientLastCleaningDate s) visits groups).
Proof.
  induction count as [|count IH]; intros first s Hv Hp.
  - apply wp_ret. exists [], []. rewrite app_nil_r. split; [done|]. split; [done|].
    split; [|done]. intros j g Hj. done.
  - replace (Z.of_nat (S count)) with (Z.succ (Z.of_nat count)) by lia.
    rewrite seqZ_cons by lia. rewrite Z.pred_succ. simpl.
    apply wp_bind. eapply wp_mono; [by apply visit_drawn|].
    intros _ s1 (v & draws & new & Hvisit & Ldraws & C1 & E1 & F1 & D1 & R1).
    eapply wp_mono; [by apply IH|].
    intros _ s2 (groups & visits & E2 & L2 & G2 & T2).
    exists (new :: groups), ((v, draws) :: visits).
    split; [simpl; rewrite E2, E1, app_assoc; done|].
    split; [simpl; lia|]. split.
    + intros [|k] g Hk; simpl in Hk.
      * injection Hk as <-. rewrite Z.add_0_r. split; [|done].
        unfold rowsOfDraws in F1. apply Forall2_length in F1. rewrite <- F1.
        pose proof (passed_length zone v draws 0 (patientLastCleaningDate s)). lia.
      * destruct (G2 k g Hk) as [L F]. split; [done|].
        replace (first + Z.of_nat (S k)) with (Z.succ first + Z.of_nat k) by lia. done.
    + cbn [visitsDrawn]. do 4 (split; [done|]).
      rewrite <- D1. replace (first + 1) with (Z.succ first) by lia. done.
Qed.

Lemma visits_spec zone rnd patients (count : nat) first s :
  valid rnd -> patientsOk patients ->
  wp rnd (forEach (seqZ first (Z.of_nat count)) (visit zone patients)) s
     (fun _ s' => exists groups,
        appointments s' = appointments s ++ concat groups /\
        length groups = count /\ groupsOk patients first groups).
Proof.
  intros Hv Hp. eapply wp_mono; [by apply visits_drawn|].
  intros [] s' (groups & visits & E & L & G & _). by exists groups.
Qed.
End AppointmentVisit.

Module AppointmentRun.
Import Rand Appointments RandFacts AppointmentSpec AppointmentFacts AppointmentRows
       AppointmentDraws AppointmentVisit.

Lemma registration_parses regYear regMonth regDay :
  2018 <= regYear <= 2024 -> 1 <= regMonth <= 12 -> 1 <= regDay <= 28 ->
  is_Some (JsDate.parse (registrationText regYear regMonth regDay)).
Proof.
  intros Hy Hm Hd.
  assert (Hall :
    forallb (fun y => forallb (fun m => forallb (fun d =>
      bool_decide (is_Some (JsDate.parse (registrationText y m d))))
      (seqZ 1 28)) (seqZ 1 12)) (seqZ 2018 7) = true) by (vm_compute; reflexivity).
  rewrite forallb_forall in Hall.
  specialize (Hall regYear). rewrite <- list_elem_of_In, elem_of_seqZ in Hall.
  specialize (Hall ltac:(lia)). rewrite forallb_forall in Hall.
  specialize (Hall regMonth). rewrite <- list_elem_of_In, elem_of_seqZ in Hall.
  specialize (Hall ltac:(lia)). rewrite forallb_forall in Hall.
  specialize (Hall regDay). rewrite <- list_elem_of_In, elem_of_seqZ in Hall.
  specialize (Hall ltac:(lia)). by apply bool_decide_eq_true in Hall.
Qed.

Lemma generatePatient_spec rnd i s :
  valid rnd ->
  wp rnd (generatePatient i) s (fun p s' => unchanged s s' /\ PatientOk p).
Proof.
  intros Hv. unfold generatePatient.
  do 5 wp_skip. wp_skip as insuranceDraw st Est.
  apply wp_bind.
  eapply (wp_mono _ _ _ (fun carrier s' => unchanged st s' /\ carrier ∈ carriers)).
  { destruct (Js.Qltb insuranceDraw 0.67).
    - eapply (wp_draw rnd (randomIndex _) (fun k => 0 <= k < 5)).
      { apply randomIndex_range; [done | simpl; lia]. }
      intros k st' Hk Est'.
      destruct (at_in insuranceProviders k ltac:(simpl; lia)) as (x & Hx & Hin).
      apply wp_bind. eapply wp_required; [exact Hx|]. apply wp_ret.
      split; [done|]. unfold carriers. by apply list_elem_of_fmap_2.
    - apply wp_ret. split; [apply unchanged_refl|]. unfold carriers. vm_compute. set_solver. }
  intros carrier st5 [Est5 Hcarrier]. cbv beta.
  eapply (wp_draw rnd (randomBetween 2018 2024) (fun y => 2018 <= y <= 2024)).
  { apply randomBetween_range; [done | lia]. }
  intros regYear st6 Hy Est6.
  eapply (wp_draw rnd (randomBetween 1 12) (fun m => 1 <= m <= 12)).
  { apply randomBetween_range; [done | lia]. }
  intros regMonth st7 Hm Est7.
  eapply (wp_draw rnd (randomBetween 1 28) (fun d => 1 <= d <= 28)).
  { apply randomBetween_range; [done | lia]. }
  intros regDay st8 Hd Est8. cbv beta zeta.
  do 2 wp_skip. apply wp_ret.
  split; [repeat (eapply unchanged_trans; [eassumption|]); apply unchanged_refl|].
  split; simpl; [by apply registration_parses | done].
Qed.

Lemma generatePatientsFrom_spec rnd ids : forall s,
  valid rnd ->
  wp rnd (generatePatientsFrom ids) s
     (fun patients s' => unchanged s s' /\
                         length patients = length ids /\ Forall PatientOk patients).
Proof.
  induction ids as [|i ids IH]; intros s Hv; simpl.
  - apply wp_ret. split; [apply unchanged_refl|]. split; [done | constructor].
  - apply wp_bind. eapply wp_mono; [by apply generatePatient_spec|].
    intros p s1 [E1 Hp]. apply wp_bind. eapply wp_mono; [by apply IH|].
    intros ps s2 (E2 & L2 & F2). apply wp_ret.
    split; [exact (unchanged_trans _ _ _ E1 E2)|].
    split; [simpl; lia | by constructor].
Qed.

Lemma patients_usable patients :
  length patients = Z.to_nat NUM_PATIENTS -> Forall PatientOk patients ->
  patientsOk patients.
Proof.
  intros L F. split.
  - intros ->. simpl in L. vm_compute in L. lia.
  - eapply Forall_impl; [exact F|]. by intros p [].
Qed.

(** The sort only reorders the rows. *)
Lemma insertRow_perm zone row sorted : insertRow zone row sorted ≡ₚ row :: sorted.
Proof.
  induction sorted as [|other rest IH]; simpl; [done|].
  destruct (sortKey zone row <=? sortKey zone other); [done|].
  rewrite IH. apply Permutation_swap.
Qed.

Lemma sortRows_perm zone rows : sortRows zone rows ≡ₚ rows.
Proof.
  induction rows as [|row rows IH]; simpl; [done|].
  rewrite insertRow_perm. by constructor.
Qed.

(** Every run returns: its patients are in order and its rows come in
    [NUM_RECORDS] groups, one per visit, of at most three rows each: the
    rows of the procedures that the visit drew and the gate let pass. *)
Lemma run_drawn zone rnd :
  valid rnd ->
  exists patients groups visits,
    patientsOf rnd = Some patients /\
    Forall PatientOk patients /\
    run zone rnd = Some (sortRows zone (concat groups)) /\
    length groups = Z.to_nat NUM_RECORDS /\
    groupsOk patients 0 groups /\
    visitsDrawn zone patients 0 ∅ visits groups.
Proof.
  intros Hv.
  destruct (generatePatientsFrom_spec rnd (seqZ 1 NUM_PATIENTS) initialState Hv)
    as (patients & s1 & Hgen & E1 & L1 & F1).
  rewrite length_seqZ in L1.
  pose proof (patients_usable patients L1 F1) as Hok.
  destruct (visits_drawn zone rnd patients (Z.to_nat NUM_RECORDS) 0 s1 Hv Hok)
    as ([] & s2 & Hvisits & groups & visits & E2 & L2 & G2 & T2).
  exists patients, groups, visits.
  split; [unfold patientsOf, generatePatients; by rewrite Hgen|].
  split; [done|]. split; [|split; [done|split; [done|]]].
  - unfold run, generateAppointmentData, generatePatients.
    unfold mbind at 1, Gen_bind at 1. rewrite Hgen.
    unfold mbind at 1, Gen_bind at 1.
    rewrite Z2Nat.id in Hvisits by (vm_compute; discriminate).
    rewrite Hvisits. simpl. rewrite E2. destruct E1 as [-> _]. reflexivity.
  - destruct E1 as [_ Ed]. rewrite Ed in T2. exact T2.
Qed.

Lemma run_spec zone rnd :
  valid rnd ->
  exists patients groups,
    patientsOf rnd = Some patients /\
    Forall PatientOk patients /\
    run zone rnd = Some (sortRows zone (concat groups)) /\
    length groups = Z.to_nat NUM_RECORDS /\
    groupsOk patients 0 groups.
Proof.
  intros Hv.
  destruct (run_drawn zone rnd Hv) as (patients & groups & visits & H1 & H2 & H3 & H4 & H5 & _).
  by exists patients, groups.
Qed.

Lemma forEach_app {A} (l1 l2 : list A) (body : A -> Gen unit) rnd s :
  forEach (l1 ++ l2) body rnd s = (forEach l1 body;; forEach l2 body) rnd s.
Proof.
  revert s. induction l1 as [|x l1 IH]; intros s; [reflexivity|].
  cbn [app forEach]. unfold mbind, Gen_bind.
  destruct (body x rnd s) as [[[] s1]|]; [|reflexivity]. apply IH.
Qed.

Lemma concat_length_bound (groups : list (list Obj.Object)) :
  (forall k group, groups !! k = Some group -> (length group <= 3)%nat) ->
  (length (concat groups) <= 3 * length groups)%nat.
Proof.
  induction groups as [|g groups IH]; intros H; simpl; [lia|].
  rewrite length_app. pose proof (H 0%nat g eq_refl).
  assert (length (concat groups) <= 3 * length groups)%nat.
  { apply IH. intros k group Hk. apply (H (S k)). exact Hk. }
  lia.
Qed.

Lemma groups_rows patients first groups row :
  groupsOk patients first groups -> row ∈ concat groups ->
  exists k, RowOk patients (first + Z.of_nat k) row.
Proof.
  intros G Hin. apply list_elem_of_In in Hin. apply in_concat in Hin as (group & Hgroup & Hrow). apply list_elem_of_In in Hgroup, Hrow.
  apply list_elem_of_lookup in Hgroup as [k Hk].
  destruct (G k group Hk) as [_ F]. rewrite Forall_forall in F.
  exists k. by apply F.
Qed.
End AppointmentRun.

Module AppointmentLemmas.
Import Rand Appointments RandFacts AppointmentSpec AppointmentFacts AppointmentRows
       AppointmentDraws AppointmentVisit AppointmentRun AppointmentClaimDefs.

Lemma steady_valid : valid steady.
Proof. intros n. unfold steady. split; lra. Qed.

Lemma steady_patients :
  exists position,
    generatePatients steady initialState
    = Some (steadyPatients,
            {| rng := position; patientLastCleaningDate := ∅;
               activeTreatmentPlans := ∅; appointments := [] |}).
Proof. eexists. vm_compute. reflexivity. Qed.

(** The first visit on [steady] is a completed cleaning. *)
Lemma steady_first_visit position :
  exists position',
    visit JsDate.utc steadyPatients 0 steady
      {| rng := position; patientLastCleaningDate := ∅;
         activeTreatmentPlans := ∅; appointments := [] |}
    = Some (tt, steadyState position').
Proof. eexists. vm_compute. reflexivity. Qed.

(** Every later visit picks the same patient and the same cleaning on
    the same date, and stops at the recall gate. *)
Lemma steady_later_visit i position :
  exists position',
    visit JsDate.utc steadyPatients i steady (steadyState position)
    = Some (tt, steadyState position').
Proof. eexists. vm_compute. reflexivity. Qed.

Lemma steady_later_visits visits : forall position,
  exists position',
    forEach visits (visit JsDate.utc steadyPatients) steady (steadyState position)
    = Some (tt, steadyState position').
Proof.
  induction visits as [|i visits IH]; intros position; simpl.
  - by eexists.
  - destruct (steady_later_visit i position) as [position1 H1].
    destruct (IH position1) as [position2 H2].
    exists position2. unfold mbind, Gen_bind. by rewrite H1.
Qed.

Lemma forEach_cons {A} (x : A) (l : list A) (body : A -> Gen unit) :
  forEach (x :: l) body = (body x;; forEach l body).
Proof. reflexivity. Qed.

Lemma steady_run : run JsDate.utc steady = Some [steadyRow].
Proof.
  destruct steady_patients as [position0 H0].
  destruct (steady_first_visit position0) as [position1 H1].
  destruct (steady_later_visits (seqZ 1 (NUM_RECORDS - 1)) position1) as [position2 H2].
  unfold run, generateAppointmentData.
  unfold mbind at 1, Gen_bind at 1. rewrite H0.
  unfold mbind at 1, Gen_bind at 1.
  change NUM_RECORDS with (Z.succ (NUM_RECORDS - 1)).
  rewrite seqZ_cons by (vm_compute; reflexivity).
  rewrite Z.pred_succ. change (Z.succ 0) with 1. rewrite forEach_cons.
  unfold mbind at 1, Gen_bind at 1.
  unfold mbind at 1, Gen_bind at 1. rewrite H1. rewrite H2. reflexivity.
Qed.

Lemma mixed_valid : valid mixed.
Proof. intros n. unfold mixed. destruct (_ =? _); split; lra. Qed.

Lemma western_valid : valid western.
Proof. intros n. unfold western. repeat destruct (_ =? _); split; lra. Qed.

(** The rows that the first visits of a run have pushed are rows of the
    run. *)
Lemma afterVisits_rows zone rnd count s :
  valid rnd -> 0 <= count <= NUM_RECORDS ->
  afterVisits zone count rnd = Some s ->
  exists rows, run zone rnd = Some rows /\
               forall row, row ∈ appointments s -> row ∈ rows.
Proof.
  intros Hv Hcount Hafter.
  destruct (generatePatientsFrom_spec rnd (seqZ 1 NUM_PATIENTS) initialState Hv)
    as (patients & s1 & Hgen & E1 & L1 & F1).
  rewrite length_seqZ in L1.
  pose proof (patients_usable patients L1 F1) as Hok.
  unfold afterVisits, generatePatients in Hafter.
  unfold mbind at 1, Gen_bind at 1 in Hafter. rewrite Hgen in Hafter.
  destruct (forEach (seqZ 0 count) (visit zone patients) rnd s1) as [[[] s2]|] eqn:Hfirst;
    [|discriminate].
  injection Hafter as <-.
  destruct (visits_spec zone rnd patients (Z.to_nat (NUM_RECORDS - count)) count s2 Hv Hok)
    as ([] & s3 & Hrest & groups & E3 & _).
  rewrite Z2Nat.id in Hrest by lia.
  exists (sortRows zone (appointments s3)). split.
  - unfold run, generateAppointmentData, generatePatients.
    unfold mbind at 1, Gen_bind at 1. rewrite Hgen.
    unfold mbind at 1, Gen_bind at 1.
    replace NUM_RECORDS with (count + (NUM_RECORDS - count)) at 1 by lia.
    rewrite seqZ_app by lia. rewrite forEach_app.
    unfold mbind at 1, Gen_bind at 1. rewrite Hfirst.
    rewrite Z.add_0_l, Hrest. reflexivity.
  - intros row Hrow. rewrite sortRows_perm, E3. apply elem_of_app. by left.
Qed.

(** The first visit on [mixed] is a No-Show and leaves [mixedRow]. *)
Lemma mixed_first_visit :
  exists s, afterVisits JsDate.utc 1 mixed = Some s /\ appointments s = [mixedRow].
Proof. eexists. split; vm_compute; reflexivity. Qed.

Lemma mixed_row_emitted :
  exists rows, run JsDate.utc mixed = Some rows /\ mixedRow ∈ rows.
Proof.
  destruct mixed_first_visit as (s & Hs & Hrows).
  destruct (afterVisits_rows JsDate.utc mixed 1 s mixed_valid
              ltac:(vm_compute; split; discriminate) Hs) as (rows & Hrun & Hin).
  exists rows. split; [exact Hrun|]. apply Hin. rewrite Hrows. by left.
Qed.

Lemma mixedRow_other : ~ isCompleted mixedRow.
Proof. unfold isCompleted. vm_compute. discriminate. Qed.

(** On a host in [west] the first two visits on [western] each leave a
    cleaning of the same patient, dated 2023-07-01 and 2023-11-30. *)
Lemma western_visits :
  exists s1 s2 row1 row2,
    afterVisits west 1 western = Some s1 /\
    appointments s1 = [row1] /\
    patientLastCleaningDate s1 = {[ "PAT0245" := "2023-07-01" ]} /\
    afterVisits west 2 western = Some s2 /\
    appointments s2 = [row1; row2] /\
    cleaningOf row1 = (Obj.VStr "PAT0245", Obj.VStr "D1110", Obj.VStr "2023-07-01") /\
    cleaningOf row2 = (Obj.VStr "PAT0245", Obj.VStr "D1110", Obj.VStr "2023-11-30") /\
    exists s, afterVisits JsDate.utc 2 western = Some s /\ appointments s = [row1].
Proof.
  eexists _, _, _, _.
  split; [vm_compute; reflexivity|].
  split; [reflexivity|].
  split; [vm_compute; reflexivity|].
  split; [vm_compute; reflexivity|].
  split; [vm_compute; reflexivity|].
  split; [vm_compute; reflexivity|].
  split; [vm_compute; reflexivity|].
  eexists. split; vm_compute; reflexivity.
Qed.
End AppointmentLemmas.

Module AppointmentClaims.
Import Rand Appointments RandFacts AppointmentSpec AppointmentFacts AppointmentRows
       AppointmentDraws AppointmentVisit AppointmentRun AppointmentClaimDefs
       AppointmentLemmas.

(** Every row of a run is a row of one of its visits. *)
Lemma run_rows zone rnd :
  valid rnd ->
  exists patients rows,
    patientsOf rnd = Some patients /\ Forall PatientOk patients /\
    run zone rnd = Some rows /\
    forall row, row ∈ rows -> exists i, RowOk patients i row.
Proof.
  intros Hv. destruct (run_spec zone rnd Hv) as (patients & groups & Hp & Fp & Hrun & L & G).
  exists patients, (sortRows zone (concat groups)). repeat split; try done.
  intros row Hrow. rewrite sortRows_perm in Hrow.
  destruct (groups_rows patients 0 groups row G Hrow) as [k Hk]. eauto.
Qed.

(** C3. On every run, each row whose status is Completed has
    Out_of_Pocket = Patient_Responsibility - Discount_Applied, and its
    Amount_Paid is 0 or Out_of_Pocket. *)
Theorem completed_rows_balance zone rnd :
  valid rnd ->
  exists rows, run zone rnd = Some rows /\
    forall row, row ∈ rows -> isCompleted row -> balanced row.
Proof.
  intros Hv. destruct (run_rows zone rnd Hv) as (patients & rows & _ & _ & Hrun & Hrows).
  exists rows. split; [done|]. intros row Hrow Hc.
  destruct (Hrows row Hrow) as [i Hi]. by apply (row_completed _ _ _ Hi).
Qed.

Lemma completed_rows_balance_witness :
  valid steady /\
  exists rows, run JsDate.utc steady = Some rows /\
    forall row, row ∈ rows -> isCompleted row -> balanced row.
Proof.
  split; [exact steady_valid|]. apply (completed_rows_balance JsDate.utc steady). exact steady_valid.
Defined.

(** C4. On every run, each row whose status is not Completed has 0 in
    the nine numeric financial fields and the empty string in the payment,
    claim and treatment-plan fields. *)
Theorem other_rows_default zone rnd :
  valid rnd ->
  exists rows, run zone rnd = Some rows /\
    forall row, row ∈ rows -> ~ isCompleted row -> financialDefaults row.
Proof.
  intros Hv. destruct (run_rows zone rnd Hv) as (patients & rows & _ & _ & Hrun & Hrows).
  exists rows. split; [done|]. intros row Hrow Hc.
  destruct (Hrows row Hrow) as [i Hi]. by apply (row_other _ _ _ Hi).
Qed.

Lemma other_rows_default_witness :
  valid mixed /\
  exists rows, run JsDate.utc mixed = Some rows /\
    (forall row, row ∈ rows -> ~ isCompleted row -> financialDefaults row) /\
    mixedRow ∈ rows /\ ~ isCompleted mixedRow /\ financialDefaults mixedRow.
Proof.
  split; [exact mixed_valid|].
  destruct (other_rows_default JsDate.utc mixed mixed_valid) as (rows & Hrun & Hrows).
  exists rows. split; [exact Hrun|]. split; [exact Hrows|].
  assert (Hin : mixedRow ∈ rows).
  { destruct mixed_row_emitted as (rows' & Hrun' & Hin).
    rewrite Hrun in Hrun'. injection Hrun' as ->. exact Hin. }
  split; [exact Hin|]. split; [exact mixedRow_other|].
  exact (Hrows mixedRow Hin mixedRow_other).
Defined.

(** C10. On every run, each row whose status is not Completed carries in
    Insurance_Provider the carrier of its patient: one of the names of the
    carrier table, among them No Insurance, never the empty string. *)
Theorem other_rows_keep_carrier zone rnd :
  valid rnd ->
  exists patients rows,
    patientsOf rnd = Some patients /\ run zone rnd = Some rows /\
    forall row, row ∈ rows -> ~ isCompleted row ->
      exists p, p ∈ patients /\
        Obj.get "Patient_ID" row = Obj.VStr (patient_id p) /\
        Obj.get "Insurance_Provider" row = Obj.VStr (insurance_provider p) /\
        insurance_provider p ∈ carriers /\
        insurance_provider p <> "".
Proof.
  intros Hv. destruct (run_rows zone rnd Hv) as (patients & rows & Hp & Fp & Hrun & Hrows).
  exists patients, rows. repeat split; try done. intros row Hrow _.
  destruct (Hrows row Hrow) as [i Hi].
  destruct (row_patient _ _ _ Hi) as (p & Hin & Hid & Hcarrier).
  exists p. repeat split; try done.
  - rewrite Forall_forall in Fp. by destruct (Fp p Hin).
  - rewrite Forall_forall in Fp. destruct (Fp p Hin) as [_ Hc].
    intros E. rewrite E in Hc. apply list_elem_of_In in Hc. simpl in Hc.
    intuition discriminate.
Qed.

Lemma other_rows_keep_carrier_witness :
  valid mixed /\
  exists patients rows,
    patientsOf mixed = Some patients /\ run JsDate.utc mixed = Some rows /\
    mixedRow ∈ rows /\ ~ isCompleted mixedRow /\
    exists p, p ∈ patients /\
      Obj.get "Patient_ID" mixedRow = Obj.VStr (patient_id p) /\
      Obj.get "Insurance_Provider" mixedRow = Obj.VStr (insurance_provider p) /\
      insurance_provider p ∈ carriers /\
      insurance_provider p <> "".
Proof.
  split; [exact mixed_valid|].
  destruct (other_rows_keep_carrier JsDate.utc mixed mixed_valid)
    as (patients & rows & Hpatients & Hrun & Hrows).
  exists patients, rows. split; [exact Hpatients|]. split; [exact Hrun|].
  assert (Hin : mixedRow ∈ rows).
  { destruct mixed_row_emitted as (rows' & Hrun' & Hin).
    rewrite Hrun in Hrun'. injection Hrun' as ->. exact Hin. }
  split; [exact Hin|]. split; [exact mixedRow_other|].
  exact (Hrows mixedRow Hin mixedRow_other).
Defined.

(** C8, as stated, fails: on the oracle [steady] the second visit draws
    the cleaning that the first visit has just recorded, is stopped at the
    recall gate, and leaves no row. *)
Lemma visit_without_rows : ~ everyVisitHasRows.
Proof.
  intros H. destruct (H JsDate.utc steady steady_valid) as (rows & Hrun & Hvisits & _).
  rewrite steady_run in Hrun. injection Hrun as <-.
  specialize (Hvisits 1 ltac:(vm_compute; split; [discriminate | reflexivity])).
  vm_compute in Hvisits. lia.
Qed.

(** C8, amended. Every run returns its rows, and they are the rows of
    NUM_RECORDS visits.  Each visit draws between one and three
    procedures; each draw leaves one row, with the identifier of the visit
    and the identifier of the draw, unless it is a cleaning that the recall
    gate stops, which leaves none.  So each visit has between zero and
    three rows, all with the identifier of that visit, and there are at
    most NUM_RECORDS * 3 rows. *)
Theorem visits_have_up_to_three_rows zone rnd :
  valid rnd ->
  exists patients rows groups visits,
    patientsOf rnd = Some patients /\
    run zone rnd = Some rows /\
    rows ≡ₚ concat groups /\
    Z.of_nat (length groups) = NUM_RECORDS /\
    visitsDrawn zone patients 0 ∅ visits groups /\
    (forall k group, groups !! k = Some group ->
       (length group <= 3)%nat /\
       forall row, row ∈ group ->
         Obj.get "Visit_ID" row = Obj.VStr (makeVisitId (Z.of_nat k))) /\
    Z.of_nat (length rows) <= NUM_RECORDS * 3.
Proof.
  intros Hv.
  destruct (run_drawn zone rnd Hv) as (patients & groups & visits & Hp & _ & Hrun & L & G & T).
  exists patients, (sortRows zone (concat groups)), groups, visits.
  split; [done|]. split; [done|]. split; [apply sortRows_perm|].
  split; [rewrite L; reflexivity|]. split; [exact T|]. split.
  - intros k group Hk. destruct (G k group Hk) as [Hlen F]. split; [done|].
    intros row Hrow. rewrite Forall_forall in F.
    destruct (F row Hrow) as [Hid _ _ _ _]. by rewrite Z.add_0_l in Hid.
  - rewrite sortRows_perm.
    pose proof (concat_length_bound groups (fun k g Hk => proj1 (G k g Hk))) as Hb.
    rewrite L in Hb. change NUM_RECORDS with 10000 in *. lia.
Qed.

Lemma visits_have_up_to_three_rows_witness :
  valid steady /\
  exists patients rows groups visits,
    patientsOf steady = Some patients /\
    run JsDate.utc steady = Some rows /\
    rows ≡ₚ concat groups /\
    Z.of_nat (length groups) = NUM_RECORDS /\
    visitsDrawn JsDate.utc patients 0 ∅ visits groups /\
    (forall k group, groups !! k = Some group ->
       (length group <= 3)%nat /\
       forall row, row ∈ group ->
         Obj.get "Visit_ID" row = Obj.VStr (makeVisitId (Z.of_nat k))) /\
    Z.of_nat (length rows) <= NUM_RECORDS * 3.
Proof.
  split; [exact steady_valid|].
  apply (visits_have_up_to_three_rows JsDate.utc steady). exact steady_valid.
Defined.

(** The recall gate stops a cleaning whose month, as the host reads it,
    is less than five after the month of the recorded one. *)
Lemma not_due zone lastCleaningDates patientId procedureCode last lastDate current currentDate :
  isCleaning procedureCode = true ->
  lastCleaningDates !! patientId = Some last ->
  last <> "" ->
  JsDate.parseIn zone last = Some lastDate ->
  JsDate.parseIn zone current = Some currentDate ->
  monthIndex zone currentDate < monthIndex zone lastDate + 5 ->
  isDueForRecall zone lastCleaningDates patientId procedureCode current = false.
Proof.
  intros Hc Hl Hne Hp1 Hp2 Hm. unfold isDueForRecall, isCleaning in *.
  apply orb_true_iff in Hc.
  assert (negb (String.eqb procedureCode "D1110") && negb (String.eqb procedureCode "D1120")
          = false) as ->.
  { destruct Hc as [-> | ->]; [reflexivity | by rewrite andb_false_r]. }
  rewrite Hl. apply String.eqb_neq in Hne. rewrite Hne.
  unfold monthsSince. rewrite Hp1, Hp2. simpl. unfold monthIndex in Hm. lia.
Qed.

(** The recall gate on a host in [zone], for a cleaning (D1110 or D1120)
    drawn in a visit: (1) when the host reads the recorded cleaning as of
    month M and the date of the visit as before month M + 5, no row is
    pushed and the state stays as it was; (2) a patient with no recorded
    cleaning passes the gate; (3) whenever the gate is passed, whatever the
    status of the appointment, one row is pushed and the date of the visit
    becomes the recorded cleaning. *)
Lemma recall_gate_of_host zone rnd patients i p v procedure :
  VisitOk patients i v ->
  isCleaning (code procedure) = true ->
  (forall s last lastDate currentDate,
     patientLastCleaningDate s !! patient_id (patient v) = Some last ->
     last <> "" ->
     JsDate.parseIn zone last = Some lastDate ->
     JsDate.parseIn zone (formattedVisitDate v) = Some currentDate ->
     monthIndex zone currentDate < monthIndex zone lastDate + 5 ->
     procedureBody zone v i p procedure rnd s = Some (tt, s)) /\
  (forall s,
     patientLastCleaningDate s !! patient_id (patient v) = None ->
     gated zone v procedure s = false) /\
  (forall s,
     gated zone v procedure s = false ->
     exists s' row,
       procedureBody zone v i p procedure rnd s = Some (tt, s') /\
       appointments s' = appointments s ++ [row] /\
       patientLastCleaningDate s' !! patient_id (patient v)
       = Some (formattedVisitDate v)).
Proof.
  intros Hvisit Hc. split; [|split].
  - intros s last lastDate currentDate Hl Hne Hp1 Hp2 Hm.
    unfold procedureBody, mbind, Gen_bind, getState.
    rewrite (not_due zone _ _ _ last lastDate _ currentDate Hc Hl Hne Hp1 Hp2 Hm).
    rewrite Hc. reflexivity.
  - intros s Hl. unfold gated, isDueForRecall. rewrite Hl.
    destruct (negb _ && negb _); by rewrite andb_false_r.
  - intros s Hg. destruct Hvisit as [Hid Hp Hs Hprov Hreg].
    destruct (procedureBody_full zone rnd patients i p v procedure s Hid Hp Hs Hprov Hreg)
      as ([] & s' & Hrun & Hpost).
    rewrite Hg in Hpost. destruct Hpost as (row & Hrows & Hdates & _ & _).
    exists s', row. split; [done|]. split; [done|].
    rewrite Hdates. unfold recorded. rewrite Hc. apply lookup_insert_eq.
Qed.

Lemma sampleVisit_ok zone date status :
  status ∈ appointmentStatuses ->
  VisitOk [samplePatient] 7 (sampleVisit zone date status).
Proof.
  intros Hs. split; simpl; [reflexivity | constructor | exact Hs | by eexists |].
  vm_compute. by eexists.
Qed.

(** The gate on a host at UTC, after a cleaning recorded on 2023-07-31: a
    cleaning dated 2023-11-30 is stopped, and a cleaning dated 2023-12-01
    passes and is recorded, also when the appointment is a No-Show. *)
Lemma recall_gate_at_utc :
  procedureBody JsDate.utc (sampleVisit JsDate.utc "2023-11-30" "Completed") 7 0
    adultCleaning steady (steadyState 0)
  = Some (tt, steadyState 0) /\
  exists s' row,
    procedureBody JsDate.utc (sampleVisit JsDate.utc "2023-12-01" "No-Show") 7 0
      adultCleaning steady (steadyState 0)
    = Some (tt, s') /\
    appointments s' = appointments (steadyState 0) ++ [row] /\
    patientLastCleaningDate s' !! "PAT0245" = Some "2023-12-01".
Proof.
  split.
  - refine (proj1 (recall_gate_of_host JsDate.utc steady [samplePatient] 7 0
                     (sampleVisit JsDate.utc "2023-11-30" "Completed") adultCleaning
                     (sampleVisit_ok _ _ _ _) eq_refl)
                  (steadyState 0) "2023-07-31"
                  (default 0 (JsDate.parse "2023-07-31"))
                  (default 0 (JsDate.parse "2023-11-30")) _ _ _ _ _).
    + set_solver.
    + reflexivity.
    + discriminate.
    + reflexivity.
    + reflexivity.
    + vm_compute. reflexivity.
  - refine (proj2 (proj2 (recall_gate_of_host JsDate.utc steady [samplePatient] 7 0
                     (sampleVisit JsDate.utc "2023-12-01" "No-Show") adultCleaning
                     (sampleVisit_ok _ _ _ _) eq_refl))
                  (steadyState 0) _).
    + set_solver.
    + vm_compute. reflexivity.
Qed.

(** C5, at the failing input. On a host eight hours west of Greenwich
    and on the oracle [western], the first visit is a cleaning (D1110) of
    patient PAT0245 dated 2023-07-01, the only cleaning recorded for that
    patient, and the second visit draws the same cleaning for the same
    patient dated 2023-11-30, in the fourth month after July.  The gate
    counts five months, because the host reads the recorded date, midnight
    UTC of 1 July, as 30 June: the cleaning passes, and both rows are in
    the output of the run.  On a host at UTC the gate counts four months
    and the same answers leave the first row only. *)
Theorem cleaning_in_the_fourth_month :
  exists s1 s2 row1 row2 rows,
    afterVisits west 1 western = Some s1 /\
    appointments s1 = [row1] /\
    patientLastCleaningDate s1 = {[ "PAT0245" := "2023-07-01" ]} /\
    afterVisits west 2 western = Some s2 /\
    appointments s2 = [row1; row2] /\
    cleaningOf row1 = (Obj.VStr "PAT0245", Obj.VStr "D1110", Obj.VStr "2023-07-01") /\
    cleaningOf row2 = (Obj.VStr "PAT0245", Obj.VStr "D1110", Obj.VStr "2023-11-30") /\
    run west western = Some rows /\ row1 ∈ rows /\ row2 ∈ rows /\
    monthsSince west "2023-07-01" "2023-11-30" = Some 5 /\
    monthsSince JsDate.utc "2023-07-01" "2023-11-30" = Some 4 /\
    exists s, afterVisits JsDate.utc 2 western = Some s /\ appointments s = [row1].
Proof.
  destruct western_visits as (s1 & s2 & row1 & row2 & H1 & A1 & D1 & H2 & A2 & C1 & C2 & Hutc).
  destruct (afterVisits_rows west western 2 s2 western_valid
              ltac:(vm_compute; split; discriminate) H2) as (rows & Hrun & Hin).
  exists s1, s2, row1, row2, rows.
  do 7 (split; [assumption|]). split; [exact Hrun|].
  split; [apply Hin; rewrite A2; by left|].
  split; [apply Hin; rewrite A2; right; by left|].
  split; [vm_compute; reflexivity|]. split; [vm_compute; reflexivity|].
  exact Hutc.
Qed.

(** C6, at the failing input. On the oracle [onePlan] the first visit
    opens a treatment plan of one procedure: its row records a completion
    rate of 100 with no completion date, and the plan stays open.  The
    second visit of the patient is counted into that plan: its row records
    100 again, and only this row closes the plan. *)
Theorem plan_of_one_opens_at_100 :
  exists s1 s2 row1 row2 plan,
    afterVisits JsDate.utc 1 onePlan = Some s1 /\
    appointments s1 = [row1] /\
    Obj.get "Treatment_Plan_ID" row1 = Obj.VStr "TP1000" /\
    Obj.get "Treatment_Plan_Completion_Rate" row1 = Obj.VInt 100 /\
    Obj.get "Treatment_Plan_Completion_Date" row1 = Obj.VStr "" /\
    activeTreatmentPlans s1 !! "PAT0019" = Some plan /\
    totalProcedures plan = 1 /\ completedProcedures plan = 1 /\
    afterVisits JsDate.utc 2 onePlan = Some s2 /\
    appointments s2 = [row1; row2] /\
    Obj.get "Treatment_Plan_ID" row2 = Obj.VStr "TP1000" /\
    Obj.get "Treatment_Plan_Completion_Rate" row2 = Obj.VInt 100 /\
    Obj.get "Treatment_Plan_Completion_Date" row2 = Obj.VStr "2025-01-05" /\
    activeTreatmentPlans s2 !! "PAT0019" = None.
Proof.
  eexists _, _, _, _, _.
  split; [vm_compute; reflexivity|].
  split; [vm_compute; reflexivity|].
  do 4 (split; [vm_compute; reflexivity|]).
  do 2 (split; [reflexivity|]).
  split; [vm_compute; reflexivity|].
  split; [vm_compute; reflexivity|].
  repeat split; vm_compute; reflexivity.
Qed.
End AppointmentClaims.

(* ================================================================== *)
(** * The operations generator *)
(* ================================================================== *)

Module OperationsFacts.
Import Rand Operations OperationsClaimDefs.

Lemma round_of_nothing x : Js.round (inject_Z 0 * x) = 0.
Proof.
  unfold Js.round.
  assert (E : (inject_Z 0 * x + (1 # 2) == 1 # 2)%Q) by (unfold inject_Z; ring).
  rewrite E. reflexivity.
Qed.

Ltac step :=
  match goal with
  | |- context [bind ?m ?k ?rnd ?n] =>
      unfold bind at 1; destruct (m rnd n) as [? ?] eqn:?
  end.

(** The enumeration of the days stops by the loop condition: a larger
    bound gives the same dates. *)
Lemma datesFrom_stable bound extra date :
  (length (datesFrom bound date) < bound)%nat ->
  datesFrom (bound + extra) date = datesFrom bound date.
Proof.
  revert date. induction bound as [|bound IH]; intros date Hlen; [simpl in Hlen; lia|].
  simpl in *. destruct (date <=? END_DATE); [|reflexivity].
  simpl in Hlen. f_equal. apply IH. lia.
Qed.

Lemma operatingDates_complete extra :
  datesFrom (dateBound + extra) START_DATE = operatingDates.
Proof.
  unfold operatingDates. apply datesFrom_stable.
  assert (length (datesFrom dateBound START_DATE) = 1918%nat) as -> by (vm_compute; reflexivity).
  unfold dateBound. lia.
Qed.

Section Daily.
Context (shuffle : list StaffMember -> R (list StaffMember)).

(** An open day gives a record; three of its cells. *)
Lemma daily_record rnd n date location appointmentData :
  closedOn date = false ->
  let m := appointmentMetricsFor appointmentData (JsDate.formatDate date) location in
  exists daily n',
    generateDailyOperations shuffle date location appointmentData rnd n = (Some daily, n') /\
    Obj.get "Chair_Utilization" (dailyRecord daily)
    = Obj.VStr (JsString.toFixed 2
        (fst (chairUtilizationOf m (availableChairMinutes location (JsDate.getDay date =? 6))
                (targetUtilizationOn date location) rnd n))) /\
    (exists k, Obj.get "Actual_Collection_Rate" (dailyRecord daily)
               = Obj.VStr (toFixedQ 2 (fst (collectionRateOf m location rnd k)))) /\
    (exists processedFactor deniedFactor,
       let dailyClaimsProcessed :=
         Js.round (inject_Z (Js.round (inject_Z (completed m) * 0.8)) * processedFactor) in
       Obj.get "Insurance_Denial_Rate" (dailyRecord daily)
       = Obj.VStr (JsString.toFixed 2
           (Js.div (Js.ofZ (Js.round (inject_Z dailyClaimsProcessed * deniedFactor)))
                   (Js.ofZ dailyClaimsProcessed)))).
Proof.
  intros Hopen m. unfold generateDailyOperations. rewrite Hopen.
  fold m. unfold mbind, R_bind.
  repeat step.
  unfold mret, R_ret, ret. eexists _, _. split; [reflexivity|].
  cbn [dailyRecord].
  split; [|split].
  - reflexivity.
  - eexists. match goal with H : collectionRateOf _ _ _ _ = _ |- _ => rewrite H end.
    reflexivity.
  - eexists _, _. reflexivity.
Qed.

End Daily.

Lemma bucket_metrics appointmentData date location m :
  lookupBucket appointmentData date (loc_id location) = Some m ->
  appointmentMetricsFor appointmentData date location = m.
Proof. intros H. unfold appointmentMetricsFor. by rewrite H. Qed.

Lemma no_bucket_metrics appointmentData date location :
  lookupBucket appointmentData date (loc_id location) = None ->
  appointmentMetricsFor appointmentData date location = emptyMetrics.
Proof. intros H. unfold appointmentMetricsFor. by rewrite H. Qed.

Lemma chairUtilizationOf_empty availableMinutes target :
  chairUtilizationOf emptyMetrics availableMinutes target = syntheticChairUtilization target.
Proof. reflexivity. Qed.

Lemma collectionRateOf_empty location :
  collectionRateOf emptyMetrics location = syntheticCollectionRate location.
Proof. reflexivity. Qed.

Lemma syntheticChairUtilization_run target rnd n :
  fst (syntheticChairUtilization target rnd n)
  = Js.Num (fst (randomFloatBetween (Js.Qmax 0.65 (target - 0.1))
                   (Js.Qmin 0.95 (target + 0.05)) rnd n)).
Proof.
  unfold syntheticChairUtilization, mbind, R_bind, bind.
  by destruct (randomFloatBetween _ _ rnd n).
Qed.

(** Without its input [main] writes nothing. *)
Lemma main_missing shuffle rnd (fs : FileSystem) :
  fs !! inputFile = None ->
  main shuffle rnd fs
  = (fs, [ Info "Reading appointment data and generating operations data...";
           Failure "Error reading appointment data file:" "ENOENT: no such file or directory";
           Failure "Error generating operations data:" "ENOENT: no such file or directory" ]).
Proof.
  intros H. unfold main, readAppointmentData, readFile. rewrite H. reflexivity.
Qed.
End OperationsFacts.

Module OperationsClaims.
Import Rand Operations OperationsClaimDefs OperationsFacts.

(** C7. On an open day the generator returns a record.  When the index
    has a bucket for the date and the location with a summed duration and
    a summed charge above zero, the record's chair utilization is the
    summed duration over the available chair minutes, capped at 0.95, and
    its collection rate is the amount paid over the amount charged.  When
    the index has no bucket for them, both are draws around the targets of
    the location. *)
Theorem derived_or_synthetic shuffle rnd n date location appointmentData :
  closedOn date = false ->
  exists daily n',
    generateDailyOperations shuffle date location appointmentData rnd n = (Some daily, n') /\
    (forall m,
       lookupBucket appointmentData (JsDate.formatDate date) (loc_id location) = Some m ->
       0 < totalDuration m -> 0 < chargedAmount m ->
       Obj.get "Chair_Utilization" (dailyRecord daily)
       = Obj.VStr (JsString.toFixed 2
           (Js.mathMin (Js.Num 0.95)
              (Js.div (Js.ofZ (totalDuration m))
                 (Js.Num (availableChairMinutes location (JsDate.getDay date =? 6)))))) /\
       Obj.get "Actual_Collection_Rate" (dailyRecord daily)
       = Obj.VStr (toFixedQ 2 (inject_Z (amountPaid m) / inject_Z (chargedAmount m)))) /\
    (lookupBucket appointmentData (JsDate.formatDate date) (loc_id location) = None ->
       let target := targetUtilizationOn date location in
       Obj.get "Chair_Utilization" (dailyRecord daily)
       = Obj.VStr (toFixedQ 2
           (fst (randomFloatBetween (Js.Qmax 0.65 (target - 0.1))
                   (Js.Qmin 0.95 (target + 0.05)) rnd n))) /\
       exists k,
         Obj.get "Actual_Collection_Rate" (dailyRecord daily)
         = Obj.VStr (toFixedQ 2
             (fst (randomFloatBetween
                     (Js.Qmax 0.6 (target_collection_rate location - 0.1))
                     (Js.Qmin 0.98 (target_collection_rate location + 0.05)) rnd k)))).
Proof.
  intros Hopen.
  destruct (daily_record shuffle rnd n date location appointmentData Hopen)
    as (daily & n' & Hrun & Hchair & [k Hrate] & _).
  exists daily, n'. split; [exact Hrun|]. split.
  - intros m Hm Hd Hc. rewrite (bucket_metrics _ _ _ _ Hm) in Hchair, Hrate.
    unfold chairUtilizationOf in Hchair. unfold collectionRateOf in Hrate.
    apply Z.ltb_lt in Hd, Hc. rewrite Hd in Hchair. rewrite Hc in Hrate.
    split; [exact Hchair | exact Hrate].
  - intros Hm. rewrite (no_bucket_metrics _ _ _ Hm) in Hchair, Hrate. split.
    + rewrite Hchair, chairUtilizationOf_empty, syntheticChairUtilization_run.
      reflexivity.
    + exists k. rewrite Hrate, collectionRateOf_empty. reflexivity.
Qed.

Lemma derived_or_synthetic_witness :
  (exists daily n',
     generateDailyOperations keepOrder (JsDate.make 2024 2 5) downtown oneRowIndex half 0%nat
     = (Some daily, n') /\
     Obj.get "Chair_Utilization" (dailyRecord daily) = Obj.VStr "0.02" /\
     Obj.get "Actual_Collection_Rate" (dailyRecord daily) = Obj.VStr "0.75") /\
  (exists daily n',
     generateDailyOperations keepOrder (JsDate.make 2024 2 6) downtown oneRowIndex half 0%nat
     = (Some daily, n') /\
     Obj.get "Chair_Utilization" (dailyRecord daily) = Obj.VStr "0.85").
Proof.
  split.
  - destruct (derived_or_synthetic keepOrder half 0%nat (JsDate.make 2024 2 5) downtown
                oneRowIndex eq_refl) as (daily & n' & Hrun & Hderived & _).
    exists daily, n'. split; [exact Hrun|].
    destruct (Hderived (default emptyMetrics
                (lookupBucket oneRowIndex "2024-03-05" "LOC001")) eq_refl eq_refl eq_refl)
      as [-> ->].
    split; vm_compute; reflexivity.
  - destruct (derived_or_synthetic keepOrder half 0%nat (JsDate.make 2024 2 6) downtown
                oneRowIndex eq_refl) as (daily & n' & Hrun & _ & Hsynthetic).
    exists daily, n'. split; [exact Hrun|].
    destruct (Hsynthetic eq_refl) as [-> _]. vm_compute. reflexivity.
Defined.

(** C9, at the failing input.  On an open day with no completed
    appointment both claim counts are zero, and the denial rate of the
    record is the text of 0 / 0. *)
Theorem denial_rate_of_an_empty_day shuffle rnd n date location appointmentData :
  closedOn date = false ->
  completed (appointmentMetricsFor appointmentData (JsDate.formatDate date) location) = 0 ->
  exists daily n',
    generateDailyOperations shuffle date location appointmentData rnd n = (Some daily, n') /\
    Obj.get "Insurance_Denial_Rate" (dailyRecord daily) = Obj.VStr "NaN".
Proof.
  intros Hopen Hnone.
  destruct (daily_record shuffle rnd n date location appointmentData Hopen)
    as (daily & n' & Hrun & _ & _ & processedFactor & deniedFactor & Hdenial).
  exists daily, n'. split; [exact Hrun|].
  rewrite Hdenial, Hnone.
  change (Js.round (inject_Z 0 * 0.8)) with 0.
  rewrite !round_of_nothing. reflexivity.
Qed.

Lemma denial_rate_of_an_empty_day_witness :
  exists daily n',
    generateDailyOperations keepOrder (JsDate.make 2024 2 5) downtown ∅ half 0%nat
    = (Some daily, n') /\
    Obj.get "Insurance_Denial_Rate" (dailyRecord daily) = Obj.VStr "NaN".
Proof.
  exact (denial_rate_of_an_empty_day keepOrder half 0%nat (JsDate.make 2024 2 5) downtown ∅
           eq_refl eq_refl).
Defined.

(** C2, the claim as stated fails: with no appointment file the
    operations generator writes nothing. *)
Lemma no_input_no_output : ~ writesWithoutInput.
Proof.
  intros H. destruct (H keepOrder half ∅ (lookup_empty _)) as [data Hdata].
  rewrite main_missing in Hdata by apply lookup_empty.
  simpl in Hdata. rewrite lookup_empty in Hdata. discriminate Hdata.
Qed.
End OperationsClaims.

(* ================================================================== *)
(** * The financial generator and the pipeline *)
(* ================================================================== *)

Module PipelineFacts.
Import Rand AppointmentClaimDefs AppointmentLemmas OperationsClaimDefs OperationsFacts.
Import PipelineClaimDefs.

(** The operations generator touches three files only. *)
Lemma operations_main_keeps shuffle rnd (fs : FileSystem) name :
  name <> Operations.operationsFile ->
  name <> Operations.staffHoursFile ->
  name <> Operations.equipmentUsageFile ->
  fst (Operations.main shuffle rnd fs) !! name = fs !! name.
Proof.
  intros H1 H2 H3. unfold Operations.main.
  destruct (Operations.readAppointmentData fs) as [[err | index] readLog]; [reflexivity|].
  unfold writeFileSync. cbn [fst]. by rewrite !lookup_insert_ne.
Qed.

(** The appointment generator touches its output only. *)
Lemma script_keeps zone rnd (fs fs1 : FileSystem) log name :
  Appointments.script zone rnd fs = Some (fs1, log) ->
  name <> Appointments.outputFile ->
  fs1 !! name = fs !! name.
Proof.
  unfold Appointments.script. intros H Hne.
  destruct (Appointments.run zone rnd) as [rows|]; [|discriminate].
  simpl in H. destruct (Appointments.convertToCSV rows) as [text|]; [|discriminate].
  simpl in H. injection H as <- _. unfold writeFileSync. by rewrite lookup_insert_ne.
Qed.

Lemma upstream_keeps shuffle rndAppointments rndOperations (fs fs' : FileSystem) :
  upstream shuffle rndAppointments rndOperations fs = Some fs' ->
  fs' !! Financial.operationsFile = fs !! Financial.operationsFile.
Proof.
  unfold upstream. intros H.
  destruct (Appointments.script JsDate.utc rndAppointments fs) as [[fs1 log]|] eqn:Hscript;
    [|discriminate].
  simpl in H. injection H as <-.
  rewrite operations_main_keeps by discriminate.
  apply (script_keeps _ _ _ _ _ _ Hscript). discriminate.
Qed.

Lemma readOperations_missing (fs : FileSystem) :
  fs !! Financial.operationsFile = None ->
  Financial.readOperations fs
  = (∅, [Info "Operations data file not found, will generate synthetic data"]).
Proof.
  intros H. unfold Financial.readOperations, existsSync. rewrite H.
  rewrite bool_decide_eq_false_2; [reflexivity|]. by intros [x Hx].
Qed.

Lemma readAppointments_missing (fs : FileSystem) :
  fs !! Financial.appointmentsFile = None ->
  Financial.readAppointments fs
  = (∅, [Info "Appointment data file not found, will generate synthetic data"]).
Proof.
  intros H. unfold Financial.readAppointments, existsSync. rewrite H.
  rewrite bool_decide_eq_false_2; [reflexivity|]. by intros [x Hx].
Qed.

Lemma readAppointments_present (fs : FileSystem) data :
  fs !! Financial.appointmentsFile = Some data ->
  Financial.readAppointments fs
  = (foldl Financial.accumulateAppointment ∅ (Csv.parse data),
     [Info "Successfully processed appointment data"]).
Proof.
  intros H. unfold Financial.readAppointments, existsSync, readFile. rewrite H.
  rewrite bool_decide_eq_true_2; [reflexivity|]. by eexists.
Qed.

Lemma operations_index_empty (fs : FileSystem) :
  fs !! Financial.operationsFile = None ->
  Financial.operationsByLocationMonth (indexOf fs) = ∅.
Proof.
  intros H. unfold indexOf, Financial.readExistingData.
  rewrite (readOperations_missing fs H).
  by destruct (Financial.readAppointments fs).
Qed.

Lemma appointments_index_empty (fs : FileSystem) :
  fs !! Financial.appointmentsFile = None ->
  Financial.appointmentsByLocationMonth (indexOf fs) = ∅.
Proof.
  intros H. unfold indexOf, Financial.readExistingData.
  rewrite (readAppointments_missing fs H).
  by destruct (Financial.readOperations fs).
Qed.

Lemma appointments_index_present (fs : FileSystem) data :
  fs !! Financial.appointmentsFile = Some data ->
  Financial.appointmentsByLocationMonth (indexOf fs)
  = foldl Financial.accumulateAppointment ∅ (Csv.parse data).
Proof.
  intros H. unfold indexOf, Financial.readExistingData.
  rewrite (readAppointments_present fs data H).
  by destruct (Financial.readOperations fs).
Qed.

(** The run on [steady] as a script. *)
Lemma steady_script (fs : FileSystem) :
  Appointments.script JsDate.utc steady fs
  = Some (<[Appointments.outputFile := steadyFile]> fs,
          [Info "Created 1 dental appointment records";
           Info "Data saved to 'Pat_App_Data.csv'"]).
Proof.
  unfold Appointments.script. rewrite steady_run. reflexivity.
Qed.

Lemma steady_upstream shuffle rnd :
  upstream shuffle steady rnd ∅
  = Some (fst (Operations.main shuffle rnd (<[Appointments.outputFile := steadyFile]> ∅))).
Proof. unfold upstream. rewrite steady_script. reflexivity. Qed.

Lemma steady_index :
  foldl Financial.accumulateAppointment ∅ (Csv.parse steadyFile)
  = {[ "LOC003-2023-7" := steadyBucket ]}.
Proof. vm_compute. reflexivity. Qed.

Lemma steady_bucket shuffle rnd :
  appointmentBucket
    (fst (Operations.main shuffle rnd (<[Appointments.outputFile := steadyFile]> ∅)))
    (JsDate.make 2023 6 1) eastValley
  = Some steadyBucket.
Proof.
  unfold appointmentBucket.
  rewrite (appointments_index_present _ steadyFile).
  - rewrite steady_index. reflexivity.
  - rewrite operations_main_keeps by discriminate. apply lookup_insert_eq.
Qed.

(** The financial generator divides without a guard as well: a month
    with one completed appointment presents no treatment plan, and its
    two plan rates are the text of 0 / 0. *)
Lemma plan_rates_of_a_quiet_month :
  let record :=
    fst (Financial.generateMonthlyFinancialData (JsDate.make 2023 6 1) eastValley
           {| Financial.appointmentsByLocationMonth := {[ "LOC003-2023-7" := steadyBucket ]};
              Financial.operationsByLocationMonth := ∅ |} OperationsClaimDefs.half 0%nat) in
  Obj.get "Treatment_Plans_Presented" record = Obj.VInt 0 /\
  Obj.get "Case_Acceptance_Rate" record = Obj.VStr "NaN" /\
  Obj.get "Treatment_Completion_Rate" record = Obj.VStr "NaN".
Proof. vm_compute. repeat split; reflexivity. Qed.
End PipelineFacts.

Module FinancialFacts.
Import Rand Financial.

Lemma mapM_related {A B} (P : A -> B -> Prop) (f : A -> R B) rnd l n :
  (forall x k, P x (fst (f x rnd k))) ->
  Forall2 P l (fst (mapM f l rnd n)).
Proof.
  intros Hf. revert n. induction l as [|x l IH]; intros n; [constructor|].
  simpl. unfold mbind, R_bind, bind.
  specialize (Hf x n). destruct (f x rnd n) as [y n1].
  specialize (IH n1). destruct (mapM f l rnd n1) as [ys n2].
  constructor; assumption.
Qed.

Lemma mapM_length {A B} (f : A -> R B) rnd l n :
  length (fst (mapM f l rnd n)) = length l.
Proof.
  symmetry. apply (Forall2_length (fun _ _ => True)).
  by apply mapM_related.
Qed.

Lemma insertRecord_length row sorted :
  length (insertRecord row sorted) = S (length sorted).
Proof.
  induction sorted as [|other rest IH]; [reflexivity|].
  simpl. destruct (comesAfter row other); simpl; [by rewrite IH | reflexivity].
Qed.

Lemma sortRecords_length rows : length (sortRecords rows) = length rows.
Proof.
  induction rows as [|row rows IH]; [reflexivity|].
  simpl. by rewrite insertRecord_length, IH.
Qed.

(** The enumeration of the months stops by the loop condition. *)
Lemma monthsFrom_stable bound extra date :
  (length (monthsFrom bound date) < bound)%nat ->
  monthsFrom (bound + extra) date = monthsFrom bound date.
Proof.
  revert date. induction bound as [|bound IH]; intros date Hlen; [simpl in Hlen; lia|].
  simpl in *. destruct (date <=? END_DATE); [|reflexivity].
  simpl in Hlen. f_equal. apply IH. lia.
Qed.

Lemma monthDates_length location :
  location ∈ locations -> length (monthDates location) = 64%nat.
Proof.
  intros H. unfold locations in H.
  repeat (apply elem_of_cons in H as [-> | H]; [vm_compute; reflexivity|]).
  by apply elem_of_nil in H.
Qed.

Lemma monthDates_complete location extra :
  location ∈ locations ->
  monthsFrom (monthBound + extra) (startDateOf location) = monthDates location.
Proof.
  intros H. unfold monthDates, locations in *.
  repeat (apply elem_of_cons in H as [-> | H];
          [apply monthsFrom_stable;
           match goal with
           | |- (length ?months < _)%nat =>
               assert (length months = 64%nat) as -> by (vm_compute; reflexivity)
           end; unfold monthBound; lia|]).
  exfalso. by apply elem_of_nil in H.
Qed.

Lemma concat_related {A} (size : A -> nat) (rows : list (list Obj.Object)) (places : list A) :
  Forall2 (fun place group => length group = size place) places rows ->
  length (concat rows) = sum_list (map size places).
Proof.
  induction 1 as [|place group places rows Hgroup _ IH]; [reflexivity|].
  simpl. rewrite length_app, Hgroup, IH. reflexivity.
Qed.

(** Every run gives one record for each location and month. *)
Lemma dataset_length existingData rnd n :
  length (fst (generateFinancialDataset existingData rnd n)) = 256%nat.
Proof.
  unfold generateFinancialDataset, mbind, R_bind, bind.
  pose proof (mapM_related
    (fun location group => length group = length (monthDates location))
    (monthlyRows existingData) rnd locations n) as Hgroups.
  destruct (mapM (monthlyRows existingData) locations rnd n) as [byLocation n1].
  cbn [fst mret R_ret ret] in *. rewrite length_map, sortRecords_length.
  rewrite (concat_related (fun location => length (monthDates location))
             byLocation locations).
  - vm_compute. reflexivity.
  - apply Hgroups. intros location k. unfold monthlyRows. apply mapM_length.
Qed.

(** [main] writes its file, whatever it found. *)
Lemma main_run rnd (fs : FileSystem) :
  main rnd fs
  = (writeFileSync outputFile
       (convertToCSV (fst (generateFinancialDataset (fst (readExistingData fs)) rnd 0%nat)))
       fs,
     [Info "Reading existing data and generating financial data..."] ++
     snd (readExistingData fs) ++
     [ Info "Generated 256 financial records";
       Info ("Data saved to " +:+ Obj.quoted outputFile) ]).
Proof.
  unfold main. destruct (readExistingData fs) as [existingData readLog].
  cbn [fst snd]. rewrite dataset_length. reflexivity.
Qed.

Lemma readExistingData_log (fs : FileSystem) :
  snd (readExistingData fs) = snd (readAppointments fs) ++ snd (readOperations fs).
Proof.
  unfold readExistingData.
  by destruct (readAppointments fs), (readOperations fs).
Qed.
End FinancialFacts.

Module PipelineClaims.
Import Rand AppointmentClaimDefs OperationsClaimDefs OperationsFacts.
Import PipelineClaimDefs PipelineFacts FinancialFacts.

(** C1, the claim as stated fails: after the run of the pipeline on
    [steady] the collection rate of East Valley for July 2023 is not
    drawn, it is the amount paid over the amount charged of the
    appointment index. *)
Lemma collection_rate_from_appointments : ~ operationsMetricsSynthetic.
Proof.
  intros H.
  specialize (H keepOrder steady half ∅ _ (lookup_empty _) (steady_upstream keepOrder half)
                (JsDate.make 2023 6 1) eastValley (Js.Num 0) (Js.Num 0)).
  destruct H as (_ & Hrate & _).
  rewrite steady_bucket in Hrate. unfold operationsBucket in Hrate.
  rewrite operations_index_empty in Hrate
    by (rewrite operations_main_keeps by discriminate; reflexivity).
  rewrite lookup_empty in Hrate.
  apply (f_equal (fun draw => snd (draw half 0%nat))) in Hrate.
  vm_compute in Hrate. discriminate Hrate.
Qed.

(** C1, amended. The financial generator reads the operations table
    from a file that neither upstream script writes.  When the working
    directory does not hold that file before the run, the operations index
    is empty after it: the labour costs, the chair utilization and the
    patient counts take their estimate, and the collection rate takes the
    next arm, which is paid over charged from the appointment index where
    that has a charge, and a draw only where it has none. *)
Theorem operations_index_stays_empty shuffle rndAppointments rndOperations
    (fs fs' : FileSystem) :
  fs !! Financial.operationsFile = None ->
  upstream shuffle rndAppointments rndOperations fs = Some fs' ->
  Financial.operationsFile <> Operations.operationsFile /\
  Financial.operationsByLocationMonth (indexOf fs') = ∅ /\
  forall date location totalRevenue numberOfProcedures,
    let a := appointmentBucket fs' date location in
    let o := operationsBucket fs' date location in
    Financial.laborCosts o totalRevenue = Financial.syntheticLabor totalRevenue /\
    Financial.chairUtilizationOf o = Financial.syntheticChairUtilization /\
    Financial.patientCounts o numberOfProcedures
    = Financial.estimatedPatients numberOfProcedures /\
    Financial.collectionRateOf location a o
    = match a with
      | Some bucket =>
          if 0 <? Financial.totalChargedAmount bucket
          then mret (Js.div (Js.ofZ (Financial.totalAmountPaid bucket))
                            (Js.ofZ (Financial.totalChargedAmount bucket)))
          else Financial.syntheticCollectionRate location
      | None => Financial.syntheticCollectionRate location
      end.
Proof.
  intros Hfs Hrun.
  assert (Hempty : Financial.operationsByLocationMonth (indexOf fs') = ∅).
  { apply operations_index_empty. by rewrite (upstream_keeps _ _ _ _ _ Hrun). }
  split; [discriminate|]. split; [exact Hempty|].
  intros date location totalRevenue numberOfProcedures a o.
  assert (Ho : o = None) by (unfold o, operationsBucket; by rewrite Hempty, lookup_empty).
  rewrite Ho. repeat split; reflexivity.
Qed.

Lemma operations_index_stays_empty_witness :
  let fs' := fst (Operations.main keepOrder half (<[Appointments.outputFile := steadyFile]> ∅)) in
  Financial.operationsByLocationMonth (indexOf fs') = ∅ /\
  Financial.chairUtilizationOf (operationsBucket fs' (JsDate.make 2023 6 1) eastValley)
  = Financial.syntheticChairUtilization /\
  Financial.collectionRateOf eastValley
    (appointmentBucket fs' (JsDate.make 2023 6 1) eastValley)
    (operationsBucket fs' (JsDate.make 2023 6 1) eastValley)
  = mret (Js.div (Js.ofZ 27) (Js.ofZ 111)).
Proof.
  intros fs'.
  destruct (operations_index_stays_empty keepOrder steady half ∅ fs'
              (lookup_empty _) (steady_upstream keepOrder half))
    as (_ & Hempty & Hmetrics).
  split; [exact Hempty|].
  destruct (Hmetrics (JsDate.make 2023 6 1) eastValley (Js.Num 0) (Js.Num 0))
    as (_ & Hchair & _ & Hrate).
  split; [exact Hchair|].
  rewrite Hrate. unfold fs'. rewrite steady_bucket. reflexivity.
Defined.

(** C2, amended. The operations generator does not survive a missing
    appointment file: it logs the read error and the failure, and writes
    nothing.  The financial generator does: each of its two inputs that is
    missing is reported and leaves its index empty, and the run writes its
    256 records all the same. *)
Theorem missing_input_behaviour shuffle rnd (fs : FileSystem) :
  (fs !! Operations.inputFile = None ->
   fst (Operations.main shuffle rnd fs) = fs /\
   Failure "Error generating operations data:" "ENOENT: no such file or directory"
   ∈ snd (Operations.main shuffle rnd fs)) /\
  (fs !! Financial.appointmentsFile = None ->
   Financial.appointmentsByLocationMonth (indexOf fs) = ∅ /\
   Info "Appointment data file not found, will generate synthetic data"
   ∈ snd (Financial.main rnd fs)) /\
  (fs !! Financial.operationsFile = None ->
   Financial.operationsByLocationMonth (indexOf fs) = ∅ /\
   Info "Operations data file not found, will generate synthetic data"
   ∈ snd (Financial.main rnd fs)) /\
  is_Some (fst (Financial.main rnd fs) !! Financial.outputFile) /\
  Info "Generated 256 financial records" ∈ snd (Financial.main rnd fs).
Proof.
  rewrite main_run. cbn [fst snd]. rewrite readExistingData_log.
  split; [|split; [|split; [|split]]].
  - intros H. rewrite (main_missing shuffle rnd fs H). cbn [fst snd].
    split; [reflexivity | set_solver].
  - intros H. split; [by apply appointments_index_empty|].
    rewrite (readAppointments_missing fs H). set_solver.
  - intros H. split; [by apply operations_index_empty|].
    rewrite (readOperations_missing fs H). set_solver.
  - unfold writeFileSync. rewrite lookup_insert_eq. by eexists.
  - set_solver.
Qed.

Lemma missing_input_behaviour_witness :
  fst (Operations.main keepOrder half ∅) = ∅ /\
  Financial.appointmentsByLocationMonth (indexOf ∅) = ∅ /\
  Financial.operationsByLocationMonth (indexOf ∅) = ∅ /\
  is_Some (fst (Financial.main half ∅) !! Financial.outputFile).
Proof.
  destruct (missing_input_behaviour keepOrder half ∅) as (Hops & Happ & Hfin & Hout & _).
  split; [exact (proj1 (Hops (lookup_empty _)))|].
  split; [exact (proj1 (Happ (lookup_empty _)))|].
  split; [exact (proj1 (Hfin (lookup_empty _)))|].
  exact Hout.
Defined.
End PipelineClaims.
